(** * Rust pretty-printers for LLDB: a shallow embedding

    The development follows [rust_types.py] and [lldb_providers.py].
    Python values are modelled as follows.

    - [str] is [string]; each [ascii] stands for the code point of the
      same number (U+0000 to U+00FF).  [bytes] is [list byte], and the
      text produced by decoding bytes is a list of code points.
    - [int] is [Z]; what the debugger hands out as an unsigned integer
      (byte sizes, basic-type tags, [GetValueAsUnsigned]) is [N].
    - A raised exception is the [Raise] branch of [result].
    - The debugger objects ([SBType], [SBValue]) are finite trees; a
      lookup that finds nothing answers with the invalid object, as the
      debugger does. *)

From Stdlib Require Import ZArith NArith List Bool Lia.
From Stdlib Require Import Ascii String.
From Stdlib Require Import Strings.Byte.
From Stdlib Require Import Decimal DecimalString DecimalN DecimalPos.
Import ListNotations.

#[local] Open Scope string_scope.
#[local] Open Scope Z_scope.

(** ** Python: exceptions *)

Inductive exn : Type :=
| IndexError
| ValueError
| AttributeError (attr : string)
| Exception (fmt arg : string).

Inductive result (A : Type) : Type :=
| Ok (a : A)
| Raise (e : exn).

Arguments Ok {A} a.
Arguments Raise {A} e.

Definition bind {A B : Type} (r : result A) (k : A -> result B) : result B :=
  match r with
  | Ok a => k a
  | Raise e => Raise e
  end.

Notation "x <- r ;; k" := (bind r (fun x => k))
  (at level 61, r at next level, right associativity).

(** ** Python: [str] methods used by the providers *)

Module Py.

Definition len (s : string) : Z := Z.of_nat (String.length s).

(** [f"{n}"] for an [int]. *)
Definition str_of_int (n : Z) : string :=
  NilEmpty.string_of_int (Z.to_int n).

(** [f"{n}"] for an unsigned quantity. *)
Definition str_of_uint (n : N) : string :=
  NilEmpty.string_of_uint (N.to_uint n).

Definition startswith (s p : string) : bool := String.prefix p s.

Fixpoint endswith (s suf : string) : bool :=
  (s =? suf)%string ||
  match s with
  | EmptyString => false
  | String _ s' => endswith s' suf
  end.

(** [s[:-k]] *)
Definition drop_last (k : nat) (s : string) : string :=
  substring 0 (String.length s - k) s.

(** [s[-k:]] *)
Definition take_last (k : nat) (s : string) : string :=
  substring (String.length s - k) k s.

(** [s[k:]] *)
Definition drop_first (k : nat) (s : string) : string :=
  substring k (String.length s - k) s.

Definition removesuffix (s suf : string) : string :=
  if endswith s suf then drop_last (String.length suf) s else s.

(** [s[0]] *)
Definition first_char (s : string) : result ascii :=
  match s with
  | EmptyString => Raise IndexError
  | String c _ => Ok c
  end.

(** [s[-1]] *)
Definition last_char (s : string) : result ascii :=
  match String.get (String.length s - 1) s with
  | Some c => Ok c
  | None => Raise IndexError
  end.

(** First occurrence of a non-empty [sep]: the text before it and the
    text after it. *)
Fixpoint find_sep (sep s : string) : option (string * string) :=
  if String.prefix sep s then Some ("", drop_first (String.length sep) s)
  else
    match s with
    | EmptyString => None
    | String c s' =>
        match find_sep sep s' with
        | Some (before, after) => Some (String c before, after)
        | None => None
        end
    end.

(** [s.partition(sep)] *)
Definition partition (s sep : string) : string * string * string :=
  match find_sep sep s with
  | Some (before, after) => (before, sep, after)
  | None => (s, "", "")
  end.

(** [s.split(sep, 1)] *)
Definition split1 (s sep : string) : list string :=
  match find_sep sep s with
  | Some (before, after) => [before; after]
  | None => [s]
  end.

Fixpoint lstrip_by (p : ascii -> bool) (s : string) : string :=
  match s with
  | EmptyString => EmptyString
  | String c s' => if p c then lstrip_by p s' else s
  end.

Fixpoint rstrip_by (p : ascii -> bool) (s : string) : string :=
  match s with
  | EmptyString => EmptyString
  | String c s' =>
      match rstrip_by p s' with
      | EmptyString => if p c then EmptyString else String c EmptyString
      | r => String c r
      end
  end.

Fixpoint mem_char (c : ascii) (chars : string) : bool :=
  match chars with
  | EmptyString => false
  | String d chars' => Ascii.eqb c d || mem_char c chars'
  end.

(** [s.lstrip(chars)] and [s.rstrip(chars)] *)
Definition lstrip (s chars : string) : string :=
  lstrip_by (fun c => mem_char c chars) s.

Definition rstrip (s chars : string) : string :=
  rstrip_by (fun c => mem_char c chars) s.

(** [c.isspace()] on U+0000 to U+00FF. *)
Definition isspace_char (c : ascii) : bool :=
  let n := N_of_ascii c in
  ((9 <=? n) && (n <=? 13) || (28 <=? n) && (n <=? 32)
   || (n =? 133) || (n =? 160))%N.

(** [s.strip()] *)
Definition strip (s : string) : string :=
  rstrip_by isspace_char (lstrip_by isspace_char s).

(** [c.isdigit()] on U+0000 to U+00FF: the ten decimal digits and the
    superscripts two, three and one. *)
Definition isdigit_char (c : ascii) : bool :=
  let n := N_of_ascii c in
  ((48 <=? n) && (n <=? 57) || (n =? 178) || (n =? 179) || (n =? 185))%N.

Fixpoint all_chars (p : ascii -> bool) (s : string) : bool :=
  match s with
  | EmptyString => true
  | String c s' => p c && all_chars p s'
  end.

(** [s.isdigit()] *)
Definition isdigit (s : string) : bool :=
  match s with
  | EmptyString => false
  | _ => all_chars isdigit_char s
  end.

(** [int(s)] for a string that passed [isdigit]: decimal digits parse,
    anything else is a [ValueError].  This is [int] on strings of at
    most 4300 characters; a longer numeral the interpreter refuses with
    a [ValueError] whatever its digits, so what is proved of longer
    strings is stated with that bound. *)
Definition int (s : string) : result Z :=
  match s with
  | EmptyString => Raise ValueError
  | _ =>
      match NilEmpty.uint_of_string s with
      | Some d => Ok (Z.of_N (N.of_uint d))
      | None => Raise ValueError
      end
  end.

(** Line boundaries of [splitlines] on U+0000 to U+00FF, apart from the
    pair CR LF which is handled where it is met. *)
Definition is_linebreak (c : ascii) : bool :=
  let n := N_of_ascii c in
  ((10 <=? n) && (n <=? 13) || (28 <=? n) && (n <=? 30) || (n =? 133))%N.

Definition CR : ascii := ascii_of_N 13.
Definition LF : ascii := ascii_of_N 10.

(** [s.splitlines()] *)
Fixpoint splitlines (s : string) : list string :=
  match s with
  | EmptyString => []
  | String c s' =>
      if is_linebreak c then
        match s' with
        | String d s'' =>
            if Ascii.eqb c CR && Ascii.eqb d LF
            then EmptyString :: splitlines s''
            else EmptyString :: splitlines s'
        | EmptyString => [EmptyString]
        end
      else
        match splitlines s' with
        | [] => [String c EmptyString]
        | l :: ls => String c l :: ls
        end
  end.

(** [sep.join(parts)] *)
Definition join (sep : string) (parts : list string) : string :=
  String.concat sep parts.

(** [x in (a, b)] for strings. *)
Definition str_in (x : string) (l : list string) : bool :=
  existsb (String.eqb x) l.

(** [s.removeprefix(p)] *)
Definition removeprefix (s p : string) : string :=
  if startswith s p then drop_first (String.length p) s else s.

(** [s.replace(old, new, 1)] for a non-empty [old]. *)
Definition replace_first (s old new : string) : string :=
  match find_sep old s with
  | Some (before, after) => before ++ new ++ after
  | None => s
  end.

(** [s.replace(old, new)] for a non-empty [old]: occurrences are taken
    from the left and do not overlap; [skip] counts the characters of
    an occurrence still to pass over. *)
Fixpoint replace_from (skip : nat) (old new s : string) : string :=
  match s with
  | EmptyString => EmptyString
  | String c s' =>
      match skip with
      | S k => replace_from k old new s'
      | O =>
          if String.prefix old s
          then new ++ replace_from (String.length old - 1) old new s'
          else String c (replace_from 0 old new s')
      end
  end.

Definition replace (s old new : string) : string := replace_from 0 old new s.

End Py.

(** ** The debugger's objects *)

(** What a type descriptor carries besides its shape.  A static field is
    kept with the names of the enumerators of its own type, the only
    thing the providers read from it. *)
Record TypeInfo : Type := {
  ti_name : string;
  ti_byte_size : N;
  ti_basic_type : N;
  ti_static_fields : list (string * list string)
}.

Inductive SBType : Type :=
| SBType_invalid
| SBType_plain (i : TypeInfo)
| SBType_pointer (i : TypeInfo) (pointee : SBType)
| SBType_reference (i : TypeInfo) (pointee : SBType)
| SBType_array (i : TypeInfo) (element : SBType).

Definition type_info (t : SBType) : option TypeInfo :=
  match t with
  | SBType_invalid => None
  | SBType_plain i | SBType_pointer i _ | SBType_reference i _
  | SBType_array i _ => Some i
  end.

Definition GetName (t : SBType) : string :=
  match type_info t with Some i => ti_name i | None => "" end.

Definition GetByteSize (t : SBType) : N :=
  match type_info t with Some i => ti_byte_size i | None => 0%N end.

Definition GetBasicType (t : SBType) : N :=
  match type_info t with Some i => ti_basic_type i | None => 0%N end.

Definition is_pointer (t : SBType) : bool :=
  match t with SBType_pointer _ _ => true | _ => false end.

Definition is_reference (t : SBType) : bool :=
  match t with SBType_reference _ _ => true | _ => false end.

Definition GetPointeeType (t : SBType) : SBType :=
  match t with
  | SBType_pointer _ p | SBType_reference _ p => p
  | _ => SBType_invalid
  end.

Definition GetArrayElementType (t : SBType) : SBType :=
  match t with
  | SBType_array _ e => e
  | _ => SBType_invalid
  end.

(** [t.GetStaticFieldWithName(name)]: [None] is the invalid field. *)
Definition GetStaticFieldWithName (t : SBType) (name : string)
  : option (list string) :=
  match type_info t with
  | Some i =>
      match find (fun f => String.eqb (fst f) name) (ti_static_fields i) with
      | Some f => Some (snd f)
      | None => None
      end
  | None => None
  end.

(** The basic-type enumeration of the debugger, in its own order; the
    tag of a kind is its position. *)
Inductive BasicType : Type :=
| eBasicTypeInvalid | eBasicTypeVoid | eBasicTypeChar | eBasicTypeSignedChar
| eBasicTypeUnsignedChar | eBasicTypeWChar | eBasicTypeSignedWChar
| eBasicTypeUnsignedWChar | eBasicTypeChar16 | eBasicTypeChar32
| eBasicTypeChar8 | eBasicTypeShort | eBasicTypeUnsignedShort
| eBasicTypeInt | eBasicTypeUnsignedInt | eBasicTypeLong
| eBasicTypeUnsignedLong | eBasicTypeLongLong | eBasicTypeUnsignedLongLong
| eBasicTypeInt128 | eBasicTypeUnsignedInt128 | eBasicTypeBool
| eBasicTypeHalf | eBasicTypeFloat | eBasicTypeDouble | eBasicTypeLongDouble
| eBasicTypeFloatComplex | eBasicTypeDoubleComplex
| eBasicTypeLongDoubleComplex | eBasicTypeObjCID | eBasicTypeObjCClass
| eBasicTypeObjCSel | eBasicTypeNullPtr | eBasicTypeOther.

Definition all_basic_types : list BasicType :=
  [ eBasicTypeInvalid; eBasicTypeVoid; eBasicTypeChar; eBasicTypeSignedChar;
    eBasicTypeUnsignedChar; eBasicTypeWChar; eBasicTypeSignedWChar;
    eBasicTypeUnsignedWChar; eBasicTypeChar16; eBasicTypeChar32;
    eBasicTypeChar8; eBasicTypeShort; eBasicTypeUnsignedShort;
    eBasicTypeInt; eBasicTypeUnsignedInt; eBasicTypeLong;
    eBasicTypeUnsignedLong; eBasicTypeLongLong; eBasicTypeUnsignedLongLong;
    eBasicTypeInt128; eBasicTypeUnsignedInt128; eBasicTypeBool;
    eBasicTypeHalf; eBasicTypeFloat; eBasicTypeDouble; eBasicTypeLongDouble;
    eBasicTypeFloatComplex; eBasicTypeDoubleComplex;
    eBasicTypeLongDoubleComplex; eBasicTypeObjCID; eBasicTypeObjCClass;
    eBasicTypeObjCSel; eBasicTypeNullPtr; eBasicTypeOther ].

Definition basic_type_tag (b : BasicType) : N :=
  match b with
  | eBasicTypeInvalid => 0 | eBasicTypeVoid => 1 | eBasicTypeChar => 2
  | eBasicTypeSignedChar => 3 | eBasicTypeUnsignedChar => 4
  | eBasicTypeWChar => 5 | eBasicTypeSignedWChar => 6
  | eBasicTypeUnsignedWChar => 7 | eBasicTypeChar16 => 8
  | eBasicTypeChar32 => 9 | eBasicTypeChar8 => 10 | eBasicTypeShort => 11
  | eBasicTypeUnsignedShort => 12 | eBasicTypeInt => 13
  | eBasicTypeUnsignedInt => 14 | eBasicTypeLong => 15
  | eBasicTypeUnsignedLong => 16 | eBasicTypeLongLong => 17
  | eBasicTypeUnsignedLongLong => 18 | eBasicTypeInt128 => 19
  | eBasicTypeUnsignedInt128 => 20 | eBasicTypeBool => 21
  | eBasicTypeHalf => 22 | eBasicTypeFloat => 23 | eBasicTypeDouble => 24
  | eBasicTypeLongDouble => 25 | eBasicTypeFloatComplex => 26
  | eBasicTypeDoubleComplex => 27 | eBasicTypeLongDoubleComplex => 28
  | eBasicTypeObjCID => 29 | eBasicTypeObjCClass => 30
  | eBasicTypeObjCSel => 31 | eBasicTypeNullPtr => 32 | eBasicTypeOther => 33
  end%N.

(** ** rust_types.py *)

Module rust_types.

Definition NUM_TYPE_MAP : list (bool * bool) :=
  [ (false, false);
    (false, false);
    (true, false);
    (true, true);
    (true, false);
    (true, false);
    (true, true);
    (true, false);
    (true, false);
    (true, false);
    (true, false);
    (true, true);
    (true, false);
    (true, true);
    (true, false);
    (true, true);
    (true, false);
    (true, true);
    (true, false);
    (true, true);
    (true, false);
    (false, false);
    (true, true);
    (true, true);
    (true, true);
    (true, true);
    (true, true);
    (true, true);
    (true, true);
    (false, false);
    (false, false);
    (false, false);
    (false, false);
    (false, false) ].

(** [NUM_TYPE_MAP[basic_type]] *)
Definition num_type_map_at (basic_type : N) : result (bool * bool) :=
  match nth_error NUM_TYPE_MAP (N.to_nat basic_type) with
  | Some e => Ok e
  | None => Raise IndexError
  end.

Definition type_name_from_type (type : SBType) : result string :=
  let basic_type := GetBasicType type in
  e <- num_type_map_at basic_type ;;
  let '(numeric, signed) := e in
  if negb numeric then
    let name := GetName type in
    Ok name
  else
    let bit_width := (GetByteSize type * 8)%N in
    if (basic_type_tag eBasicTypeHalf <=? basic_type)%N
       && (basic_type <=? basic_type_tag eBasicTypeLongDouble)%N
    then Ok ("f" ++ Py.str_of_uint bit_width)
    else
      let output := if signed then "i" else "u" in
      let output := output ++ Py.str_of_uint bit_width in
      Ok output.

(** [type_name_from_name], which calls itself on what is left of the
    name.  [depth] is the number of nested calls the interpreter still
    allows; [None] is the [RecursionError] raised when they run out.
    The cache of the source stores results and changes none. *)
Fixpoint type_name_from_name (depth : nat) (name : string) : option string :=
  match depth with
  | O => None
  | S depth =>
      if Py.startswith name "enum2$<" then
        let name := Py.replace_first name "enum2$<" "" in
        let name :=
          if Py.endswith name " >" then Py.drop_last 2 name
          else if Py.endswith name ">" then Py.drop_last 1 name
          else name in
        type_name_from_name depth name
      else if Py.startswith name "core::option::Option" then
        let name := Py.replace_first name "core::option::Option<" "" in
        let name :=
          if Py.endswith name " >" then Py.drop_last 2 name
          else if Py.endswith name ">" then Py.drop_last 1 name
          else name in
        match type_name_from_name depth name with
        | Some inner => Some ("Option<" ++ inner ++ ">")
        | None => None
        end
      else if Py.startswith name "alloc::vec::Vec" then
        let name := Py.removeprefix name "alloc::vec::Vec<" in
        let name := Py.replace_first name ",alloc::alloc::Global>" "" in
        match type_name_from_name depth name with
        | Some inner => Some ("Vec<" ++ inner ++ ">")
        | None => None
        end
      else Some name
  end.

End rust_types.

(** ** Values *)

#[local] Set Warnings "-register-all".

(** A value as the debugger presents it: its name, its type, the text
    of its scalar value if it has one ([.value]), the same read as an
    unsigned integer, its printed description ([str(value)]), its
    children, and the address it was built at when a provider built it. *)
Inductive SBValue : Type :=
  mkSBValue {
    val_name : string;
    val_type : SBType;
    val_value : option string;
    val_unsigned : N;
    val_description : string;
    val_children : list SBValue;
    val_address : option Z
  }.

(** The invalid value, the answer to every lookup that finds nothing. *)
Definition SBValue_invalid : SBValue :=
  {| val_name := "";
     val_type := SBType_invalid;
     val_value := None;
     val_unsigned := 0%N;
     val_description := "No value";
     val_children := [];
     val_address := None |}.

Definition GetType (v : SBValue) : SBType := val_type v.
Definition GetTypeName (v : SBValue) : string := GetName (val_type v).
Definition GetValueAsUnsigned (v : SBValue) : N := val_unsigned v.
Definition GetNumChildren (v : SBValue) : nat := List.length (val_children v).

Definition GetChildAtIndex (v : SBValue) (i : nat) : SBValue :=
  nth i (val_children v) SBValue_invalid.

Definition GetChildMemberWithName (v : SBValue) (name : string) : SBValue :=
  match find (fun c => String.eqb (val_name c) name) (val_children v) with
  | Some c => c
  | None => SBValue_invalid
  end.

(** The providers are given raw values, so the raw view of a value is
    the value. *)
Definition GetNonSyntheticValue (v : SBValue) : SBValue := v.

(** [f"{child.value}"]: a value without scalar text prints as [None]. *)
Definition value_text (v : SBValue) : string :=
  match val_value v with
  | Some s => s
  | None => "None"
  end.

(** [type_name_from_val] of [rust_types.py]: [None] as for
    [type_name_from_name]. *)
Definition type_name_from_val (depth : nat) (valobj : SBValue)
  : option (result string) :=
  let type := GetType valobj in
  let basic_type := GetBasicType type in
  match rust_types.num_type_map_at basic_type with
  | Raise e => Some (Raise e)
  | Ok (numeric, signed) =>
      if negb numeric then
        match rust_types.type_name_from_name depth (GetName type) with
        | Some name => Some (Ok (Py.replace name " >" ">"))
        | None => None
        end
      else
        let bit_width := (GetByteSize type * 8)%N in
        if (basic_type_tag eBasicTypeHalf <=? basic_type)%N
           && (basic_type <=? basic_type_tag eBasicTypeLongDouble)%N
        then Some (Ok ("f" ++ Py.str_of_uint bit_width))
        else
          let output := if signed then "i" else "u" in
          let output := output ++ Py.str_of_uint bit_width in
          Some (Ok output)
  end.

(** What the providers ask of the debugged target and process. *)
Class Host : Type := {
  (** [target.FindFirstType(name)], the invalid type when none has the
      name. *)
  FindFirstType : string -> SBType;
  (** The target's memory at an address, viewed at a type. *)
  ValueAtAddress : Z -> SBType -> SBValue;
  (** [process.ReadMemory(address, size, error)]: the bytes, or the
      text of the error. *)
  ReadMemory : N -> N -> list byte + string;
  (** [type.GetUnqualifiedType()] *)
  GetUnqualifiedType : SBType -> SBType
}.

(** [v.CreateValueFromAddress(name, address, type)] *)
Definition CreateValueFromAddress `{Host}
  (name : string) (address : Z) (type : SBType) : SBValue :=
  let m := ValueAtAddress address type in
  {| val_name := name;
     val_type := type;
     val_value := val_value m;
     val_unsigned := val_unsigned m;
     val_description := val_description m;
     val_children := val_children m;
     val_address := Some address |}.

(** ** Python: [bytes.decode("utf8", "replace")] *)

Module Utf8.

Definition REPLACEMENT : N := 65533.

Definition is_continuation (b : N) : bool := ((128 <=? b) && (b <=? 191))%N.

Definition low6 (b : N) : N := N.land b 63.

Definition cp2 (c c2 : N) : N :=
  N.lor (N.shiftl (N.land c 31) 6) (low6 c2).

Definition cp3 (c c2 c3 : N) : N :=
  N.lor (N.shiftl (N.land c 15) 12) (N.lor (N.shiftl (low6 c2) 6) (low6 c3)).

Definition cp4 (c c2 c3 c4 : N) : N :=
  N.lor (N.shiftl (N.land c 7) 18)
    (N.lor (N.shiftl (low6 c2) 12) (N.lor (N.shiftl (low6 c3) 6) (low6 c4))).

(** The second byte of a three-byte form is rejected when it is no
    continuation byte, or encodes an overlong form or a surrogate. *)
Definition bad_second3 (c c2 : N) : bool :=
  (negb (is_continuation c2) || (if c2 <? 160 then c =? 224 else c =? 237))%N.

(** The same for a four-byte form: overlong, or beyond U+10FFFF. *)
Definition bad_second4 (c c2 : N) : bool :=
  (negb (is_continuation c2) || (if c2 <? 144 then c =? 240 else c =? 244))%N.

(** Each maximal ill-formed run becomes one replacement character and
    decoding resumes at the byte that broke the run. *)
Fixpoint decode_replace (bs : list byte) : list N :=
  match bs with
  | [] => []
  | b0 :: r0 =>
      let c := Byte.to_N b0 in
      if (c <? 128)%N then c :: decode_replace r0
      else if (c <? 194)%N then REPLACEMENT :: decode_replace r0
      else if (c <? 224)%N then
        match r0 with
        | [] => [REPLACEMENT]
        | b1 :: r1 =>
            let c2 := Byte.to_N b1 in
            if is_continuation c2 then cp2 c c2 :: decode_replace r1
            else REPLACEMENT :: decode_replace r0
        end
      else if (c <? 240)%N then
        match r0 with
        | [] => [REPLACEMENT]
        | b1 :: r1 =>
            let c2 := Byte.to_N b1 in
            if bad_second3 c c2 then REPLACEMENT :: decode_replace r0
            else
              match r1 with
              | [] => [REPLACEMENT]
              | b2 :: r2 =>
                  let c3 := Byte.to_N b2 in
                  if is_continuation c3 then cp3 c c2 c3 :: decode_replace r2
                  else REPLACEMENT :: decode_replace r1
              end
        end
      else if (c <? 245)%N then
        match r0 with
        | [] => [REPLACEMENT]
        | b1 :: r1 =>
            let c2 := Byte.to_N b1 in
            if bad_second4 c c2 then REPLACEMENT :: decode_replace r0
            else
              match r1 with
              | [] => [REPLACEMENT]
              | b2 :: r2 =>
                  let c3 := Byte.to_N b2 in
                  if negb (is_continuation c3)
                  then REPLACEMENT :: decode_replace r1
                  else
                    match r2 with
                    | [] => [REPLACEMENT]
                    | b3 :: r3 =>
                        let c4 := Byte.to_N b3 in
                        if is_continuation c4
                        then cp4 c c2 c3 c4 :: decode_replace r3
                        else REPLACEMENT :: decode_replace r2
                    end
              end
        end
      else REPLACEMENT :: decode_replace r0
  end.

End Utf8.

(** ** lldb_providers.py *)

Import rust_types.

Module RefSyntheticProvider.

(** The prefix one layer contributes, from whether it is a reference and
    from its pointee. *)
Definition layer_part (is_ref : bool) (ptee_type : SBType) : string :=
  let ptee_name := GetName ptee_type in
  if is_pointer ptee_type || is_reference ptee_type then
    if Py.endswith ptee_name "const" then
      if is_ref then "&" else "*const "
    else
      if is_ref then "&mut " else "*mut "
  else
    if Py.startswith ptee_name "const " then
      if is_ref then "&" else "*const "
    else
      if is_ref then "&mut " else "*mut ".

(** The [while] loop of [get_type_name]: [ptee_type] is the pointee of
    [ptr_type] at every turn, so the loop descends the type. *)
Fixpoint layers (ptr_type : SBType) (was_r_ref : bool)
  (name_parts : list string) {struct ptr_type}
  : result (list string * SBType) :=
  match ptr_type with
  | SBType_pointer _ ptee_type | SBType_reference _ ptee_type =>
      let ptr_name := Py.removesuffix (GetName ptr_type) "const" in
      is_ref <- (if was_r_ref then Ok true
                 else c <- Py.last_char ptr_name ;; Ok (Ascii.eqb c "&")) ;;
      let was_r_ref := (Py.take_last 2 ptr_name =? "&&")%string in
      layers ptee_type was_r_ref (name_parts ++ [layer_part is_ref ptee_type])
  | _ => Ok (name_parts, ptr_type)
  end.

Definition get_type_name `{Host} (valobj : SBValue) : result string :=
  let type := GetType valobj in
  r <- layers type false [] ;;
  let '(name_parts, ptr_type) := r in
  last <- type_name_from_type (GetUnqualifiedType ptr_type) ;;
  Ok (Py.join "" (name_parts ++ [last])).

End RefSyntheticProvider.

Module ArraySyntheticProvider.

Record t : Type := {
  valobj : SBValue;
  children : list SBValue;
  length : Z;
  element_type_name : string;
  element_type : SBType
}.

(** The array type built from the element type and the cast to it are
    computed and dropped by the source, so they leave no trace here. *)
Definition update `{Host} (self_valobj : SBValue) : result t :=
  let children := val_children self_valobj in
  let length := Z.of_nat (List.length children) in
  let unresolved_type := GetArrayElementType (GetType self_valobj) in
  element_type_name <- type_name_from_type unresolved_type ;;
  let element_type := FindFirstType element_type_name in
  Ok {| valobj := self_valobj;
        children := children;
        length := length;
        element_type_name := element_type_name;
        element_type := element_type |}.

Definition init `{Host} (valobj : SBValue) : result t := update valobj.

Definition num_children (self : t) : nat := GetNumChildren (valobj self).

Definition get_child_index (name : string) : result Z :=
  let index := Py.rstrip (Py.lstrip name "[") "]" in
  if Py.isdigit index then Py.int index else Ok (-1).

Definition get_child_at_index (self : t) (index : Z) : option SBValue :=
  if negb ((0 <=? index) && (index <? length self)) then None
  else nth_error (children self) (Z.to_nat index).

Definition get_type_name (self : t) : string :=
  "[" ++ element_type_name self ++ "; " ++ Py.str_of_int (length self) ++ "]".

End ArraySyntheticProvider.

Module StdSliceSyntheticProvider.

Record t : Type := {
  valobj : SBValue;
  length : N;
  data_ptr : SBValue;
  element_type_name : string;
  element_type : SBType;
  element_size : N
}.

Definition update `{Host} (self_valobj : SBValue) : result t :=
  let length :=
    GetValueAsUnsigned (GetChildMemberWithName self_valobj "length") in
  let data_ptr := GetChildMemberWithName self_valobj "data_ptr" in
  let unresolved_type := GetPointeeType (GetType data_ptr) in
  element_type_name <- type_name_from_type unresolved_type ;;
  let element_type := FindFirstType element_type_name in
  let element_size := GetByteSize element_type in
  Ok {| valobj := self_valobj;
        length := length;
        data_ptr := data_ptr;
        element_type_name := element_type_name;
        element_type := element_type;
        element_size := element_size |}.

Definition init `{Host} (valobj : SBValue) : result t := update valobj.

Definition num_children (self : t) : N := length self.

Definition get_child_index (name : string) : result Z :=
  let index := Py.rstrip (Py.lstrip name "[") "]" in
  if Py.isdigit index then Py.int index else Ok (-1).

Definition get_child_at_index `{Host} (self : t) (index : Z)
  : option SBValue :=
  if negb ((0 <=? index) && (index <? Z.of_N (length self))) then None
  else
    let start := Z.of_N (GetValueAsUnsigned (data_ptr self)) in
    let address := start + index * Z.of_N (element_size self) in
    let element :=
      CreateValueFromAddress ("[" ++ Py.str_of_int index ++ "]")
        address (element_type self) in
    Some element.

Definition get_type_name (self : t) : string :=
  if Py.startswith (GetTypeName (valobj self)) "ref_mut"
  then "&mut [" ++ element_type_name self ++ "]"
  else "&[" ++ element_type_name self ++ "]".

End StdSliceSyntheticProvider.

(** The [for] loop of [sequence_formatter] over the indices still to
    visit: the text so far, and whether the loop broke off. *)
Fixpoint sequence_loop (valobj : SBValue) (indices : list nat)
  (output : string) : string * bool :=
  match indices with
  | [] => (output, false)
  | i :: rest =>
      if 32 <? Py.len output then (output, true)
      else
        let child := GetChildAtIndex valobj i in
        sequence_loop valobj rest (output ++ value_text child ++ ", ")
  end.

Definition sequence_formatter (output : string) (valobj : SBValue) : string :=
  let length := GetNumChildren valobj in
  let '(output, long) := sequence_loop valobj (seq 0 length) output in
  if long
  then "(len: " ++ Py.str_of_int (Z.of_nat length) ++ ") " ++ output ++ "..."
  else Py.drop_last 2 output.

Definition ArraySummaryProvider (valobj : SBValue) : string :=
  let output := sequence_formatter "[" valobj in
  output ++ "]".

Definition StdSliceSummaryProvider (valobj : SBValue) : string :=
  let output := sequence_formatter "&[" valobj in
  output ++ "]".

Module MSVCStdVecSyntheticProvider.

Record t : Type := {
  valobj : SBValue;
  length : N;
  data_ptr : SBValue;
  element_type : SBType;
  element_size : N
}.

Definition update `{Host} (self_valobj : SBValue) : t :=
  let length :=
    GetValueAsUnsigned (GetChildMemberWithName self_valobj "len") in
  let data_ptr :=
    GetChildMemberWithName
      (GetChildMemberWithName
         (GetChildMemberWithName
            (GetChildMemberWithName
               (GetChildMemberWithName self_valobj "buf")
               "inner")
            "ptr")
         "pointer")
      "pointer" in
  let '(_, _, end_) := Py.partition (GetTypeName self_valobj) "<" in
  let '(element_name, _, _) := Py.partition end_ "," in
  let element_type := FindFirstType element_name in
  let element_size := GetByteSize element_type in
  {| valobj := self_valobj;
     length := length;
     data_ptr := data_ptr;
     element_type := element_type;
     element_size := element_size |}.

Definition init `{Host} (valobj : SBValue) : t := update valobj.

Definition num_children (self : t) : N := length self.

Definition get_child_index (name : string) : result Z :=
  let index := Py.rstrip (Py.lstrip name "[") "]" in
  if Py.isdigit index then Py.int index else Ok (-1).

Definition get_child_at_index `{Host} (self : t) (index : Z)
  : option SBValue :=
  if negb ((0 <=? index) && (index <? Z.of_N (length self))) then None
  else
    let start := Z.of_N (GetValueAsUnsigned (data_ptr self)) in
    let offset := start + index * Z.of_N (element_size self) in
    let element :=
      CreateValueFromAddress ("[" ++ Py.str_of_int index ++ "]")
        offset (element_type self) in
    Some element.

Definition has_children (self : t) : bool := true.

Definition get_type_name (self : t) : string :=
  "Vec<" ++ GetName (element_type self) ++ ">".

End MSVCStdVecSyntheticProvider.

Definition StdVecSummaryProvider (valobj : SBValue) : string :=
  let output := sequence_formatter "vec![" valobj in
  output ++ "]".

Definition TupleSummaryProvider (valobj : SBValue) : string :=
  let output := sequence_formatter "(" valobj in
  output ++ ")".

Module MSVCstrSyntheticProvider.

Record t : Type := {
  valobj : SBValue;
  data_ptr : SBValue;
  length : N
}.

Definition update (self_valobj : SBValue) : t :=
  let data_ptr := GetChildMemberWithName self_valobj "data_ptr" in
  let length :=
    GetValueAsUnsigned (GetChildMemberWithName self_valobj "length") in
  {| valobj := self_valobj; data_ptr := data_ptr; length := length |}.

Definition init (valobj : SBValue) : t := update valobj.

Definition has_children (self : t) : bool := true.

Definition num_children (self : t) : N := length self.

Definition get_child_index (name : string) : result Z :=
  let index := Py.rstrip (Py.lstrip name "[") "]" in
  if Py.isdigit index then Py.int index else Ok (-1).

Definition get_child_at_index `{Host} (self : t) (index : Z)
  : option SBValue :=
  if negb ((0 <=? index) && (index <? Z.of_N (length self))) then None
  else
    let start := Z.of_N (GetValueAsUnsigned (data_ptr self)) in
    let address := start + index in
    let element :=
      CreateValueFromAddress ("[" ++ Py.str_of_int index ++ "]")
        address (GetPointeeType (GetType (data_ptr self))) in
    Some element.

Definition get_type_name (self : t) : string := "&str".

End MSVCstrSyntheticProvider.

(** The two string summaries end alike: nothing to read, or one read of
    the whole range, decoded or reported. *)
Definition MSVCstrSummaryProvider `{Host} (valobj : SBValue)
  : result (list N) :=
  let pointer :=
    GetChildMemberWithName (GetNonSyntheticValue valobj) "data_ptr" in
  let length :=
    GetValueAsUnsigned
      (GetChildMemberWithName (GetNonSyntheticValue valobj) "length") in
  if (length <=? 0)%N then Ok []
  else
    match ReadMemory (GetValueAsUnsigned pointer) length with
    | inl data => Ok (Utf8.decode_replace data)
    | inr error => Raise (Exception "ReadMemory error: %s" error)
    end.

Module StdStringSyntheticProvider.

Record t : Type := {
  valobj : SBValue;
  data_ptr : SBValue;
  length : N;
  element_type : SBType
}.

Definition update (self_valobj : SBValue) : t :=
  let inner_vec :=
    GetNonSyntheticValue (GetChildMemberWithName self_valobj "vec") in
  let data_ptr :=
    GetChildMemberWithName
      (GetChildMemberWithName
         (GetChildMemberWithName
            (GetChildMemberWithName
               (GetChildMemberWithName inner_vec "buf")
               "inner")
            "ptr")
         "pointer")
      "pointer" in
  let length := GetValueAsUnsigned (GetChildMemberWithName inner_vec "len") in
  let element_type := GetPointeeType (GetType data_ptr) in
  {| valobj := self_valobj;
     data_ptr := data_ptr;
     length := length;
     element_type := element_type |}.

Definition init (valobj : SBValue) : t := update valobj.

Definition has_children (self : t) : bool := true.

Definition num_children (self : t) : N := length self.

Definition get_child_index (name : string) : result Z :=
  let index := Py.rstrip (Py.lstrip name "[") "]" in
  if Py.isdigit index then Py.int index else Ok (-1).

(** The character format set on the element changes how it is shown,
    not which element it is. *)
Definition get_child_at_index `{Host} (self : t) (index : Z)
  : option SBValue :=
  if negb ((0 <=? index) && (index <? Z.of_N (length self))) then None
  else
    let start := Z.of_N (GetValueAsUnsigned (data_ptr self)) in
    let address := start + index in
    let element :=
      CreateValueFromAddress ("[" ++ Py.str_of_int index ++ "]")
        address (element_type self) in
    Some element.

Definition get_type_name (self : t) : string := "String".

End StdStringSyntheticProvider.

Definition StdStringSummaryProvider `{Host} (valobj : SBValue)
  : result (list N) :=
  let inner_vec :=
    GetNonSyntheticValue
      (GetChildMemberWithName (GetNonSyntheticValue valobj) "vec") in
  let pointer :=
    GetChildMemberWithName
      (GetChildMemberWithName
         (GetChildMemberWithName
            (GetChildMemberWithName
               (GetChildMemberWithName inner_vec "buf")
               "inner")
            "ptr")
         "pointer")
      "pointer" in
  let length := GetValueAsUnsigned (GetChildMemberWithName inner_vec "len") in
  if (length <=? 0)%N then Ok []
  else
    match ReadMemory (GetValueAsUnsigned pointer) length with
    | inl data => Ok (Utf8.decode_replace data)
    | inr error => Raise (Exception "ReadMemory error: %s" error)
    end.

Inductive VariantType : Type :=
| DISCRIMINANT
| TUPLE
| STRUCT.

Module MSVCEnumSyntheticProvider.

(** The attributes of an instance.  [__init__] sets [valobj] and
    [is_niche]; the others exist once [update] has assigned them, and
    reading one that was never assigned is an [AttributeError]. *)
Record t : Type := {
  valobj : SBValue;
  is_niche : bool;
  variant : option SBValue;
  tag : option N;
  variant_type : option VariantType;
  variant_name : option string
}.

Definition getattr {A : Type} (a : option A) (name : string) : result A :=
  match a with
  | Some x => Ok x
  | None => Raise (AttributeError name)
  end.

(** The test of the [for] loop of [__init__] at child [i]. *)
Definition niche_at (valobj : SBValue) (i : nat) : bool :=
  let t := GetType (GetChildAtIndex valobj i) in
  Py.endswith (GetName t) ("Variant" ++ Py.str_of_int (Z.of_nat i))
  && negb (match GetStaticFieldWithName t "DISCR_EXACT" with
           | Some _ => true
           | None => false
           end).

(** [enum_members[tag].name] of the type of the static field [NAME],
    inside [try]: any failure leaves the empty name. *)
Definition resolve_variant_name (var : SBValue) (tag : N) : string :=
  match GetStaticFieldWithName (GetType var) "NAME" with
  | Some enum_members =>
      match nth_error enum_members (N.to_nat tag) with
      | Some name => name
      | None => ""
      end
  | None => ""
  end.

Definition update (self : t) : t :=
  if is_niche self then
    {| valobj := valobj self;
       is_niche := is_niche self;
       variant := Some (valobj self);
       tag := tag self;
       variant_type := variant_type self;
       variant_name := variant_name self |}
  else
    let tag := GetValueAsUnsigned (GetChildMemberWithName (valobj self) "tag") in
    let var :=
      GetNonSyntheticValue
        (GetChildMemberWithName (GetNonSyntheticValue (valobj self))
           ("variant" ++ Py.str_of_uint tag)) in
    let variant :=
      GetNonSyntheticValue (GetChildMemberWithName var "value") in
    let variant_type :=
      if (GetNumChildren variant =? 0)%nat then DISCRIMINANT
      else if (val_name (GetChildAtIndex variant 0) =? "__0")%string
           then TUPLE
           else STRUCT in
    let variant_name := resolve_variant_name var tag in
    {| valobj := valobj self;
       is_niche := is_niche self;
       variant := Some variant;
       tag := Some tag;
       variant_type := Some variant_type;
       variant_name := Some variant_name |}.

Definition init (valobj0 : SBValue) : t :=
  let valobj := GetNonSyntheticValue valobj0 in
  let num_children := GetNumChildren valobj in
  let is_niche := existsb (niche_at valobj) (seq 0 (num_children - 1)) in
  update {| valobj := valobj;
            is_niche := is_niche;
            variant := None;
            tag := None;
            variant_type := None;
            variant_name := None |}.

Definition num_children (self : t) : result nat :=
  v <- getattr (variant self) "variant" ;; Ok (GetNumChildren v).

Definition get_child_at_index (self : t) (index : nat) : result SBValue :=
  v <- getattr (variant self) "variant" ;; Ok (GetChildAtIndex v index).

End MSVCEnumSyntheticProvider.

(** [vars[0] = vars[0][1:]] when the first entry opens with a
    parenthesis. *)
Definition strip_open_paren (vars : list string) : result (list string) :=
  match vars with
  | [] => Raise IndexError
  | v0 :: rest =>
      c <- Py.first_char v0 ;;
      if Ascii.eqb c "(" then Ok (Py.drop_first 1 v0 :: rest) else Ok vars
  end.

(** [vars[-1] = vars[-1][:-1]] when the last entry closes with one. *)
Definition strip_close_paren (vars : list string) : result (list string) :=
  match List.rev vars with
  | [] => Raise IndexError
  | vl :: front =>
      c <- Py.last_char vl ;;
      if Ascii.eqb c ")" then Ok (List.rev (Py.drop_last 1 vl :: front))
      else Ok vars
  end.

(** The field lines of a struct-like payload, from its description. *)
Definition struct_vars (description : string) : result (list string) :=
  match Py.split1 description "= " with
  | [_; body] =>
      let var_list := Py.splitlines body in
      let vars :=
        map Py.strip
          (filter (fun x => negb (Py.str_in x ["{"; "}"])) var_list) in
      vars <- strip_open_paren vars ;;
      strip_close_paren vars
  | _ => Raise IndexError
  end.

Definition MSVCEnumSummaryProvider (valobj : SBValue) : result string :=
  let valobj := GetNonSyntheticValue valobj in
  let val := MSVCEnumSyntheticProvider.init valobj in
  if MSVCEnumSyntheticProvider.is_niche val then
    tag <- MSVCEnumSyntheticProvider.getattr
             (MSVCEnumSyntheticProvider.tag val) "tag" ;;
    Ok (Py.str_of_uint tag)
  else
    variant_type <- MSVCEnumSyntheticProvider.getattr
                      (MSVCEnumSyntheticProvider.variant_type val)
                      "variant_type" ;;
    match variant_type with
    | TUPLE =>
        variant_name <- MSVCEnumSyntheticProvider.getattr
                          (MSVCEnumSyntheticProvider.variant_name val)
                          "variant_name" ;;
        variant <- MSVCEnumSyntheticProvider.getattr
                     (MSVCEnumSyntheticProvider.variant val) "variant" ;;
        Ok (variant_name ++ TupleSummaryProvider variant)
    | STRUCT =>
        variant <- MSVCEnumSyntheticProvider.getattr
                     (MSVCEnumSyntheticProvider.variant val) "variant" ;;
        vars <- struct_vars (val_description (GetNonSyntheticValue variant)) ;;
        variant_name <- MSVCEnumSyntheticProvider.getattr
                          (MSVCEnumSyntheticProvider.variant_name val)
                          "variant_name" ;;
        Ok (variant_name ++ "{" ++ Py.join ", " vars ++ "}")
    | DISCRIMINANT =>
        variant_name <- MSVCEnumSyntheticProvider.getattr
                          (MSVCEnumSyntheticProvider.variant_name val)
                          "variant_name" ;;
        Ok variant_name
    end.

(** [unwrap_unique_or_non_null] *)
Definition unwrap_unique_or_non_null (unique_or_nonnull : SBValue) : SBValue :=
  let ptr := GetChildMemberWithName unique_or_nonnull "pointer" in
  if is_pointer (GetType ptr) then ptr else GetChildAtIndex ptr 0.

(** [value.Dereference()], asked of the debugger. *)
Class Dereferencing : Type := {
  Dereference : SBValue -> SBValue
}.

(** [RefSummaryProvider]: the [while True] loop runs as long as the type
    of the value is a pointer or a reference; [fuel] bounds its turns
    and [None] stands for a loop that has not ended within them.  The
    result is [valobj.value], which may be [None]. *)
Fixpoint RefSummaryProvider `{Dereferencing} (fuel : nat) (valobj : SBValue)
  : option (option string) :=
  match fuel with
  | O => None
  | S fuel =>
      let t := GetType valobj in
      if is_pointer t || is_reference t
      then RefSummaryProvider fuel (Dereference valobj)
      else Some (val_value valobj)
  end.

Module MSVCTupleSyntheticProvider.

(** The [for] loop of [get_type_name] over the indices still to visit. *)
Fixpoint names_loop (depth : nat) (valobj : SBValue) (indices : list nat)
  (output : string) : option (result string) :=
  match indices with
  | [] => Some (Ok output)
  | i :: rest =>
      match type_name_from_val depth (GetChildAtIndex valobj i) with
      | Some (Ok name) =>
          names_loop depth valobj rest (output ++ name ++ ", ")
      | Some (Raise e) => Some (Raise e)
      | None => None
      end
  end.

Definition get_type_name (depth : nat) (valobj : SBValue)
  : option (result string) :=
  match names_loop depth valobj (seq 0 (GetNumChildren valobj)) "(" with
  | Some (Ok output) => Some (Ok (Py.drop_last 2 output ++ ")"))
  | Some (Raise e) => Some (Raise e)
  | None => None
  end.

End MSVCTupleSyntheticProvider.

(** ** Notions used to state the properties *)

Definition is_decimal_char (c : ascii) : bool :=
  let n := N_of_ascii c in ((48 <=? n) && (n <=? 57))%N.

(** A name of the shape [^[iuf]\d+$]. *)
Definition matches_numeric_name (s : string) : bool :=
  match s with
  | String c (String d r) =>
      (Ascii.eqb c "i" || Ascii.eqb c "u" || Ascii.eqb c "f")
      && Py.all_chars is_decimal_char (String d r)
  | _ => false
  end.

(** The tags from half to long double. *)
Definition is_float_tag (tag : N) : bool :=
  ((basic_type_tag eBasicTypeHalf <=? tag)
   && (tag <=? basic_type_tag eBasicTypeLongDouble))%N.

(** The child reached from a value through a chain of member names. *)
Definition descend (v : SBValue) (path : list string) : SBValue :=
  fold_left GetChildMemberWithName path v.

Definition vec_pointer_path : list string :=
  ["buf"; "inner"; "ptr"; "pointer"; "pointer"].

(** The element name [update] cuts out of the type name of a [Vec]. *)
Definition vec_element_name (type_name : string) : string :=
  let '(_, _, end_) := Py.partition type_name "<" in
  let '(element_name, _, _) := Py.partition end_ "," in
  element_name.

(** The display name of the child at an index. *)
Definition display_name (index : Z) : string :=
  "[" ++ Py.str_of_int index ++ "]".

(** The previews of the children of a value, in order. *)
Definition previews (v : SBValue) : list string :=
  map value_text (val_children v).

(** Previews, each followed by its separator: the content, without
    the open token. *)
Definition content (ps : list string) : string :=
  String.concat "" (map (fun p => p ++ ", ") ps).

(** The open token followed by the first [k] previews, each with its
    separator. *)
Definition accumulated (open : string) (ps : list string) (k : nat) : string :=
  open ++ content (firstn k ps).

(** Layers of a pointer chain. *)
Fixpoint chain_depth (t : SBType) : nat :=
  match t with
  | SBType_pointer _ p | SBType_reference _ p => S (chain_depth p)
  | _ => 0%nat
  end.

Fixpoint chain_target (t : SBType) : SBType :=
  match t with
  | SBType_pointer _ p | SBType_reference _ p => chain_target p
  | _ => t
  end.

(** The layers of a chain, outermost first. *)
Fixpoint chain_layers (t : SBType) : list SBType :=
  match t with
  | SBType_pointer _ p | SBType_reference _ p => t :: chain_layers p
  | _ => []
  end.

(** The name of a layer without its own trailing [const]. *)
Definition layer_name (t : SBType) : string :=
  Py.removesuffix (GetName t) "const".

Definition rvalue_shaped (t : SBType) : bool :=
  (Py.take_last 2 (layer_name t) =? "&&")%string.

Definition ends_with_amp (t : SBType) : bool :=
  match Py.last_char (layer_name t) with
  | Ok c => Ascii.eqb c "&"
  | Raise _ => false
  end.


(** The prefix of each layer, outermost first, given whether the layer
    above the first one was rvalue-reference-shaped. *)
Fixpoint chain_prefixes (forced : bool) (t : SBType) : list string :=
  match t with
  | SBType_pointer _ p | SBType_reference _ p =>
      RefSyntheticProvider.layer_part (forced || ends_with_amp t) p
      :: chain_prefixes (rvalue_shaped t) p
  | _ => []
  end.

Definition is_reference_prefix (s : string) : Prop := s = "&" \/ s = "&mut ".
Definition is_pointer_prefix (s : string) : Prop :=
  s = "*const " \/ s = "*mut ".

(** The tag of a tagged enum, the member it selects and the payload
    under it. *)
Definition enum_tag (valobj : SBValue) : N :=
  GetValueAsUnsigned (GetChildMemberWithName valobj "tag").

Definition enum_variant_member (valobj : SBValue) : SBValue :=
  GetChildMemberWithName valobj ("variant" ++ Py.str_of_uint (enum_tag valobj)).

Definition enum_payload (valobj : SBValue) : SBValue :=
  GetChildMemberWithName (enum_variant_member valobj) "value".

(** The shape of a payload: no children, a first child named [__0], or
    anything else. *)
Definition classify_payload (payload : SBValue) : VariantType :=
  match val_children payload with
  | [] => DISCRIMINANT
  | first :: _ => if (val_name first =? "__0")%string then TUPLE else STRUCT
  end.

(** The text between the first [<] of a generic name and the first
    comma after it that is nested in no further angle brackets: the
    first generic parameter as the specification words it. *)
Fixpoint upto_top_level_comma (depth : nat) (s : string) : string :=
  match s with
  | EmptyString => EmptyString
  | String c s' =>
      if Ascii.eqb c "," && (depth =? 0)%nat then EmptyString
      else
        let depth' :=
          if Ascii.eqb c "<" then S depth
          else if Ascii.eqb c ">" then Nat.pred depth
          else depth in
        String c (upto_top_level_comma depth' s')
  end.

Definition first_generic_parameter (name : string) : string :=
  let '(_, _, rest) := Py.partition name "<" in
  upto_top_level_comma 0 rest.

(** Whether an angle bracket opens before the first comma. *)
Fixpoint opens_before_comma (s : string) : bool :=
  match s with
  | EmptyString => false
  | String c s' =>
      if Ascii.eqb c "," then false
      else Ascii.eqb c "<" || opens_before_comma s'
  end.

(** The three wrappers [type_name_from_name] recognises at the head of
    a name. *)
Definition has_wrapper_head (name : string) : bool :=
  Py.startswith name "enum2$<"
  || Py.startswith name "core::option::Option"
  || Py.startswith name "alloc::vec::Vec".

(** The closing bracket stripped after a wrapper is removed. *)
Definition strip_closing (name : string) : string :=
  if Py.endswith name " >" then Py.drop_last 2 name
  else if Py.endswith name ">" then Py.drop_last 1 name
  else name.

(** One call of [type_name_from_name]: the name is returned as it is,
    or the call goes on with another name and wraps what comes back. *)
Inductive name_step : Type :=
| Unchanged
| Recurse (wrap : string -> string) (next : string).

Definition step_of (name : string) : name_step :=
  if Py.startswith name "enum2$<" then
    Recurse (fun inner => inner)
      (strip_closing (Py.replace_first name "enum2$<" ""))
  else if Py.startswith name "core::option::Option" then
    Recurse (fun inner => "Option<" ++ inner ++ ">")
      (strip_closing (Py.replace_first name "core::option::Option<" ""))
  else if Py.startswith name "alloc::vec::Vec" then
    Recurse (fun inner => "Vec<" ++ inner ++ ">")
      (Py.replace_first (Py.removeprefix name "alloc::vec::Vec<")
         ",alloc::alloc::Global>" "")
  else Unchanged.

(** The text [get_child_index] tests and parses. *)
Definition index_text (name : string) : string :=
  Py.rstrip (Py.lstrip name "[") "]".

(** A value dereferenced [k] times. *)
Fixpoint dereferenced `{Dereferencing} (k : nat) (v : SBValue) : SBValue :=
  match k with
  | O => v
  | S k => dereferenced k (Dereference v)
  end.








(** The code points UTF-8 encodes: all up to U+10FFFF but the
    surrogates. *)
Definition is_scalar (cp : N) : bool :=
  ((cp <? 55296) || ((57343 <? cp) && (cp <? 1114112)))%N.

Definition byte_of (n : N) : byte :=
  match Byte.of_N n with
  | Some b => b
  | None => x00
  end.

(** The UTF-8 encoding of a code point: one to four bytes. *)
Definition utf8_encode (cp : N) : list byte :=
  (if cp <? 128 then [byte_of cp]
   else if cp <? 2048 then
     [byte_of (192 + cp / 64); byte_of (128 + cp mod 64)]
   else if cp <? 65536 then
     [byte_of (224 + cp / 4096); byte_of (128 + (cp / 64) mod 64);
      byte_of (128 + cp mod 64)]
   else
     [byte_of (240 + cp / 262144); byte_of (128 + (cp / 4096) mod 64);
      byte_of (128 + (cp / 64) mod 64); byte_of (128 + cp mod 64)])%N.

(** The second bytes that may follow a lead byte in well-formed UTF-8:
    continuation bytes, narrowed after E0 and F0 (no overlong form),
    after ED (no surrogate) and after F4 (nothing above U+10FFFF). *)
Definition second_allowed (lead second : N) : bool :=
  (if lead =? 224 then (160 <=? second) && (second <=? 191)
   else if lead =? 237 then (128 <=? second) && (second <=? 159)
   else if lead =? 240 then (144 <=? second) && (second <=? 191)
   else if lead =? 244 then (128 <=? second) && (second <=? 143)
   else (128 <=? second) && (second <=? 191))%N.








(** ** Concrete values *)

Module Examples.


Definition info (name : string) (size tag : N) : TypeInfo :=
  {| ti_name := name;
     ti_byte_size := size;
     ti_basic_type := tag;
     ti_static_fields := [] |}.

Definition u8 : SBType := SBType_plain (info "unsigned char" 1 4).
Definition f64 : SBType := SBType_plain (info "double" 8 24).
Definition u8_ptr : SBType := SBType_pointer (info "u8 *" 8 0) u8.
Definition u8_ref_ref : SBType := SBType_pointer (info "u8 *&&" 8 0) u8_ptr.

Definition scalar (name : string) (type : SBType) (text : string) (n : N)
  : SBValue :=
  {| val_name := name;
     val_type := type;
     val_value := Some text;
     val_unsigned := n;
     val_description := text;
     val_children := [];
     val_address := None |}.

Definition aggregate (name : string) (type : SBType) (description : string)
  (children : list SBValue) : SBValue :=
  {| val_name := name;
     val_type := type;
     val_value := None;
     val_unsigned := 0%N;
     val_description := description;
     val_children := children;
     val_address := None |}.

Definition plain (name : string) : SBType := SBType_plain (info name 0 0).

(** A target that knows [u8] only, whose memory cannot be read. *)
Definition host : Host :=
  {| FindFirstType :=
       fun name => if (name =? "u8")%string then u8 else SBType_invalid;
     ValueAtAddress := fun _ _ => SBValue_invalid;
     ReadMemory := fun _ _ => inr "memory read failed";
     GetUnqualifiedType := fun t => t |}.

(** A target whose memory reads as the bytes [h], [i]. *)
Definition readable_host : Host :=
  {| FindFirstType :=
       fun name => if (name =? "u8")%string then u8 else SBType_invalid;
     ValueAtAddress := fun _ _ => SBValue_invalid;
     ReadMemory := fun _ _ => inl [x68; x69];
     GetUnqualifiedType := fun t => t |}.

(** A [Vec] with the given type name, length and data pointer. *)
Definition vec_value (type_name : string) (len ptr : N) : SBValue :=
  aggregate "v" (plain type_name) ""
    [ aggregate "buf" SBType_invalid ""
        [ aggregate "inner" SBType_invalid ""
            [ aggregate "ptr" SBType_invalid ""
                [ aggregate "pointer" SBType_invalid ""
                    [ scalar "pointer" u8_ptr "0x1000" ptr ] ] ] ];
      scalar "len" SBType_invalid "3" len ].

Definition vec_u8 : SBValue :=
  vec_value "alloc::vec::Vec<u8,alloc::alloc::Global>" 3 4096.

Definition vec_of_pairs : SBValue :=
  vec_value "alloc::vec::Vec<tuple$<u8,u16>,alloc::alloc::Global>" 3 4096.

Definition str_value (len : N) : SBValue :=
  aggregate "s" (plain "ref$<str$>") ""
    [ scalar "data_ptr" u8_ptr "0x2000" 8192;
      scalar "length" SBType_invalid "2" len ].

Definition string_value (len : N) : SBValue :=
  aggregate "s" (plain "alloc::string::String") ""
    [ aggregate "vec" SBType_invalid ""
        (val_children (vec_value "alloc::vec::Vec<u8,alloc::alloc::Global>"
                         len 8192)) ].

Definition slice_value : SBValue :=
  aggregate "s" (plain "ref$<slice2$<u8> >") ""
    [ scalar "data_ptr" u8_ptr "0x2000" 8192;
      scalar "length" SBType_invalid "2" 2 ].

Definition empty_value : SBValue := aggregate "e" SBType_invalid "" [].

Definition sequence_of (texts : list string) : SBValue :=
  aggregate "seq" SBType_invalid ""
    (map (fun t => scalar "" SBType_invalid t 0) texts).

Definition forty : string := "0123456789012345678901234567890123456789".

(** Eight short elements: thirty-one characters of content. *)
Definition eight_short : SBValue :=
  sequence_of ["12"; "12"; "12"; "12"; "12"; "12"; "12"; "1"].

(** One element of forty characters. *)
Definition one_long : SBValue := sequence_of [forty].

Definition four_bytes : SBValue := sequence_of ["1"; "2"; "3"; "4"].

(** The type of a variant member whose static field [NAME] lists the
    variant names, with or without the exact-discriminant marker. *)
Definition variant_type_of (name : string) (exact : bool) : SBType :=
  SBType_plain
    {| ti_name := name;
       ti_byte_size := 16;
       ti_basic_type := 0;
       ti_static_fields :=
         (if exact then [("DISCR_EXACT", [])] else [])
         ++ [("NAME", ["Nothing"; "Pair"])] |}.

(** A tagged enum whose tag is 1 and whose variant 1 holds [payload]. *)
Definition tagged_enum (payload : SBValue) : SBValue :=
  aggregate "e" (plain "enum2$<demo::E>") ""
    [ aggregate "variant0" (variant_type_of "enum2$<demo::E>::Variant0" true) ""
        [ aggregate "value" SBType_invalid "" [] ];
      aggregate "variant1" (variant_type_of "enum2$<demo::E>::Variant1" true) ""
        [ payload ];
      scalar "tag" SBType_invalid "1" 1 ].

Definition payload_none : SBValue := aggregate "value" SBType_invalid "" [].


(** A niche enum: its variant members carry no exact-discriminant
    marker. *)
Definition niche_enum : SBValue :=
  aggregate "o" (plain "enum2$<core::option::Option<ref$<u8> > >") ""
    [ aggregate "variant0" (variant_type_of "enum2$<o>::Variant0" false) "" [];
      aggregate "variant1" (variant_type_of "enum2$<o>::Variant1" false) "" [];
      scalar "tag" SBType_invalid "0" 0 ].

End Examples.

Module MoreExamples.

(** A tagged enum whose only variant member carries the
    exact-discriminant marker and no list of names. *)
Definition unnamed_enum : SBValue :=
  Examples.aggregate "e" (Examples.plain "enum2$<demo::U>") ""
    [ Examples.aggregate "variant0"
        (SBType_plain
           {| ti_name := "enum2$<demo::U>::Variant0";
              ti_byte_size := 1;
              ti_basic_type := 0;
              ti_static_fields := [("DISCR_EXACT", [])] |})
        ""
        [ Examples.aggregate "value" SBType_invalid "" [] ];
      Examples.scalar "tag" SBType_invalid "0" 0 ].

(** A named payload that the debugger describes without an equals
    sign. *)
Definition payload_undescribed : SBValue :=
  Examples.aggregate "value" SBType_invalid "{...}"
    [ Examples.scalar "a" SBType_invalid "1" 1 ].

(** A pointer type that has no name but its qualifier. *)
Definition nameless_pointer : SBType :=
  SBType_pointer (Examples.info "const" 8 0) Examples.u8.

(** Dereferencing that keeps a value and moves its type to the
    pointee. *)
Definition dereferencing : Dereferencing :=
  {| Dereference := fun v =>
       {| val_name := val_name v;
          val_type := GetPointeeType (val_type v);
          val_value := val_value v;
          val_unsigned := val_unsigned v;
          val_description := val_description v;
          val_children := val_children v;
          val_address := val_address v |} |}.






(** A target whose memory reads as [h], [e] with an acute accent, a byte
    that starts no sequence, the euro sign, a four-byte emoji, and a
    three-byte sequence cut after its second byte. *)
Definition mixed_host : Host :=
  {| FindFirstType := fun _ => SBType_invalid;
     ValueAtAddress := fun _ _ => SBValue_invalid;
     ReadMemory := fun _ _ =>
       inl [x68; xc3; xa9; xff; xe2; x82; xac; xf0; x9f; x98; x80; xe2; x82];
     GetUnqualifiedType := fun t => t |}.


End MoreExamples.

(** ** Decimal text *)

Section DecimalText.

Lemma decimal_char_is_digit (c : ascii) :
  is_decimal_char c = true -> Py.isdigit_char c = true.
Proof.
  unfold is_decimal_char, Py.isdigit_char. intros ->. reflexivity.
Qed.

Lemma all_chars_weaken (p q : ascii -> bool) (s : string) :
  (forall c, p c = true -> q c = true) ->
  Py.all_chars p s = true -> Py.all_chars q s = true.
Proof.
  intros Hpq. induction s as [|c s IH]; simpl; [reflexivity|].
  rewrite andb_true_iff. intros [Hc Hs].
  rewrite (Hpq _ Hc), (IH Hs). reflexivity.
Qed.

Lemma string_of_uint_decimal (d : uint) :
  Py.all_chars is_decimal_char (NilEmpty.string_of_uint d) = true.
Proof. induction d; simpl; auto. Qed.

Lemma to_uint_not_nil (n : N) : N.to_uint n <> Nil.
Proof.
  intros E.
  assert (H : N.of_uint (N.to_uint n) = N.of_uint Nil) by (rewrite E; reflexivity).
  rewrite DecimalN.Unsigned.of_to in H. simpl in H. subst n.
  discriminate E.
Qed.

Lemma str_of_uint_decimal (n : N) :
  Py.all_chars is_decimal_char (Py.str_of_uint n) = true.
Proof. apply string_of_uint_decimal. Qed.

Lemma str_of_uint_cons (n : N) :
  exists c s, Py.str_of_uint n = String c s /\ is_decimal_char c = true.
Proof.
  unfold Py.str_of_uint.
  pose proof (to_uint_not_nil n) as Hn.
  pose proof (string_of_uint_decimal (N.to_uint n)) as Hd.
  destruct (N.to_uint n); try contradiction; simpl in *;
    eexists; eexists; (split; [reflexivity | reflexivity]).
Qed.

Lemma str_of_int_nonneg (z : Z) :
  0 <= z -> Py.str_of_int z = Py.str_of_uint (Z.to_N z).
Proof.
  intros Hz. destruct z as [|p|p]; try reflexivity. lia.
Qed.

Lemma int_str_of_uint (n : N) : Py.int (Py.str_of_uint n) = Ok (Z.of_N n).
Proof.
  destruct (str_of_uint_cons n) as (c & s & E & _).
  unfold Py.int. rewrite E. rewrite <- E.
  unfold Py.str_of_uint. rewrite NilEmpty.usu.
  rewrite DecimalN.Unsigned.of_to. reflexivity.
Qed.

End DecimalText.

(** ** Stripping brackets *)

Lemma rstrip_by_snoc (p : ascii -> bool) (s : string) (c : ascii) :
  Py.all_chars (fun a => negb (p a)) s = true -> p c = true ->
  Py.rstrip_by p (s ++ String c EmptyString) = s.
Proof.
  intros Hs Hc. induction s as [|a s IH]; simpl.
  - rewrite Hc. reflexivity.
  - simpl in Hs. apply andb_true_iff in Hs as [Ha Hs].
    rewrite (IH Hs). apply negb_true_iff in Ha.
    destruct s; [rewrite Ha|]; reflexivity.
Qed.

Lemma decimal_char_not_bracket (c : ascii) :
  is_decimal_char c = true ->
  Py.mem_char c "[" = false /\ Py.mem_char c "]" = false.
Proof.
  destruct c as [[|] [|] [|] [|] [|] [|] [|] [|]];
    cbv; intros H; try discriminate H; split; reflexivity.
Qed.

(** The body shared by every [get_child_index]: a bracketed decimal
    index parses back to the index. *)
Lemma bracketed_index_parses (i : Z) :
  0 <= i ->
  let index := Py.rstrip (Py.lstrip ("[" ++ Py.str_of_int i ++ "]") "[") "]" in
  Py.isdigit index = true /\ Py.int index = Ok i.
Proof.
  intros Hi. rewrite (str_of_int_nonneg i Hi).
  destruct (str_of_uint_cons (Z.to_N i)) as (c & s & E & Hc).
  pose proof (str_of_uint_decimal (Z.to_N i)) as Hd.
  assert (Hstrip :
    Py.rstrip (Py.lstrip ("[" ++ Py.str_of_uint (Z.to_N i) ++ "]") "[") "]"
    = Py.str_of_uint (Z.to_N i)).
  { unfold Py.lstrip, Py.rstrip. rewrite E. simpl.
    destruct (decimal_char_not_bracket c Hc) as [Hl _].
    simpl in Hl. rewrite Hl. rewrite <- E.
    change (String c (s ++ "]")) with (String c s ++ "]"). rewrite <- E.
    apply rstrip_by_snoc; [|reflexivity].
    eapply all_chars_weaken; [|exact Hd].
    intros a Ha. destruct (decimal_char_not_bracket a Ha) as [_ Hr].
    simpl in Hr |- *. rewrite Hr. reflexivity. }
  cbv zeta. rewrite Hstrip. split.
  - unfold Py.isdigit. rewrite E. rewrite <- E.
    eapply all_chars_weaken; [apply decimal_char_is_digit | exact Hd].
  - rewrite int_str_of_uint. f_equal. lia.
Qed.

(** ** Numeric type names *)

Lemma float_tags_are_numeric (tag : N) :
  is_float_tag tag = true -> num_type_map_at tag = Ok (true, true).
Proof.
  unfold is_float_tag. rewrite andb_true_iff, !N.leb_le. simpl. intros [Hlo Hhi].
  assert (H : (tag = 22 \/ tag = 23 \/ tag = 24 \/ tag = 25)%N) by lia.
  destruct H as [-> | [-> | [-> | ->]]]; reflexivity.
Qed.

Lemma basic_type_at_its_tag (b : BasicType) :
  nth_error all_basic_types (N.to_nat (basic_type_tag b)) = Some b.
Proof. destruct b; reflexivity. Qed.

Lemma numeric_name_matches (c : ascii) (n : N) :
  c = "i"%char \/ c = "u"%char \/ c = "f"%char ->
  matches_numeric_name (String c (Py.str_of_uint n)) = true.
Proof.
  intros Hc. destruct (str_of_uint_cons n) as (d & s & E & _).
  pose proof (str_of_uint_decimal n) as Hd.
  unfold matches_numeric_name. rewrite E. rewrite <- E. rewrite Hd.
  destruct Hc as [-> | [-> | ->]]; reflexivity.
Qed.

(** C2.  For a type whose basic-type tag the table marks numeric, the
    resolved name is [i], [u] or [f] followed by the decimal text of
    eight times the byte size: it matches [^[iuf]\d+$] and its digits
    read back as that width; the table has an entry for every tag of the
    debugger's enumeration, each kind sitting at its tag, and a tag from
    half to long double gives the [f] form. *)
Theorem type_name_from_type_numeric (type : SBType) (signed : bool)
  (Hnumeric : num_type_map_at (GetBasicType type) = Ok (true, signed)) :
  let width := (GetByteSize type * 8)%N in
  let letter :=
    if is_float_tag (GetBasicType type) then "f"%char
    else if signed then "i"%char else "u"%char in
  type_name_from_type type = Ok (String letter (Py.str_of_uint width))
  /\ matches_numeric_name (String letter (Py.str_of_uint width)) = true
  /\ Py.int (Py.str_of_uint width) = Ok (8 * Z.of_N (GetByteSize type))
  /\ (forall b : BasicType,
        exists entry, num_type_map_at (basic_type_tag b) = Ok entry)
  /\ List.length NUM_TYPE_MAP = List.length all_basic_types
  /\ (forall b : BasicType,
        nth_error all_basic_types (N.to_nat (basic_type_tag b)) = Some b)
  /\ (forall t : SBType,
        is_float_tag (GetBasicType t) = true ->
        type_name_from_type t
        = Ok (String "f" (Py.str_of_uint (GetByteSize t * 8)))).
Proof.
  cbv zeta. repeat split.
  - unfold type_name_from_type, is_float_tag. rewrite Hnumeric. simpl.
    destruct (_ && _); [reflexivity|].
    destruct signed; reflexivity.
  - apply numeric_name_matches.
    destruct (is_float_tag (GetBasicType type)); [tauto|].
    destruct signed; tauto.
  - rewrite int_str_of_uint. f_equal. lia.
  - intros b. destruct b; eexists; reflexivity.
  - apply basic_type_at_its_tag.
  - intros t Ht. unfold type_name_from_type.
    rewrite (float_tags_are_numeric _ Ht). unfold is_float_tag in Ht.
    simpl in Ht |- *. rewrite Ht. reflexivity.
Qed.

Lemma type_name_from_type_numeric_witness :
  type_name_from_type Examples.u8 = Ok "u8"
  /\ type_name_from_type Examples.f64 = Ok "f64".
Proof.
  split.
  - exact (proj1 (type_name_from_type_numeric Examples.u8 false eq_refl)).
  - destruct (type_name_from_type_numeric Examples.u8 false eq_refl)
      as (_ & _ & _ & _ & _ & _ & Hfloat).
    exact (Hfloat Examples.f64 eq_refl).
Defined.

(** ** Children of the sequence providers *)

Lemma descend_vec_pointer (v : SBValue) :
  descend v vec_pointer_path
  = GetChildMemberWithName
      (GetChildMemberWithName
         (GetChildMemberWithName
            (GetChildMemberWithName (GetChildMemberWithName v "buf") "inner")
            "ptr")
         "pointer")
      "pointer".
Proof. reflexivity. Qed.

Lemma in_range_dec (index length : Z) :
  negb ((0 <=? index) && (index <? length)) = false <-> 0 <= index < length.
Proof.
  rewrite negb_false_iff, andb_true_iff, Z.leb_le, Z.ltb_lt. tauto.
Qed.

Lemma vec_element_type `{Host} (valobj : SBValue) :
  MSVCStdVecSyntheticProvider.element_type
    (MSVCStdVecSyntheticProvider.init valobj)
  = FindFirstType (vec_element_name (GetTypeName valobj)).
Proof.
  unfold MSVCStdVecSyntheticProvider.init, MSVCStdVecSyntheticProvider.update,
    vec_element_name.
  destruct (Py.partition (GetTypeName valobj) "<") as [[? ?] end_].
  destruct (Py.partition end_ ",") as [[element_name ?] ?].
  reflexivity.
Qed.

(** C3.  After [update], a [Vec] provider holds the length read from
    [len], the data pointer reached through [buf], [inner], [ptr],
    [pointer], [pointer], and the element type found under the element
    name cut out of the type name; for an index inside the length the child is the value built
    at base plus index times element size, with that element type, and
    for any other index, the length and minus one among them, there is
    no child. *)
Theorem vec_get_child_at_index `{Host} (valobj : SBValue) (index : Z) :
  let self := MSVCStdVecSyntheticProvider.init valobj in
  let N_ := Z.of_N (MSVCStdVecSyntheticProvider.length self) in
  let base := Z.of_N (GetValueAsUnsigned (descend valobj vec_pointer_path)) in
  let s := Z.of_N (GetByteSize (MSVCStdVecSyntheticProvider.element_type self)) in
  MSVCStdVecSyntheticProvider.length self
  = GetValueAsUnsigned (GetChildMemberWithName valobj "len")
  /\ MSVCStdVecSyntheticProvider.element_type self
     = FindFirstType (vec_element_name (GetTypeName valobj))
  /\ MSVCStdVecSyntheticProvider.get_child_at_index self index
     = (if (0 <=? index) && (index <? N_)
        then Some (CreateValueFromAddress ("[" ++ Py.str_of_int index ++ "]")
                     (base + index * s)
                     (MSVCStdVecSyntheticProvider.element_type self))
        else None)
  /\ (forall child,
        MSVCStdVecSyntheticProvider.get_child_at_index self index = Some child ->
        0 <= index < N_
        /\ val_address child = Some (base + index * s)
        /\ val_type child = MSVCStdVecSyntheticProvider.element_type self)
  /\ MSVCStdVecSyntheticProvider.get_child_at_index self N_ = None
  /\ MSVCStdVecSyntheticProvider.get_child_at_index self (-1) = None.
Proof.
  cbv zeta.
  set (self := MSVCStdVecSyntheticProvider.init valobj).
  assert (Hget : forall i,
    MSVCStdVecSyntheticProvider.get_child_at_index self i
    = (if (0 <=? i) && (i <? Z.of_N (MSVCStdVecSyntheticProvider.length self))
       then Some (CreateValueFromAddress ("[" ++ Py.str_of_int i ++ "]")
                    (Z.of_N (GetValueAsUnsigned (descend valobj vec_pointer_path))
                     + i * Z.of_N (GetByteSize
                                     (MSVCStdVecSyntheticProvider.element_type self)))
                    (MSVCStdVecSyntheticProvider.element_type self))
       else None)).
  { intros i. unfold MSVCStdVecSyntheticProvider.get_child_at_index.
    destruct ((0 <=? i) && (i <? _)); cbn [negb]; [|reflexivity].
    rewrite descend_vec_pointer. subst self.
    unfold MSVCStdVecSyntheticProvider.init, MSVCStdVecSyntheticProvider.update.
    destruct (Py.partition (GetTypeName valobj) "<") as [[? ?] end_].
    destruct (Py.partition end_ ",") as [[element_name ?] ?].
    reflexivity. }
  split; [|split; [|split; [|split; [|split]]]].
  - subst self.
    unfold MSVCStdVecSyntheticProvider.init, MSVCStdVecSyntheticProvider.update.
    destruct (Py.partition (GetTypeName valobj) "<") as [[? ?] end_].
    destruct (Py.partition end_ ",") as [[element_name ?] ?].
    reflexivity.
  - apply vec_element_type.
  - apply Hget.
  - intros child. rewrite Hget.
    destruct ((0 <=? index) && (index <? _)) eqn:E; [|discriminate].
    intros [= <-]. apply andb_true_iff in E as [E1 E2].
    apply Z.leb_le in E1. apply Z.ltb_lt in E2. simpl. auto.
  - rewrite Hget. rewrite Z.ltb_irrefl, andb_false_r. reflexivity.
  - rewrite Hget. reflexivity.
Qed.

Lemma vec_get_child_at_index_witness :
  exists child,
    @MSVCStdVecSyntheticProvider.get_child_at_index Examples.host
      (@MSVCStdVecSyntheticProvider.init Examples.host Examples.vec_u8) 2
    = Some child
    /\ val_address child = Some 4098
    /\ val_type child = Examples.u8.
Proof.
  eexists. split; [reflexivity|].
  destruct (@vec_get_child_at_index Examples.host Examples.vec_u8 2)
    as (_ & _ & _ & Hchild & _).
  destruct (Hchild _ eq_refl) as (_ & Haddress & Htype).
  split; [exact Haddress | exact Htype].
Defined.

(** ** Display names and indices *)

Lemma get_child_index_display_name (index : Z) :
  0 <= index ->
  MSVCStdVecSyntheticProvider.get_child_index (display_name index) = Ok index
  /\ StdSliceSyntheticProvider.get_child_index (display_name index) = Ok index
  /\ MSVCstrSyntheticProvider.get_child_index (display_name index) = Ok index
  /\ StdStringSyntheticProvider.get_child_index (display_name index) = Ok index
  /\ ArraySyntheticProvider.get_child_index (display_name index) = Ok index.
Proof.
  intros Hi. destruct (bracketed_index_parses index Hi) as [Hdigit Hint].
  cbv zeta in Hdigit, Hint.
  unfold MSVCStdVecSyntheticProvider.get_child_index,
    StdSliceSyntheticProvider.get_child_index,
    MSVCstrSyntheticProvider.get_child_index,
    StdStringSyntheticProvider.get_child_index,
    ArraySyntheticProvider.get_child_index, display_name.
  rewrite Hdigit, Hint. repeat split.
Qed.

(** A child the provider builds at an index in range. *)
Ltac built_child Hrange :=
  unfold MSVCStdVecSyntheticProvider.get_child_at_index,
    StdSliceSyntheticProvider.get_child_at_index,
    MSVCstrSyntheticProvider.get_child_at_index,
    StdStringSyntheticProvider.get_child_at_index;
  unfold MSVCStdVecSyntheticProvider.num_children,
    StdSliceSyntheticProvider.num_children,
    MSVCstrSyntheticProvider.num_children,
    StdStringSyntheticProvider.num_children in Hrange;
  apply in_range_dec in Hrange; rewrite Hrange;
  eexists; split; [reflexivity|]; split; [reflexivity|].

(** C8.  In every container provider the child at a valid index is
    named by the index in brackets, and [get_child_index] of that name
    is the index again.  The array provider hands out the children the
    debugger made, so for it the round trip is stated for children the
    debugger named by index. *)
Theorem child_index_round_trip `{Host} (index : Z) :
  (forall self : MSVCStdVecSyntheticProvider.t,
      0 <= index < Z.of_N (MSVCStdVecSyntheticProvider.num_children self) ->
      exists child,
        MSVCStdVecSyntheticProvider.get_child_at_index self index = Some child
        /\ val_name child = display_name index
        /\ MSVCStdVecSyntheticProvider.get_child_index (val_name child)
           = Ok index)
  /\ (forall self : StdSliceSyntheticProvider.t,
      0 <= index < Z.of_N (StdSliceSyntheticProvider.num_children self) ->
      exists child,
        StdSliceSyntheticProvider.get_child_at_index self index = Some child
        /\ val_name child = display_name index
        /\ StdSliceSyntheticProvider.get_child_index (val_name child)
           = Ok index)
  /\ (forall self : MSVCstrSyntheticProvider.t,
      0 <= index < Z.of_N (MSVCstrSyntheticProvider.num_children self) ->
      exists child,
        MSVCstrSyntheticProvider.get_child_at_index self index = Some child
        /\ val_name child = display_name index
        /\ MSVCstrSyntheticProvider.get_child_index (val_name child)
           = Ok index)
  /\ (forall self : StdStringSyntheticProvider.t,
      0 <= index < Z.of_N (StdStringSyntheticProvider.num_children self) ->
      exists child,
        StdStringSyntheticProvider.get_child_at_index self index = Some child
        /\ val_name child = display_name index
        /\ StdStringSyntheticProvider.get_child_index (val_name child)
           = Ok index)
  /\ (forall (valobj : SBValue) (self : ArraySyntheticProvider.t),
      ArraySyntheticProvider.init valobj = Ok self ->
      (forall k child,
          nth_error (val_children valobj) k = Some child ->
          val_name child = display_name (Z.of_nat k)) ->
      0 <= index < Z.of_nat (ArraySyntheticProvider.num_children self) ->
      exists child,
        ArraySyntheticProvider.get_child_at_index self index = Some child
        /\ val_name child = display_name index
        /\ ArraySyntheticProvider.get_child_index (val_name child)
           = Ok index).
Proof.
  split; [|split; [|split; [|split]]].
  - intros self Hrange. built_child Hrange.
    apply get_child_index_display_name. lia.
  - intros self Hrange. built_child Hrange.
    apply get_child_index_display_name. lia.
  - intros self Hrange. built_child Hrange.
    apply get_child_index_display_name. lia.
  - intros self Hrange. built_child Hrange.
    apply get_child_index_display_name. lia.
  - intros valobj self Hinit Hnames Hrange.
    unfold ArraySyntheticProvider.init, ArraySyntheticProvider.update in Hinit.
    destruct (type_name_from_type _) as [element_type_name|e];
      [|discriminate Hinit].
    injection Hinit as <-.
    unfold ArraySyntheticProvider.num_children, GetNumChildren in Hrange.
    unfold ArraySyntheticProvider.get_child_at_index.
    cbn [ArraySyntheticProvider.valobj ArraySyntheticProvider.length
         ArraySyntheticProvider.children] in *.
    apply in_range_dec in Hrange as Hdec. rewrite Hdec.
    destruct (nth_error (val_children valobj) (Z.to_nat index)) as [child|] eqn:E.
    + exists child. split; [reflexivity|].
      pose proof (Hnames _ _ E) as Hname. rewrite Z2Nat.id in Hname by lia.
      split; [exact Hname|]. rewrite Hname.
      apply get_child_index_display_name. lia.
    + apply nth_error_None in E. lia.
Qed.

Lemma child_index_round_trip_witness :
  exists child,
    @MSVCStdVecSyntheticProvider.get_child_at_index Examples.host
      (@MSVCStdVecSyntheticProvider.init Examples.host Examples.vec_u8) 1
    = Some child
    /\ val_name child = "[1]"
    /\ MSVCStdVecSyntheticProvider.get_child_index (val_name child) = Ok 1.
Proof.
  destruct (@child_index_round_trip Examples.host 1) as (Hvec & _).
  apply (Hvec (@MSVCStdVecSyntheticProvider.init Examples.host Examples.vec_u8)).
  simpl. lia.
Defined.

(** ** Text lemmas *)

Section Text.

Lemma append_empty_r (s : string) : s ++ "" = s.
Proof. induction s as [|c s IH]; simpl; [|rewrite IH]; reflexivity. Qed.

Lemma append_assoc (s1 s2 s3 : string) : (s1 ++ s2) ++ s3 = s1 ++ s2 ++ s3.
Proof. induction s1 as [|c s1 IH]; simpl; [|rewrite IH]; reflexivity. Qed.

Lemma length_append (s1 s2 : string) :
  String.length (s1 ++ s2) = (String.length s1 + String.length s2)%nat.
Proof. induction s1 as [|c s1 IH]; simpl; [|rewrite IH]; reflexivity. Qed.

Lemma substring_prefix (s t : string) :
  substring 0 (String.length s) (s ++ t) = s.
Proof.
  induction s as [|c s IH]; simpl.
  - destruct t; reflexivity.
  - rewrite IH. reflexivity.
Qed.

Lemma drop_last_append (s t : string) :
  Py.drop_last (String.length t) (s ++ t) = s.
Proof.
  unfold Py.drop_last. rewrite length_append.
  replace (String.length s + String.length t - String.length t)%nat
    with (String.length s) by lia.
  apply substring_prefix.
Qed.

Lemma concat_empty_cons (x : string) (l : list string) :
  String.concat "" (x :: l) = x ++ String.concat "" l.
Proof. destruct l; simpl; [rewrite append_empty_r|]; reflexivity. Qed.

Lemma concat_empty_app (l1 l2 : list string) :
  String.concat "" (l1 ++ l2) = String.concat "" l1 ++ String.concat "" l2.
Proof.
  induction l1 as [|x l1 IH]; [reflexivity|].
  rewrite <- app_comm_cons, !concat_empty_cons, IH, append_assoc. reflexivity.
Qed.

Lemma content_cons (p : string) (ps : list string) :
  content (p :: ps) = p ++ ", " ++ content ps.
Proof.
  unfold content. rewrite map_cons, concat_empty_cons, append_assoc.
  reflexivity.
Qed.

Lemma content_snoc (ps : list string) (p : string) :
  content (ps ++ [p]) = content ps ++ p ++ ", ".
Proof.
  unfold content. rewrite map_app, concat_empty_app. reflexivity.
Qed.

(** With at least one preview, the content is the previews joined by
    the separator, and one more separator. *)
Lemma content_join (p : string) (ps : list string) :
  content (p :: ps) = Py.join ", " (p :: ps) ++ ", ".
Proof.
  revert p. induction ps as [|q ps IH]; intros p.
  - reflexivity.
  - rewrite content_cons, IH. unfold Py.join.
    change (String.concat ", " (p :: q :: ps))
      with (p ++ ", " ++ String.concat ", " (q :: ps)).
    rewrite !append_assoc. reflexivity.
Qed.

Lemma firstn_succ_nth {A : Type} (l : list A) (k : nat) (d : A) :
  (k < List.length l)%nat -> firstn (S k) l = (firstn k l ++ [nth k l d])%list.
Proof.
  revert k. induction l as [|a l IH]; intros k Hk; simpl in Hk; [lia|].
  destruct k as [|k]; [reflexivity|].
  rewrite firstn_cons. rewrite (IH k) by lia. reflexivity.
Qed.

End Text.

(** ** The sequence formatter *)

Section SequenceFormatter.

Variable valobj : SBValue.
Variable output : string.

Let ps : list string := previews valobj.
Let n : nat := GetNumChildren valobj.

Lemma previews_length : List.length ps = n.
Proof. apply length_map. Qed.

Lemma accumulated_zero : accumulated output ps 0 = output.
Proof. unfold accumulated. simpl. apply append_empty_r. Qed.

(** One turn of the loop appends the preview of the child at the
    index. *)
Lemma accumulated_step (k : nat) :
  (k < n)%nat ->
  accumulated output ps (S k)
  = accumulated output ps k ++ value_text (GetChildAtIndex valobj k) ++ ", ".
Proof.
  intros Hk. unfold accumulated.
  rewrite (firstn_succ_nth ps k (value_text SBValue_invalid))
    by (rewrite previews_length; exact Hk).
  rewrite content_snoc, append_assoc.
  unfold ps, previews, GetChildAtIndex. rewrite map_nth. reflexivity.
Qed.

(** While no check fires, the loop reaches the end of the indices. *)
Lemma sequence_loop_runs (m : nat) : forall k : nat,
  (k + m <= n)%nat ->
  (forall j, (k <= j < k + m)%nat -> Py.len (accumulated output ps j) <= 32) ->
  sequence_loop valobj (seq k m) (accumulated output ps k)
  = (accumulated output ps (k + m), false).
Proof.
  induction m as [|m IH]; intros k Hkm Hshort.
  - rewrite Nat.add_0_r. reflexivity.
  - simpl.
    assert (Hk : Py.len (accumulated output ps k) <= 32) by (apply Hshort; lia).
    apply Z.ltb_ge in Hk. rewrite Hk.
    rewrite <- accumulated_step by lia.
    rewrite IH; [f_equal; f_equal; lia | lia |].
    intros j Hj. apply Hshort. lia.
Qed.

(** The loop breaks at the first index where the check fires. *)
Lemma sequence_loop_breaks (m : nat) : forall k j : nat,
  (k + m <= n)%nat -> (k <= j < k + m)%nat ->
  (forall i, (k <= i < j)%nat -> Py.len (accumulated output ps i) <= 32) ->
  32 < Py.len (accumulated output ps j) ->
  sequence_loop valobj (seq k m) (accumulated output ps k)
  = (accumulated output ps j, true).
Proof.
  induction m as [|m IH]; intros k j Hkm Hj Hshort Hlong; [lia|].
  simpl. destruct (Nat.eq_dec k j) as [-> | Hne].
  - apply Z.ltb_lt in Hlong. rewrite Hlong. reflexivity.
  - assert (Hk : Py.len (accumulated output ps k) <= 32) by (apply Hshort; lia).
    apply Z.ltb_ge in Hk. rewrite Hk.
    rewrite <- accumulated_step by lia.
    apply IH; [lia | lia | | exact Hlong].
    intros i Hi. apply Hshort. lia.
Qed.

(** No check fires: everything is rendered and two characters go. *)
Lemma sequence_formatter_all_rendered :
  (forall k, (k < n)%nat -> Py.len (accumulated output ps k) <= 32) ->
  sequence_formatter output valobj = Py.drop_last 2 (accumulated output ps n).
Proof.
  intros Hshort. unfold sequence_formatter. fold n.
  rewrite <- accumulated_zero at 1.
  rewrite sequence_loop_runs; [reflexivity | lia |].
  intros j Hj. apply Hshort. lia.
Qed.

Lemma sequence_formatter_joined :
  (forall k, (k < n)%nat -> Py.len (accumulated output ps k) <= 32) ->
  (0 < n)%nat ->
  sequence_formatter output valobj = output ++ Py.join ", " ps.
Proof.
  intros Hshort Hn. rewrite sequence_formatter_all_rendered by exact Hshort.
  unfold accumulated. rewrite <- previews_length, firstn_all.
  rewrite <- previews_length in Hn.
  destruct ps as [|p rest]; [simpl in Hn; lia|].
  rewrite content_join, <- append_assoc.
  apply (drop_last_append _ ", ").
Qed.

(** A check fires at [k]: annotation, whole previews, ellipsis. *)
Lemma sequence_formatter_cut (k : nat) :
  (k < n)%nat ->
  32 < Py.len (accumulated output ps k) ->
  (forall j, (j < k)%nat -> Py.len (accumulated output ps j) <= 32) ->
  sequence_formatter output valobj
  = "(len: " ++ Py.str_of_int (Z.of_nat n) ++ ") "
    ++ output ++ content (firstn k ps) ++ "...".
Proof.
  intros Hk Hlong Hshort.
  unfold sequence_formatter. fold n.
  rewrite <- accumulated_zero at 1.
  rewrite (sequence_loop_breaks n 0 k); try lia; try assumption.
  - unfold accumulated. rewrite !append_assoc. reflexivity.
  - intros i Hi. apply Hshort. lia.
Qed.

(** C4, as the code has it.  The threshold is checked on the text
    accumulated so far, open token included, before each element is
    appended.  When no check fires every element is rendered and the
    last two characters are cut off, which with at least one element
    leaves the previews joined by the separator and no ellipsis.  When
    a check fires at an element, the result is the count annotation, the
    open token, the whole previews before that element with their
    separators, and the ellipsis: that element and the later ones are left
    out, and no preview is cut. *)
Theorem sequence_formatter_threshold :
  ((forall k, (k < n)%nat -> Py.len (accumulated output ps k) <= 32) ->
   sequence_formatter output valobj = Py.drop_last 2 (accumulated output ps n)
   /\ ((0 < n)%nat ->
       sequence_formatter output valobj = output ++ Py.join ", " ps))
  /\ (forall k,
        (k < n)%nat ->
        32 < Py.len (accumulated output ps k) ->
        (forall j, (j < k)%nat -> Py.len (accumulated output ps j) <= 32) ->
        sequence_formatter output valobj
        = "(len: " ++ Py.str_of_int (Z.of_nat n) ++ ") "
          ++ output ++ content (firstn k ps) ++ "...").
Proof.
  split.
  - intros Hshort. split.
    + apply sequence_formatter_all_rendered. exact Hshort.
    + apply sequence_formatter_joined. exact Hshort.
  - apply sequence_formatter_cut.
Qed.

(** C10.  With no children the loop is not entered, and the formatter
    returns the open token without its last two characters: the array
    and the slice summaries are the close token alone, and the vec
    summary keeps [vec] before it. *)
Theorem sequence_formatter_empty (Hempty : GetNumChildren valobj = 0%nat) :
  sequence_loop valobj (seq 0 (GetNumChildren valobj)) output = (output, false)
  /\ sequence_formatter output valobj = Py.drop_last 2 output
  /\ ArraySummaryProvider valobj = "]"
  /\ StdSliceSummaryProvider valobj = "]"
  /\ StdVecSummaryProvider valobj = "vec]".
Proof.
  unfold ArraySummaryProvider, StdSliceSummaryProvider, StdVecSummaryProvider,
    sequence_formatter.
  rewrite Hempty. repeat split.
Qed.

End SequenceFormatter.

Lemma sequence_formatter_threshold_witness :
  sequence_formatter "[" Examples.four_bytes = "[1, 2, 3, 4"
  /\ sequence_formatter "vec![" Examples.eight_short
     = "(len: 8) vec![12, 12, 12, 12, 12, 12, 12, ...".
Proof.
  split.
  - destruct (sequence_formatter_threshold Examples.four_bytes "[")
      as [Hrendered _].
    assert (Hshort : forall k, (k < GetNumChildren Examples.four_bytes)%nat ->
      Py.len (accumulated "[" (previews Examples.four_bytes) k) <= 32).
    { intros k Hk.
      do 4 (destruct k as [|k]; [vm_compute; discriminate|]).
      unfold GetNumChildren in Hk. simpl in Hk. lia. }
    destruct (Hrendered Hshort) as [_ Hjoined].
    apply Hjoined. unfold GetNumChildren. simpl. lia.
  - destruct (sequence_formatter_threshold Examples.eight_short "vec![")
      as [_ Hcut].
    apply (Hcut 7%nat).
    + unfold GetNumChildren. simpl. lia.
    + vm_compute. reflexivity.
    + intros j Hj.
      do 7 (destruct j as [|j]; [vm_compute; discriminate|]).
      lia.
Defined.

(** C4, as stated, fails.  Eight short elements make thirty-one
    characters of content, yet after the open token of a vec the check
    fires and the last element is left out; one element of forty
    characters makes more than thirty-two, yet it is rendered whole
    with no annotation and no ellipsis. *)
Lemma sequence_formatter_threshold_counterexample :
  Py.len (content (previews Examples.eight_short)) <= 32
  /\ sequence_formatter "vec![" Examples.eight_short
     = "(len: 8) vec![12, 12, 12, 12, 12, 12, 12, ..."
  /\ 32 < Py.len (content (previews Examples.one_long))
  /\ sequence_formatter "[" Examples.one_long = "[" ++ Examples.forty.
Proof.
  split; [vm_compute; discriminate|].
  split; [vm_compute; reflexivity|].
  split; vm_compute; reflexivity.
Qed.

Lemma sequence_formatter_empty_witness :
  sequence_formatter "vec![" Examples.empty_value = "vec"
  /\ ArraySummaryProvider Examples.empty_value = "]"
  /\ StdSliceSummaryProvider Examples.empty_value = "]"
  /\ StdVecSummaryProvider Examples.empty_value = "vec]".
Proof.
  destruct (sequence_formatter_empty Examples.empty_value "vec![" eq_refl)
    as (_ & Hformat & Harray & Hslice & Hvec).
  repeat split; assumption.
Defined.

(** ** Sum types *)

Section SumTypes.

Variable valobj : SBValue.

Let self : MSVCEnumSyntheticProvider.t := MSVCEnumSyntheticProvider.init valobj.
Let payload : SBValue := enum_payload valobj.
Let name : string :=
  MSVCEnumSyntheticProvider.resolve_variant_name
    (enum_variant_member valobj) (enum_tag valobj).

Lemma init_is_niche :
  MSVCEnumSyntheticProvider.is_niche self
  = existsb (MSVCEnumSyntheticProvider.niche_at valobj)
      (seq 0 (GetNumChildren valobj - 1)).
Proof.
  unfold self, MSVCEnumSyntheticProvider.init, MSVCEnumSyntheticProvider.update.
  cbn [MSVCEnumSyntheticProvider.is_niche MSVCEnumSyntheticProvider.valobj].
  unfold GetNonSyntheticValue.
  destruct (existsb _ _); reflexivity.
Qed.

Lemma classify_payload_code (v : SBValue) :
  (if (GetNumChildren v =? 0)%nat then DISCRIMINANT
   else if (val_name (GetChildAtIndex v 0) =? "__0")%string then TUPLE
        else STRUCT)
  = classify_payload v.
Proof.
  unfold classify_payload, GetNumChildren, GetChildAtIndex.
  destruct (val_children v); reflexivity.
Qed.

(** What [update] leaves in a tagged instance. *)
Lemma init_tagged :
  MSVCEnumSyntheticProvider.is_niche self = false ->
  MSVCEnumSyntheticProvider.tag self = Some (enum_tag valobj)
  /\ MSVCEnumSyntheticProvider.variant self = Some payload
  /\ MSVCEnumSyntheticProvider.variant_type self
     = Some (classify_payload payload)
  /\ MSVCEnumSyntheticProvider.variant_name self = Some name.
Proof.
  rewrite init_is_niche. intros Hniche.
  unfold self, MSVCEnumSyntheticProvider.init, MSVCEnumSyntheticProvider.update.
  cbn [MSVCEnumSyntheticProvider.is_niche MSVCEnumSyntheticProvider.valobj].
  unfold GetNonSyntheticValue in *. rewrite Hniche.
  cbn [MSVCEnumSyntheticProvider.tag MSVCEnumSyntheticProvider.variant
       MSVCEnumSyntheticProvider.variant_type
       MSVCEnumSyntheticProvider.variant_name].
  rewrite classify_payload_code. repeat split.
Qed.

(** The summary of a tagged value, by the shape of its payload. *)
Lemma summary_tagged :
  MSVCEnumSyntheticProvider.is_niche self = false ->
  MSVCEnumSummaryProvider valobj
  = match classify_payload payload with
    | TUPLE => Ok (name ++ TupleSummaryProvider payload)
    | STRUCT =>
        vars <- struct_vars (val_description payload) ;;
        Ok (name ++ "{" ++ Py.join ", " vars ++ "}")
    | DISCRIMINANT => Ok name
    end.
Proof.
  intros Htagged.
  destruct (init_tagged Htagged) as (_ & Hvariant & Htype & Hname).
  unfold MSVCEnumSummaryProvider. cbv zeta.
  change (MSVCEnumSyntheticProvider.init (GetNonSyntheticValue valobj))
    with self.
  rewrite Htagged, Hvariant, Htype, Hname.
  cbn [MSVCEnumSyntheticProvider.getattr bind].
  destruct (classify_payload payload); reflexivity.
Qed.

(** C5.  For a niche value the decoder keeps the value itself as the
    active variant and assigns no tag, and the summary, which reads the
    tag, raises. *)
Theorem enum_niche_summary
  (Hniche : MSVCEnumSyntheticProvider.is_niche self = true) :
  MSVCEnumSyntheticProvider.variant self = Some valobj
  /\ MSVCEnumSyntheticProvider.tag self = None
  /\ MSVCEnumSummaryProvider valobj = Raise (AttributeError "tag").
Proof.
  assert (Hfields :
    MSVCEnumSyntheticProvider.variant self = Some valobj
    /\ MSVCEnumSyntheticProvider.tag self = None).
  { rewrite init_is_niche in Hniche.
    unfold self, MSVCEnumSyntheticProvider.init,
      MSVCEnumSyntheticProvider.update.
    cbn [MSVCEnumSyntheticProvider.is_niche MSVCEnumSyntheticProvider.valobj].
    unfold GetNonSyntheticValue in *. rewrite Hniche. split; reflexivity. }
  destruct Hfields as [Hvariant Htag].
  repeat split; try assumption.
  unfold MSVCEnumSummaryProvider. cbv zeta.
  change (MSVCEnumSyntheticProvider.init (GetNonSyntheticValue valobj))
    with self.
  rewrite Hniche, Htag. reflexivity.
Qed.

End SumTypes.

Lemma enum_niche_summary_witness :
  MSVCEnumSyntheticProvider.variant
    (MSVCEnumSyntheticProvider.init Examples.niche_enum)
  = Some Examples.niche_enum
  /\ MSVCEnumSummaryProvider Examples.niche_enum = Raise (AttributeError "tag").
Proof.
  destruct (enum_niche_summary Examples.niche_enum eq_refl)
    as (Hvariant & _ & Hsummary).
  split; [exact Hvariant | exact Hsummary].
Defined.

(** ** Pointer chains *)




Lemma layer_part_reference (p : SBType) :
  is_reference_prefix (RefSyntheticProvider.layer_part true p).
Proof.
  unfold RefSyntheticProvider.layer_part, is_reference_prefix.
  destruct (is_pointer p || is_reference p);
    [destruct (Py.endswith _ _) | destruct (Py.startswith _ _)]; tauto.
Qed.

Lemma layer_part_pointer (p : SBType) :
  is_pointer_prefix (RefSyntheticProvider.layer_part false p).
Proof.
  unfold RefSyntheticProvider.layer_part, is_pointer_prefix.
  destruct (is_pointer p || is_reference p);
    [destruct (Py.endswith _ _) | destruct (Py.startswith _ _)]; tauto.
Qed.




Lemma chain_prefixes_forms (t : SBType) : forall forced : bool,
  Forall (fun p => is_reference_prefix p \/ is_pointer_prefix p)
    (chain_prefixes forced t).
Proof.
  induction t as [|i|i p IH|i p IH|i e IH]; intros forced; simpl;
    try constructor; try apply IH;
    (destruct (forced || _);
     [left; apply layer_part_reference | right; apply layer_part_pointer]).
Qed.

(** The first prefix of a chain whose first layer is forced, or ends
    with an ampersand once [const] is stripped, is a reference
    prefix. *)
Lemma chain_prefixes_head (t : SBType) (forced : bool) (l : SBType)
  (rest : list SBType) :
  chain_layers t = l :: rest ->
  forced || ends_with_amp l = true ->
  exists p ps, chain_prefixes forced t = p :: ps /\ is_reference_prefix p.
Proof.
  destruct t as [|i|i p|i p|i e]; simpl; intros Hl Href; try discriminate Hl;
    injection Hl as <- _; rewrite Href; eexists; eexists;
    (split; [reflexivity | apply layer_part_reference]).
Qed.

Lemma chain_prefixes_at (t : SBType) : forall (k : nat) (forced : bool)
  (l : SBType),
  nth_error (chain_layers t) k = Some l ->
  ends_with_amp l = true ->
  exists p, nth_error (chain_prefixes forced t) k = Some p
            /\ is_reference_prefix p.
Proof.
  induction t as [|i|i p IH|i p IH|i e IH]; intros k forced l Hl Hamp;
    try (destruct k; discriminate Hl).
  - destruct k as [|k]; simpl in Hl |- *.
    + injection Hl as <-. rewrite Hamp, orb_true_r.
      eexists. split; [reflexivity | apply layer_part_reference].
    + apply (IH k _ l Hl Hamp).
  - destruct k as [|k]; simpl in Hl |- *.
    + injection Hl as <-. rewrite Hamp, orb_true_r.
      eexists. split; [reflexivity | apply layer_part_reference].
    + apply (IH k _ l Hl Hamp).
Qed.

Lemma chain_prefixes_forced (t : SBType) : forall (k : nat) (forced : bool)
  (outer inner : SBType),
  nth_error (chain_layers t) k = Some outer ->
  nth_error (chain_layers t) (S k) = Some inner ->
  rvalue_shaped outer = true ->
  exists p, nth_error (chain_prefixes forced t) (S k) = Some p
            /\ is_reference_prefix p.
Proof.
  induction t as [|i|i p IH|i p IH|i e IH];
    intros k forced outer inner Houter Hinner Hshape;
    try (destruct k; discriminate Houter).
  - destruct k as [|k]; simpl in Houter, Hinner |- *.
    + injection Houter as <-.
      destruct (chain_layers p) as [|l rest] eqn:E; [discriminate Hinner|].
      destruct (chain_prefixes_head p
                  (rvalue_shaped (SBType_pointer i p)) l rest E)
        as (q & qs & -> & Hq); [rewrite Hshape; reflexivity|].
      eexists. split; [reflexivity | exact Hq].
    + apply (IH k _ outer inner Houter Hinner Hshape).
  - destruct k as [|k]; simpl in Houter, Hinner |- *.
    + injection Houter as <-.
      destruct (chain_layers p) as [|l rest] eqn:E; [discriminate Hinner|].
      destruct (chain_prefixes_head p
                  (rvalue_shaped (SBType_reference i p)) l rest E)
        as (q & qs & -> & Hq); [rewrite Hshape; reflexivity|].
      eexists. split; [reflexivity | exact Hq].
    + apply (IH k _ outer inner Houter Hinner Hshape).
Qed.


(** ** String summaries *)

Lemma decode_replace_ascii (bs : list byte) :
  (forall b, In b bs -> (Byte.to_N b < 128)%N) ->
  Utf8.decode_replace bs = map Byte.to_N bs.
Proof.
  induction bs as [|b bs IH]; intros Hascii; [reflexivity|].
  assert (Hb : (Byte.to_N b <? 128)%N = true)
    by (apply N.ltb_lt, Hascii; left; reflexivity).
  cbn [Utf8.decode_replace map]. rewrite Hb.
  rewrite IH; [reflexivity|]. intros b' Hb'. apply Hascii. right. exact Hb'.
Qed.

(** A byte that can start no sequence is replaced on its own and
    decoding goes on after it. *)
Lemma decode_replace_invalid_start (b : byte) (rest : list byte) :
  (128 <= Byte.to_N b < 194)%N \/ (245 <= Byte.to_N b)%N ->
  Utf8.decode_replace (b :: rest)
  = Utf8.REPLACEMENT :: Utf8.decode_replace rest.
Proof.
  intros Hb. cbn [Utf8.decode_replace].
  destruct Hb as [[Hlo Hhi] | Hhigh].
  - replace (Byte.to_N b <? 128)%N with false by (symmetry; apply N.ltb_ge; lia).
    replace (Byte.to_N b <? 194)%N with true by (symmetry; apply N.ltb_lt; lia).
    reflexivity.
  - replace (Byte.to_N b <? 128)%N with false by (symmetry; apply N.ltb_ge; lia).
    replace (Byte.to_N b <? 194)%N with false by (symmetry; apply N.ltb_ge; lia).
    replace (Byte.to_N b <? 224)%N with false by (symmetry; apply N.ltb_ge; lia).
    replace (Byte.to_N b <? 240)%N with false by (symmetry; apply N.ltb_ge; lia).
    replace (Byte.to_N b <? 245)%N with false by (symmetry; apply N.ltb_ge; lia).
    reflexivity.
Qed.

(** ** The element name of a vec *)

Lemma prefix_comma (c : ascii) (s : string) :
  String.prefix "," (String c s) = Ascii.eqb c ",".
Proof.
  cbn [String.prefix]. destruct (ascii_dec "," c) as [<- | Hne].
  - destruct s; reflexivity.
  - symmetry. apply Ascii.eqb_neq. congruence.
Qed.

(** Where no bracket opens before the first comma, cutting at the first
    comma and cutting at the first top-level comma agree. *)
Lemma first_comma_is_top_level (s : string) :
  opens_before_comma s = false ->
  fst (fst (Py.partition s ",")) = upto_top_level_comma 0 s.
Proof.
  unfold Py.partition.
  induction s as [|c s IH]; intros Hopen; [reflexivity|].
  cbn [Py.find_sep upto_top_level_comma opens_before_comma] in Hopen |- *.
  rewrite prefix_comma.
  destruct (Ascii.eqb c ",") eqn:Ec; [reflexivity|].
  apply orb_false_iff in Hopen as [Hlt Hopen]. rewrite Hlt.
  cbn [andb]. specialize (IH Hopen).
  assert (Hdepth : (if Ascii.eqb c ">" then Nat.pred 0 else 0%nat) = 0%nat)
    by (destruct (Ascii.eqb c ">"); reflexivity).
  rewrite Hdepth.
  destruct (Py.find_sep "," s) as [[before after]|]; simpl in IH |- *;
    f_equal; exact IH.
Qed.

(** C9, on the code.  For a vec of pairs the element name cut out by
    [update] stops at the comma inside the element type, where the first
    generic parameter runs to the comma after it; the element type is
    looked up under the shorter name and the displayed type is built
    from what that lookup finds. *)
Theorem vec_element_name_nested `{Host} :
  let valobj := Examples.vec_of_pairs in
  let self := MSVCStdVecSyntheticProvider.init valobj in
  GetTypeName valobj = "alloc::vec::Vec<tuple$<u8,u16>,alloc::alloc::Global>"
  /\ vec_element_name (GetTypeName valobj) = "tuple$<u8"
  /\ first_generic_parameter (GetTypeName valobj) = "tuple$<u8,u16>"
  /\ MSVCStdVecSyntheticProvider.element_type self = FindFirstType "tuple$<u8"
  /\ MSVCStdVecSyntheticProvider.get_type_name self
     = "Vec<" ++ GetName (FindFirstType "tuple$<u8") ++ ">".
Proof.
  cbv zeta. repeat split.
Qed.

(** ** More text lemmas *)

Section MoreText.

Lemma substring_length (s : string) : forall n m : nat,
  String.length (substring n m s) = Nat.min m (String.length s - n).
Proof.
  induction s as [|c s IH]; intros n m.
  - destruct n, m; reflexivity.
  - destruct n as [|n].
    + destruct m as [|m]; [reflexivity|]. simpl. rewrite IH.
      rewrite Nat.sub_0_r. reflexivity.
    + simpl. rewrite IH. reflexivity.
Qed.

Lemma drop_last_length (k : nat) (s : string) :
  String.length (Py.drop_last k s) = (String.length s - k)%nat.
Proof. unfold Py.drop_last. rewrite substring_length. lia. Qed.

Lemma drop_first_length (k : nat) (s : string) :
  String.length (Py.drop_first k s) = (String.length s - k)%nat.
Proof. unfold Py.drop_first. rewrite substring_length. lia. Qed.

Lemma prefix_length (p s : string) :
  String.prefix p s = true -> (String.length p <= String.length s)%nat.
Proof.
  intros Hp. apply prefix_correct in Hp.
  assert (H : String.length (substring 0 (String.length p) s) = String.length p)
    by (rewrite Hp; reflexivity).
  rewrite substring_length in H. lia.
Qed.

Lemma prefix_append (p t : string) : String.prefix p (p ++ t) = true.
Proof. apply prefix_correct. apply substring_prefix. Qed.

Lemma substring_skip (p t : string) : forall m : nat,
  substring (String.length p) m (p ++ t) = substring 0 m t.
Proof. induction p as [|c p IH]; intros m; simpl; [reflexivity | apply IH]. Qed.

Lemma substring_whole (s : string) : substring 0 (String.length s) s = s.
Proof. induction s as [|c s IH]; simpl; [|rewrite IH]; reflexivity. Qed.

Lemma drop_first_append (p t : string) :
  Py.drop_first (String.length p) (p ++ t) = t.
Proof.
  unfold Py.drop_first. rewrite substring_skip, length_append.
  replace (String.length p + String.length t - String.length p)%nat
    with (String.length t) by lia.
  apply substring_whole.
Qed.

(** A separator that is found splits the text in three. *)
Lemma find_sep_length (sep : string) (s : string) : forall before after,
  Py.find_sep sep s = Some (before, after) ->
  String.length s
  = (String.length before + String.length sep + String.length after)%nat.
Proof.
  induction s as [|c s IH]; intros before after Hfind.
  - cbn [Py.find_sep] in Hfind.
    destruct (String.prefix sep "") eqn:Hp; [|discriminate Hfind].
    injection Hfind as <- <-. apply prefix_length in Hp.
    rewrite drop_first_length. change (String.length "") with 0%nat in *. lia.
  - cbn [Py.find_sep] in Hfind.
    destruct (String.prefix sep (String c s)) eqn:Hp.
    + injection Hfind as <- <-. apply prefix_length in Hp.
      rewrite drop_first_length. change (String.length "") with 0%nat. lia.
    + destruct (Py.find_sep sep s) as [[b a]|]; [|discriminate Hfind].
      injection Hfind as <- <-. simpl. rewrite (IH b a eq_refl). lia.
Qed.

Lemma find_sep_prefix (sep t : string) :
  Py.find_sep sep (sep ++ t) = Some ("", t).
Proof.
  destruct (sep ++ t) eqn:E; cbn [Py.find_sep]; rewrite <- E;
    rewrite prefix_append, drop_first_append; reflexivity.
Qed.

(** Removing the first occurrence of a non-empty text leaves the text
    as it was or makes it shorter. *)
Lemma replace_first_shrinks (s old : string) :
  old <> "" ->
  Py.replace_first s old "" = s
  \/ (String.length (Py.replace_first s old "") < String.length s)%nat.
Proof.
  intros Hold. unfold Py.replace_first.
  destruct (Py.find_sep old s) as [[before after]|] eqn:Hfind; [|left; reflexivity].
  right. apply find_sep_length in Hfind.
  rewrite (length_append before), (length_append "" after).
  destruct old; [contradiction|]. simpl in *. lia.
Qed.

Lemma endswith_length (s suf : string) :
  Py.endswith s suf = true -> (String.length suf <= String.length s)%nat.
Proof.
  induction s as [|c s IH]; cbn [Py.endswith]; rewrite orb_true_iff.
  - intros [H | H]; [|discriminate H].
    apply String.eqb_eq in H. subst suf. simpl. lia.
  - intros [H | H].
    + apply String.eqb_eq in H. subst suf. lia.
    + specialize (IH H). simpl. lia.
Qed.

Lemma endswith_append (p suf : string) : Py.endswith (p ++ suf) suf = true.
Proof.
  induction p as [|c p IH].
  - simpl. destruct suf; cbn [Py.endswith]; rewrite String.eqb_refl; reflexivity.
  - change (String c p ++ suf) with (String c (p ++ suf)).
    cbn [Py.endswith]. rewrite IH. apply orb_true_r.
Qed.

Lemma endswith_split (s suf : string) :
  Py.endswith s suf = true -> exists p, s = p ++ suf.
Proof.
  induction s as [|c s IH]; cbn [Py.endswith]; rewrite orb_true_iff.
  - intros [H | H]; [|discriminate H].
    apply String.eqb_eq in H. exists "". exact H.
  - intros [H | H].
    + apply String.eqb_eq in H. exists "". exact H.
    + destruct (IH H) as [p ->]. exists (String c p). reflexivity.
Qed.

Lemma append_snoc_inj (a b : string) (c : ascii) :
  a ++ String c "" = b ++ String c "" -> a = b.
Proof.
  revert b. induction a as [|x a IH]; intros [|y b] H; simpl in H.
  - reflexivity.
  - injection H as _ H. destruct b; discriminate H.
  - injection H as _ H. destruct a; discriminate H.
  - injection H as -> H. f_equal. apply IH. exact H.
Qed.

(** Stripping a closing bracket leaves the name or makes it shorter. *)
Lemma strip_closing_shrinks (name : string) :
  strip_closing name = name
  \/ (String.length (strip_closing name) < String.length name)%nat.
Proof.
  unfold strip_closing.
  destruct (Py.endswith name " >") eqn:E2.
  - right. apply endswith_length in E2. rewrite drop_last_length.
    simpl in E2. lia.
  - destruct (Py.endswith name ">") eqn:E1; [|left; reflexivity].
    right. apply endswith_length in E1. rewrite drop_last_length.
    simpl in E1. lia.
Qed.

End MoreText.

(** ** Resolving type names *)

Section TypeNames.

Lemma type_name_from_name_step (depth : nat) (name : string) :
  type_name_from_name (S depth) name
  = match step_of name with
    | Unchanged => Some name
    | Recurse wrap next => option_map wrap (type_name_from_name depth next)
    end.
Proof.
  unfold step_of, strip_closing. cbn [type_name_from_name].
  destruct (Py.startswith name "enum2$<").
  - destruct (type_name_from_name depth _); reflexivity.
  - destruct (Py.startswith name "core::option::Option"); [reflexivity|].
    destruct (Py.startswith name "alloc::vec::Vec"); reflexivity.
Qed.

Lemma step_unchanged (name : string) :
  step_of name = Unchanged <-> has_wrapper_head name = false.
Proof.
  unfold step_of, has_wrapper_head.
  destruct (Py.startswith name "enum2$<");
    destruct (Py.startswith name "core::option::Option");
    destruct (Py.startswith name "alloc::vec::Vec");
    simpl; split; intros H; try reflexivity; discriminate H.
Qed.

Lemma removeprefix_shrinks (s p : string) :
  p <> "" ->
  Py.removeprefix s p = s
  \/ (String.length (Py.removeprefix s p) < String.length s)%nat.
Proof.
  intros Hp. unfold Py.removeprefix, Py.startswith.
  destruct (String.prefix p s) eqn:E; [|left; reflexivity].
  right. apply prefix_length in E. rewrite drop_first_length.
  destruct p; [contradiction|]. simpl in E |- *. lia.
Qed.

Lemma shrinks_twice (name first second : string) :
  first = name \/ (String.length first < String.length name)%nat ->
  second = first \/ (String.length second < String.length first)%nat ->
  second = name \/ (String.length second < String.length name)%nat.
Proof.
  intros [-> | H1] [-> | H2]; try tauto; right; lia.
Qed.

(** A call goes on with the same name or with a shorter one. *)
Lemma step_shrinks (name : string) (wrap : string -> string) (next : string) :
  step_of name = Recurse wrap next ->
  next = name \/ (String.length next < String.length name)%nat.
Proof.
  unfold step_of.
  destruct (Py.startswith name "enum2$<").
  { intros [= _ <-].
    apply (shrinks_twice name (Py.replace_first name "enum2$<" "")).
    - apply replace_first_shrinks. discriminate.
    - apply strip_closing_shrinks. }
  destruct (Py.startswith name "core::option::Option").
  { intros [= _ <-].
    apply (shrinks_twice name
             (Py.replace_first name "core::option::Option<" "")).
    - apply replace_first_shrinks. discriminate.
    - apply strip_closing_shrinks. }
  destruct (Py.startswith name "alloc::vec::Vec"); [|discriminate].
  intros [= _ <-].
  apply (shrinks_twice name (Py.removeprefix name "alloc::vec::Vec<")).
  - apply removeprefix_shrinks. discriminate.
  - apply replace_first_shrinks. discriminate.
Qed.

Lemma step_wrap_head (name : string) (wrap : string -> string) (next inner : string) :
  step_of name = Recurse wrap next ->
  has_wrapper_head inner = false -> has_wrapper_head (wrap inner) = false.
Proof.
  unfold step_of.
  destruct (Py.startswith name "enum2$<"); [intros [= <- _]; tauto|].
  destruct (Py.startswith name "core::option::Option");
    [intros [= <- _] _; reflexivity|].
  destruct (Py.startswith name "alloc::vec::Vec"); [|discriminate].
  intros [= <- _] _. reflexivity.
Qed.

Lemma type_name_from_name_deeper (depth : nat) : forall (name result : string),
  type_name_from_name depth name = Some result ->
  type_name_from_name (S depth) name = Some result.
Proof.
  induction depth as [|depth IH]; intros name result Hres; [discriminate Hres|].
  rewrite type_name_from_name_step in Hres |- *.
  destruct (step_of name) as [|wrap next]; [exact Hres|].
  destruct (type_name_from_name depth next) as [inner|] eqn:E;
    [|discriminate Hres].
  rewrite (IH _ _ E). exact Hres.
Qed.

Lemma type_name_from_name_deep (depth depth' : nat) (name result : string) :
  (depth <= depth')%nat ->
  type_name_from_name depth name = Some result ->
  type_name_from_name depth' name = Some result.
Proof.
  intros Hle Hres. induction Hle as [|d Hle IH]; [exact Hres|].
  apply type_name_from_name_deeper. exact IH.
Qed.

(** A name whose call goes on with the name itself is never resolved. *)
Lemma type_name_from_name_loops (name : string) (wrap : string -> string) :
  step_of name = Recurse wrap name ->
  forall depth, type_name_from_name depth name = None.
Proof.
  intros Hstep depth. induction depth as [|depth IH]; [reflexivity|].
  rewrite type_name_from_name_step, Hstep, IH. reflexivity.
Qed.

(** X1.  A name that is resolved is resolved by as many nested calls as
    it has characters, and one more. *)
Theorem type_name_from_name_depth_bound (depth : nat) (name result : string)
  (Hresolved : type_name_from_name depth name = Some result) :
  type_name_from_name (S (String.length name)) name = Some result.
Proof.
  assert (Hall : forall n name depth result,
    (String.length name <= n)%nat ->
    type_name_from_name depth name = Some result ->
    type_name_from_name (S (String.length name)) name = Some result).
  { clear. induction n as [|n IH]; intros name depth result Hlen Hres;
      (destruct depth as [|depth]; [discriminate Hres|]);
      rewrite type_name_from_name_step in Hres |- *;
      destruct (step_of name) as [|wrap next] eqn:Hstep; try exact Hres;
      destruct (type_name_from_name depth next) as [inner|] eqn:E;
      try discriminate Hres;
      destruct (step_shrinks _ _ _ Hstep) as [-> | Hshort];
      try (rewrite (type_name_from_name_loops _ _ Hstep) in E; discriminate E);
      try lia.
    assert (Hinner : type_name_from_name (S (String.length next)) next
                     = Some inner) by (apply (IH next depth); [lia | exact E]).
    rewrite (type_name_from_name_deep _ (String.length name) _ _ Hshort Hinner).
    exact Hres. }
  apply (Hall (String.length name) name depth); [lia | exact Hresolved].
Qed.

Lemma type_name_from_name_depth_bound_witness :
  type_name_from_name 34 "enum2$<core::option::Option<u8> >" = Some "Option<u8>".
Proof.
  exact (type_name_from_name_depth_bound 3
           "enum2$<core::option::Option<u8> >" "Option<u8>" eq_refl).
Defined.

(** X2.  A resolved name starts with none of the three wrappers, and
    resolving it again returns it unchanged. *)
Theorem type_name_from_name_fixed (depth : nat) (name result : string)
  (Hresolved : type_name_from_name depth name = Some result) :
  has_wrapper_head result = false
  /\ forall depth', type_name_from_name (S depth') result = Some result.
Proof.
  assert (Hhead : has_wrapper_head result = false).
  { revert name result Hresolved.
    induction depth as [|depth IH]; intros name result Hres;
      [discriminate Hres|].
    rewrite type_name_from_name_step in Hres.
    destruct (step_of name) as [|wrap next] eqn:Hstep.
    - injection Hres as <-. apply step_unchanged. exact Hstep.
    - destruct (type_name_from_name depth next) as [inner|] eqn:E;
        [|discriminate Hres].
      injection Hres as <-.
      apply (step_wrap_head _ _ _ _ Hstep). apply (IH _ _ E). }
  split; [exact Hhead|].
  intros depth'. rewrite type_name_from_name_step.
  apply step_unchanged in Hhead. rewrite Hhead. reflexivity.
Qed.

Lemma type_name_from_name_fixed_witness :
  type_name_from_name 1 "Vec<Option<u8>>" = Some "Vec<Option<u8>>".
Proof.
  exact (proj2 (type_name_from_name_fixed 5
                  "alloc::vec::Vec<enum2$<core::option::Option<u8> >,alloc::alloc::Global>"
                  "Vec<Option<u8>>" eq_refl) 0%nat).
Defined.

End TypeNames.

Section Wrappers.

Lemma endswith_space_bracket (s : string) :
  Py.endswith s " >" = true -> Py.endswith s ">" = true.
Proof.
  intros H. destruct (endswith_split _ _ H) as [p ->].
  replace (p ++ " >") with ((p ++ " ") ++ ">")
    by (rewrite append_assoc; reflexivity).
  apply endswith_append.
Qed.

Lemma strip_closing_none (name : string) :
  Py.endswith name ">" = false -> strip_closing name = name.
Proof.
  intros H. unfold strip_closing. rewrite H.
  destruct (Py.endswith name " >") eqn:E; [|reflexivity].
  apply endswith_space_bracket in E. congruence.
Qed.

Lemma strip_closing_spaced (inner : string) :
  strip_closing (inner ++ " >") = inner.
Proof.
  unfold strip_closing. rewrite endswith_append.
  apply (drop_last_append inner " >").
Qed.

Lemma strip_closing_plain (inner : string) :
  Py.endswith inner " " = false -> strip_closing (inner ++ ">") = inner.
Proof.
  intros Hinner. unfold strip_closing.
  destruct (Py.endswith (inner ++ ">") " >") eqn:E.
  - destruct (endswith_split _ _ E) as [p Hp].
    replace (p ++ " >") with ((p ++ " ") ++ ">") in Hp
      by (rewrite append_assoc; reflexivity).
    apply append_snoc_inj in Hp. subst inner.
    rewrite endswith_append in Hinner. discriminate Hinner.
  - rewrite endswith_append. apply (drop_last_append inner ">").
Qed.

Lemma replace_first_head (old rest : string) :
  Py.replace_first (old ++ rest) old "" = rest.
Proof. unfold Py.replace_first. rewrite find_sep_prefix. reflexivity. Qed.

(** With no comma before it, the allocator suffix is found where it
    was appended. *)
Lemma find_allocator_suffix (inner : string) :
  Py.mem_char "," inner = false ->
  Py.find_sep ",alloc::alloc::Global>" (inner ++ ",alloc::alloc::Global>")
  = Some (inner, "").
Proof.
  induction inner as [|c inner IH]; intros Hclean.
  - reflexivity.
  - cbn [Py.mem_char] in Hclean. apply orb_false_iff in Hclean as [Hc Hclean].
    change (String c inner ++ ",alloc::alloc::Global>")
      with (String c (inner ++ ",alloc::alloc::Global>")).
    cbn [Py.find_sep String.prefix].
    destruct (ascii_dec "," c) as [<- | _]; [discriminate Hc|].
    rewrite (IH Hclean). reflexivity.
Qed.

(** X3.  The well-formed wrappers resolve to their inner name: the sum
    type marker disappears, an option becomes [Option<...>] and a vec
    with the global allocator becomes [Vec<...>], whether the closing
    bracket follows a space or not. *)
Theorem type_name_from_name_wrappers (depth : nat) (inner : string) :
  type_name_from_name (S depth) ("enum2$<" ++ inner ++ " >")
  = type_name_from_name depth inner
  /\ (Py.endswith inner " " = false ->
      type_name_from_name (S depth) ("enum2$<" ++ inner ++ ">")
      = type_name_from_name depth inner)
  /\ type_name_from_name (S depth) ("core::option::Option<" ++ inner ++ " >")
     = option_map (fun r => "Option<" ++ r ++ ">")
         (type_name_from_name depth inner)
  /\ (Py.endswith inner " " = false ->
      type_name_from_name (S depth) ("core::option::Option<" ++ inner ++ ">")
      = option_map (fun r => "Option<" ++ r ++ ">")
          (type_name_from_name depth inner))
  /\ (Py.mem_char "," inner = false ->
      type_name_from_name (S depth)
        ("alloc::vec::Vec<" ++ inner ++ ",alloc::alloc::Global>")
      = option_map (fun r => "Vec<" ++ r ++ ">")
          (type_name_from_name depth inner)).
Proof.
  split; [|split; [|split; [|split]]].
  - rewrite type_name_from_name_step. unfold step_of.
    unfold Py.startswith at 1. rewrite prefix_append.
    rewrite replace_first_head, strip_closing_spaced.
    destruct (type_name_from_name depth inner); reflexivity.
  - intros Hinner. rewrite type_name_from_name_step. unfold step_of.
    unfold Py.startswith at 1. rewrite prefix_append.
    rewrite replace_first_head, strip_closing_plain by exact Hinner.
    destruct (type_name_from_name depth inner); reflexivity.
  - rewrite type_name_from_name_step. unfold step_of.
    change (Py.startswith ("core::option::Option<" ++ inner ++ " >") "enum2$<")
      with false.
    change (Py.startswith ("core::option::Option<" ++ inner ++ " >")
              "core::option::Option") with true.
    cbv iota. rewrite replace_first_head, strip_closing_spaced. reflexivity.
  - intros Hinner. rewrite type_name_from_name_step. unfold step_of.
    change (Py.startswith ("core::option::Option<" ++ inner ++ ">") "enum2$<")
      with false.
    change (Py.startswith ("core::option::Option<" ++ inner ++ ">")
              "core::option::Option") with true.
    cbv iota. rewrite replace_first_head, strip_closing_plain by exact Hinner.
    reflexivity.
  - intros Hclean. rewrite type_name_from_name_step. unfold step_of.
    change (Py.startswith
              ("alloc::vec::Vec<" ++ inner ++ ",alloc::alloc::Global>")
              "enum2$<") with false.
    change (Py.startswith
              ("alloc::vec::Vec<" ++ inner ++ ",alloc::alloc::Global>")
              "core::option::Option") with false.
    change (Py.startswith
              ("alloc::vec::Vec<" ++ inner ++ ",alloc::alloc::Global>")
              "alloc::vec::Vec") with true.
    cbv iota. unfold Py.removeprefix, Py.startswith.
    rewrite prefix_append, drop_first_append.
    unfold Py.replace_first. rewrite (find_allocator_suffix _ Hclean).
    rewrite !append_empty_r. reflexivity.
Qed.

Lemma type_name_from_name_wrappers_witness :
  type_name_from_name 2 "enum2$<u8>" = Some "u8"
  /\ type_name_from_name 2 "core::option::Option<u8>" = Some "Option<u8>"
  /\ type_name_from_name 2 "alloc::vec::Vec<u8,alloc::alloc::Global>"
     = Some "Vec<u8>".
Proof.
  destruct (type_name_from_name_wrappers 1 "u8")
    as (_ & Henum & _ & Hoption & Hvec).
  split; [exact (Henum eq_refl)|].
  split; [exact (Hoption eq_refl) | exact (Hvec eq_refl)].
Defined.

(** X4.  A name that starts like an option or a vec but carries nothing
    for the call to remove is handed to the next call as it is, and so
    on: no depth is enough, the call ends in a [RecursionError]. *)
Theorem type_name_from_name_never_returns (name : string) :
  (Py.startswith name "core::option::Option" = true ->
   Py.find_sep "core::option::Option<" name = None ->
   Py.endswith name ">" = false ->
   forall depth, type_name_from_name depth name = None)
  /\ (Py.startswith name "alloc::vec::Vec" = true ->
      Py.startswith name "alloc::vec::Vec<" = false ->
      Py.find_sep ",alloc::alloc::Global>" name = None ->
      forall depth, type_name_from_name depth name = None).
Proof.
  split.
  - intros Hstart Hfind Hend.
    apply (type_name_from_name_loops name (fun r => "Option<" ++ r ++ ">")).
    unfold step_of. rewrite Hstart.
    assert (Henum : Py.startswith name "enum2$<" = false).
    { destruct name as [|c rest]; [discriminate Hstart|].
      unfold Py.startswith in *. cbn [String.prefix] in Hstart |- *.
      destruct (ascii_dec "c" c) as [<- | _]; [reflexivity | discriminate Hstart]. }
    rewrite Henum. unfold Py.replace_first. rewrite Hfind.
    rewrite (strip_closing_none _ Hend). reflexivity.
  - intros Hstart Hopen Hfind.
    apply (type_name_from_name_loops name (fun r => "Vec<" ++ r ++ ">")).
    unfold step_of. rewrite Hstart.
    assert (Hother : Py.startswith name "enum2$<" = false
                     /\ Py.startswith name "core::option::Option" = false).
    { destruct name as [|c rest]; [discriminate Hstart|].
      unfold Py.startswith in *. cbn [String.prefix] in Hstart |- *.
      destruct (ascii_dec "a" c) as [<- | _];
        [split; reflexivity | discriminate Hstart]. }
    destruct Hother as [-> ->].
    unfold Py.removeprefix. rewrite Hopen.
    unfold Py.replace_first. rewrite Hfind. reflexivity.
Qed.

Lemma type_name_from_name_never_returns_witness :
  type_name_from_name 1000 "core::option::Option" = None
  /\ type_name_from_name 1000 "alloc::vec::VecDeque<u8>" = None.
Proof.
  split.
  - exact (proj1 (type_name_from_name_never_returns "core::option::Option")
             eq_refl eq_refl eq_refl 1000%nat).
  - exact (proj2 (type_name_from_name_never_returns "alloc::vec::VecDeque<u8>")
             eq_refl eq_refl eq_refl 1000%nat).
Defined.

End Wrappers.

(** ** Type names of values and tuples *)

Section ValueNames.

Lemma replace_absent (old new : string) (s : string) :
  Py.find_sep old s = None -> Py.replace s old new = s.
Proof.
  unfold Py.replace. induction s as [|c s IH]; intros Hfind; [reflexivity|].
  cbn [Py.find_sep] in Hfind. cbn [Py.replace_from].
  destruct (String.prefix old (String c s)); [discriminate Hfind|].
  destruct (Py.find_sep old s) as [[b a]|]; [discriminate Hfind|].
  rewrite IH by reflexivity. reflexivity.
Qed.

(** X5.  On a type whose name has no wrapper at its head and no space
    before a closing bracket, [type_name_from_val] returns what
    [type_name_from_type] returns, whatever the basic-type tag. *)
Theorem type_name_from_val_agrees (depth : nat) (valobj : SBValue)
  (Hhead : has_wrapper_head (GetName (GetType valobj)) = false)
  (Hspace : Py.find_sep " >" (GetName (GetType valobj)) = None) :
  type_name_from_val (S depth) valobj
  = Some (type_name_from_type (GetType valobj)).
Proof.
  unfold type_name_from_val, type_name_from_type.
  destruct (num_type_map_at (GetBasicType (GetType valobj)))
    as [[numeric signed]|e]; [|reflexivity].
  cbn [bind]. destruct numeric; cbn [negb].
  - destruct (_ && _); reflexivity.
  - rewrite type_name_from_name_step.
    apply step_unchanged in Hhead. rewrite Hhead.
    rewrite (replace_absent _ _ _ Hspace). reflexivity.
Qed.

Lemma type_name_from_val_agrees_witness :
  type_name_from_val 1 (Examples.scalar "x" Examples.f64 "1.5" 0) = Some (Ok "f64")
  /\ type_name_from_val 1
       (Examples.scalar "x" (Examples.plain "demo::Point") "" 0)
     = Some (Ok "demo::Point").
Proof.
  split.
  - exact (type_name_from_val_agrees 0
             (Examples.scalar "x" Examples.f64 "1.5" 0) eq_refl eq_refl).
  - exact (type_name_from_val_agrees 0
             (Examples.scalar "x" (Examples.plain "demo::Point") "" 0)
             eq_refl eq_refl).
Defined.

(** The loop of the tuple type name over the children that are left. *)
Lemma names_loop_all (depth : nat) (valobj : SBValue) :
  forall (rest : list SBValue) (names : list string) (done : list SBValue)
         (output : string),
  val_children valobj = (done ++ rest)%list ->
  Forall2 (fun child name => type_name_from_val depth child = Some (Ok name))
    rest names ->
  MSVCTupleSyntheticProvider.names_loop depth valobj
    (seq (List.length done) (List.length rest)) output
  = Some (Ok (output ++ content names)).
Proof.
  induction rest as [|child rest IH]; intros names done output Hchildren Hnames.
  - inversion Hnames; subst. simpl. rewrite append_empty_r. reflexivity.
  - inversion Hnames as [|? name ? names' Hchild Hrest]; subst.
    cbn [List.length seq MSVCTupleSyntheticProvider.names_loop].
    assert (Hat : GetChildAtIndex valobj (List.length done) = child).
    { unfold GetChildAtIndex. rewrite Hchildren.
      rewrite app_nth2 by lia. rewrite Nat.sub_diag. reflexivity. }
    rewrite Hat, Hchild.
    replace (S (List.length done)) with (List.length (done ++ [child])%list)
      by (rewrite length_app; simpl; lia).
    rewrite (IH names' (done ++ [child])%list);
      [| rewrite <- app_assoc; exact Hchildren | exact Hrest].
    rewrite content_cons, !append_assoc. reflexivity.
Qed.

(** X6.  When the type name of every field of a tuple resolves, the
    type name of the tuple is these names joined by the separator, in
    parentheses; with no field at all the open parenthesis is cut away
    and the closing one alone is left. *)
Theorem tuple_get_type_name (depth : nat) (valobj : SBValue)
  (names : list string)
  (Hnames :
     Forall2 (fun child name => type_name_from_val depth child = Some (Ok name))
       (val_children valobj) names) :
  (names <> [] ->
   MSVCTupleSyntheticProvider.get_type_name depth valobj
   = Some (Ok ("(" ++ Py.join ", " names ++ ")")))
  /\ (names = [] ->
      MSVCTupleSyntheticProvider.get_type_name depth valobj = Some (Ok ")")).
Proof.
  assert (Hloop :
    MSVCTupleSyntheticProvider.names_loop depth valobj
      (seq 0 (GetNumChildren valobj)) "("
    = Some (Ok ("(" ++ content names))).
  { apply (names_loop_all depth valobj (val_children valobj) names []);
      [reflexivity | exact Hnames]. }
  unfold MSVCTupleSyntheticProvider.get_type_name. rewrite Hloop.
  split.
  - intros Hsome. destruct names as [|name names]; [contradiction|].
    rewrite content_join. rewrite <- append_assoc.
    rewrite (drop_last_append _ ", "). rewrite append_assoc. reflexivity.
  - intros ->. reflexivity.
Qed.

Lemma tuple_get_type_name_witness :
  MSVCTupleSyntheticProvider.get_type_name 1
    (Examples.aggregate "t" SBType_invalid ""
       [ Examples.scalar "__0" Examples.u8 "1" 1;
         Examples.scalar "__1" Examples.f64 "2.5" 0 ])
  = Some (Ok "(u8, f64)")
  /\ MSVCTupleSyntheticProvider.get_type_name 1 Examples.empty_value
     = Some (Ok ")").
Proof.
  split.
  - apply (proj1 (tuple_get_type_name 1
                    (Examples.aggregate "t" SBType_invalid ""
                       [ Examples.scalar "__0" Examples.u8 "1" 1;
                         Examples.scalar "__1" Examples.f64 "2.5" 0 ])
                    ["u8"; "f64"]
                    ltac:(repeat constructor))).
    discriminate.
  - apply (proj2 (tuple_get_type_name 1 Examples.empty_value []
                    ltac:(constructor))).
    reflexivity.
Defined.

End ValueNames.

(** ** Child names that are not indices *)

Section ChildNames.

Lemma decimal_text_parses (s : string) :
  Py.all_chars is_decimal_char s = true ->
  exists d, NilEmpty.uint_of_string s = Some d.
Proof.
  induction s as [|c s IH]; intros Hall; [eexists; reflexivity|].
  cbn [Py.all_chars] in Hall. apply andb_true_iff in Hall as [Hc Hs].
  destruct (IH Hs) as [d Hd]. cbn [NilEmpty.uint_of_string]. rewrite Hd.
  destruct c as [[|] [|] [|] [|] [|] [|] [|] [|]];
    try discriminate Hc; eexists; reflexivity.
Qed.

Lemma other_text_fails (s : string) :
  Py.all_chars is_decimal_char s = false ->
  NilEmpty.uint_of_string s = None.
Proof.
  induction s as [|c s IH]; intros Hall; [discriminate Hall|].
  cbn [Py.all_chars] in Hall. cbn [NilEmpty.uint_of_string].
  destruct (is_decimal_char c) eqn:Hc.
  - rewrite (IH Hall). reflexivity.
  - destruct (NilEmpty.uint_of_string s); [|reflexivity].
    destruct c as [[|] [|] [|] [|] [|] [|] [|] [|]];
      try discriminate Hc; reflexivity.
Qed.

(** X7.  [get_child_index] answers -1 for a name whose text between
    the brackets is not made of digits, a number that is not negative
    when that text is made of decimal digits and is no longer than the
    4300 characters the interpreter accepts in a decimal numeral, and
    raises [ValueError] when the text passes [isdigit] with a digit
    that is not decimal, a superscript; it never answers below -1.  The
    five providers share it. *)
Theorem get_child_index_outcomes (name : string) :
  let text := index_text name in
  (Py.isdigit text = false ->
   MSVCStdVecSyntheticProvider.get_child_index name = Ok (-1))
  /\ (Py.isdigit text = true ->
      Py.all_chars is_decimal_char text = true ->
      (String.length text <= 4300)%nat ->
      exists n : N,
        MSVCStdVecSyntheticProvider.get_child_index name = Ok (Z.of_N n))
  /\ (Py.isdigit text = true ->
      Py.all_chars is_decimal_char text = false ->
      MSVCStdVecSyntheticProvider.get_child_index name = Raise ValueError)
  /\ (forall z,
        MSVCStdVecSyntheticProvider.get_child_index name = Ok z -> -1 <= z)
  /\ StdSliceSyntheticProvider.get_child_index name
     = MSVCStdVecSyntheticProvider.get_child_index name
  /\ MSVCstrSyntheticProvider.get_child_index name
     = MSVCStdVecSyntheticProvider.get_child_index name
  /\ StdStringSyntheticProvider.get_child_index name
     = MSVCStdVecSyntheticProvider.get_child_index name
  /\ ArraySyntheticProvider.get_child_index name
     = MSVCStdVecSyntheticProvider.get_child_index name.
Proof.
  cbv zeta. unfold MSVCStdVecSyntheticProvider.get_child_index.
  fold (index_text name).
  assert (Hdecimal :
    Py.isdigit (index_text name) = true ->
    Py.all_chars is_decimal_char (index_text name) = true ->
    exists n : N, Py.int (index_text name) = Ok (Z.of_N n)).
  { intros Hdigit Hall. destruct (decimal_text_parses _ Hall) as [d Hd].
    exists (N.of_uint d). unfold Py.int. rewrite Hd.
    destruct (index_text name); [discriminate Hdigit | reflexivity]. }
  assert (Hother :
    Py.isdigit (index_text name) = true ->
    Py.all_chars is_decimal_char (index_text name) = false ->
    Py.int (index_text name) = Raise ValueError).
  { intros Hdigit Hall. unfold Py.int. rewrite (other_text_fails _ Hall).
    destruct (index_text name); reflexivity. }
  split; [intros ->; reflexivity|].
  split; [intros Hdigit Hall _; rewrite Hdigit; exact (Hdecimal Hdigit Hall)|].
  split; [intros Hdigit Hall; rewrite Hdigit; exact (Hother Hdigit Hall)|].
  split; [|repeat split].
  intros z. destruct (Py.isdigit (index_text name)) eqn:Hdigit.
  - destruct (Py.all_chars is_decimal_char (index_text name)) eqn:Hall.
    + destruct (Hdecimal eq_refl eq_refl) as [n ->]. intros [= <-]. lia.
    + rewrite (Hother eq_refl eq_refl). discriminate.
  - intros [= <-]. lia.
Qed.

Lemma get_child_index_outcomes_witness :
  MSVCStdVecSyntheticProvider.get_child_index "length" = Ok (-1)
  /\ (exists n : N,
        MSVCStdVecSyntheticProvider.get_child_index "[[007]" = Ok (Z.of_N n))
  /\ MSVCStdVecSyntheticProvider.get_child_index
       ("[" ++ String (ascii_of_N 178) "]")
     = Raise ValueError.
Proof.
  split; [|split].
  - exact (proj1 (get_child_index_outcomes "length") eq_refl).
  - destruct (get_child_index_outcomes "[[007]") as (_ & Hdecimal & _).
    apply (Hdecimal eq_refl eq_refl). simpl. lia.
  - destruct (get_child_index_outcomes ("[" ++ String (ascii_of_N 178) "]"))
      as (_ & _ & Hother & _).
    exact (Hother eq_refl eq_refl).
Defined.

End ChildNames.

(** ** The length of a summary *)

Section SummaryLength.

Variable valobj : SBValue.
Variable output : string.
Variable m : Z.

Hypothesis Hm : 0 <= m.
Hypothesis Houtput : Py.len output <= 32.
Hypothesis Hpreviews : forall p, In p (previews valobj) -> Py.len p <= m.

Lemma len_append (s t : string) : Py.len (s ++ t) = Py.len s + Py.len t.
Proof. unfold Py.len. rewrite length_append. lia. Qed.

Lemma preview_at (k : nat) :
  (k < GetNumChildren valobj)%nat ->
  Py.len (value_text (GetChildAtIndex valobj k)) <= m.
Proof.
  intros Hk. apply Hpreviews. unfold previews, GetChildAtIndex.
  apply in_map. apply nth_In. exact Hk.
Qed.

(** Either no check fires, or there is a first one that does. *)
Lemma first_check (n : nat) :
  (forall k, (k < n)%nat ->
     Py.len (accumulated output (previews valobj) k) <= 32)
  \/ (exists k, (k < n)%nat
        /\ 32 < Py.len (accumulated output (previews valobj) k)
        /\ forall j, (j < k)%nat ->
             Py.len (accumulated output (previews valobj) j) <= 32).
Proof.
  induction n as [|n [Hnone | (k & Hk & Hlong & Hshort)]].
  - left. intros k Hk. lia.
  - destruct (Z_lt_dec 32 (Py.len (accumulated output (previews valobj) n)))
      as [Hlong | Hshort].
    + right. exists n. repeat split; [lia | exact Hlong | exact Hnone].
    + left. intros k Hk. destruct (Nat.eq_dec k n) as [-> | Hne];
        [lia | apply Hnone; lia].
  - right. exists k. repeat split; [lia | exact Hlong | exact Hshort].
Qed.

(** The text before a check that passed, with one more preview. *)
Lemma accumulated_next (k : nat) :
  (k < GetNumChildren valobj)%nat ->
  Py.len (accumulated output (previews valobj) k) <= 32 ->
  Py.len (accumulated output (previews valobj) (S k)) <= 34 + m.
Proof.
  intros Hk Hshort. rewrite accumulated_step by exact Hk.
  rewrite !len_append. pose proof (preview_at k Hk).
  change (Py.len ", ") with 2. lia.
Qed.

(** X8.  When the open token is within the threshold and no preview is
    longer than [m], which is not negative, the summary is never longer than [m], the
    threshold, the annotation around the count and the ellipsis together,
    however many children there are. *)
Theorem sequence_formatter_bounded :
  Py.len (sequence_formatter output valobj)
  <= 45 + m + Py.len (Py.str_of_int (Z.of_nat (GetNumChildren valobj))).
Proof.
  assert (Hcount : 0 <= Py.len (Py.str_of_int (Z.of_nat (GetNumChildren valobj))))
    by (unfold Py.len; lia).
  destruct (first_check (GetNumChildren valobj))
    as [Hnone | (k & Hk & Hlong & Hshort)].
  - rewrite (sequence_formatter_all_rendered valobj output Hnone).
    unfold Py.len at 1. rewrite drop_last_length.
    destruct (GetNumChildren valobj) as [|n] eqn:En.
    + rewrite accumulated_zero. unfold Py.len in Houtput. lia.
    + assert (Hlast :
        Py.len (accumulated output (previews valobj) (S n)) <= 34 + m).
      { apply accumulated_next; [lia | apply Hnone; lia]. }
      unfold Py.len in Hlast. lia.
  - rewrite (sequence_formatter_cut valobj output k Hk Hlong Hshort).
    destruct k as [|k].
    + rewrite accumulated_zero in Hlong. lia.
    + assert (Hacc :
        Py.len (accumulated output (previews valobj) (S k)) <= 34 + m).
      { apply accumulated_next; [lia | apply Hshort; lia]. }
      unfold accumulated in Hacc.
      rewrite len_append in Hacc. repeat rewrite len_append.
      change (Py.len "(len: ") with 6. change (Py.len ") ") with 2.
      change (Py.len "...") with 3. lia.
Qed.

End SummaryLength.

Lemma sequence_formatter_bounded_witness :
  Py.len (sequence_formatter "vec![" Examples.eight_short) <= 45 + 2 + 1.
Proof.
  apply (sequence_formatter_bounded Examples.eight_short "vec![" 2).
  - lia.
  - vm_compute. discriminate.
  - intros p Hp. simpl in Hp.
    repeat (destruct Hp as [<- | Hp]; [vm_compute; discriminate|]).
    contradiction.
Defined.

(** ** Where the children of a sequence lie *)

Section Layout.

Context `{Host}.

Lemma vec_child (self : MSVCStdVecSyntheticProvider.t) (i : Z) (c : SBValue) :
  MSVCStdVecSyntheticProvider.get_child_at_index self i = Some c ->
  0 <= i < Z.of_N (MSVCStdVecSyntheticProvider.length self)
  /\ val_address c
     = Some (Z.of_N (GetValueAsUnsigned (MSVCStdVecSyntheticProvider.data_ptr self))
             + i * Z.of_N (MSVCStdVecSyntheticProvider.element_size self))
  /\ val_type c = MSVCStdVecSyntheticProvider.element_type self.
Proof.
  unfold MSVCStdVecSyntheticProvider.get_child_at_index.
  destruct (negb _) eqn:E; [discriminate|].
  apply in_range_dec in E. intros [= <-]. auto.
Qed.

Lemma slice_child (self : StdSliceSyntheticProvider.t) (i : Z) (c : SBValue) :
  StdSliceSyntheticProvider.get_child_at_index self i = Some c ->
  0 <= i < Z.of_N (StdSliceSyntheticProvider.length self)
  /\ val_address c
     = Some (Z.of_N (GetValueAsUnsigned (StdSliceSyntheticProvider.data_ptr self))
             + i * Z.of_N (StdSliceSyntheticProvider.element_size self))
  /\ val_type c = StdSliceSyntheticProvider.element_type self.
Proof.
  unfold StdSliceSyntheticProvider.get_child_at_index.
  destruct (negb _) eqn:E; [discriminate|].
  apply in_range_dec in E. intros [= <-]. auto.
Qed.

Lemma str_child (self : MSVCstrSyntheticProvider.t) (i : Z) (c : SBValue) :
  MSVCstrSyntheticProvider.get_child_at_index self i = Some c ->
  0 <= i < Z.of_N (MSVCstrSyntheticProvider.length self)
  /\ val_address c
     = Some (Z.of_N (GetValueAsUnsigned (MSVCstrSyntheticProvider.data_ptr self))
             + i)
  /\ val_type c
     = GetPointeeType (GetType (MSVCstrSyntheticProvider.data_ptr self)).
Proof.
  unfold MSVCstrSyntheticProvider.get_child_at_index.
  destruct (negb _) eqn:E; [discriminate|].
  apply in_range_dec in E. intros [= <-]. auto.
Qed.

Lemma string_child (self : StdStringSyntheticProvider.t) (i : Z) (c : SBValue) :
  StdStringSyntheticProvider.get_child_at_index self i = Some c ->
  0 <= i < Z.of_N (StdStringSyntheticProvider.length self)
  /\ val_address c
     = Some (Z.of_N (GetValueAsUnsigned (StdStringSyntheticProvider.data_ptr self))
             + i)
  /\ val_type c = StdStringSyntheticProvider.element_type self.
Proof.
  unfold StdStringSyntheticProvider.get_child_at_index.
  destruct (negb _) eqn:E; [discriminate|].
  apply in_range_dec in E. intros [= <-]. auto.
Qed.

(** X9.  Two children of a vec or of a slice lie as many element sizes
    apart as their indices differ, so with a positive element size a
    child ends where the next one starts or before; two children of a
    [str] or of a [String] lie as many bytes apart as their indices
    differ. *)
Theorem children_are_contiguous (i j : Z) (ci cj : SBValue) :
  (forall self : MSVCStdVecSyntheticProvider.t,
      MSVCStdVecSyntheticProvider.get_child_at_index self i = Some ci ->
      MSVCStdVecSyntheticProvider.get_child_at_index self j = Some cj ->
      exists ai aj,
        val_address ci = Some ai /\ val_address cj = Some aj
        /\ aj - ai = (j - i) * Z.of_N (MSVCStdVecSyntheticProvider.element_size self)
        /\ (i < j -> ai + Z.of_N (MSVCStdVecSyntheticProvider.element_size self)
                     <= aj))
  /\ (forall self : StdSliceSyntheticProvider.t,
      StdSliceSyntheticProvider.get_child_at_index self i = Some ci ->
      StdSliceSyntheticProvider.get_child_at_index self j = Some cj ->
      exists ai aj,
        val_address ci = Some ai /\ val_address cj = Some aj
        /\ aj - ai = (j - i) * Z.of_N (StdSliceSyntheticProvider.element_size self)
        /\ (i < j -> ai + Z.of_N (StdSliceSyntheticProvider.element_size self)
                     <= aj))
  /\ (forall self : MSVCstrSyntheticProvider.t,
      MSVCstrSyntheticProvider.get_child_at_index self i = Some ci ->
      MSVCstrSyntheticProvider.get_child_at_index self j = Some cj ->
      exists ai aj,
        val_address ci = Some ai /\ val_address cj = Some aj /\ aj - ai = j - i)
  /\ (forall self : StdStringSyntheticProvider.t,
      StdStringSyntheticProvider.get_child_at_index self i = Some ci ->
      StdStringSyntheticProvider.get_child_at_index self j = Some cj ->
      exists ai aj,
        val_address ci = Some ai /\ val_address cj = Some aj /\ aj - ai = j - i).
Proof.
  split; [|split; [|split]].
  - intros self Hi Hj.
    destruct (vec_child _ _ _ Hi) as (_ & Hai & _).
    destruct (vec_child _ _ _ Hj) as (_ & Haj & _).
    eexists. eexists. split; [exact Hai|]. split; [exact Haj|].
    split; [lia | nia].
  - intros self Hi Hj.
    destruct (slice_child _ _ _ Hi) as (_ & Hai & _).
    destruct (slice_child _ _ _ Hj) as (_ & Haj & _).
    eexists. eexists. split; [exact Hai|]. split; [exact Haj|].
    split; [lia | nia].
  - intros self Hi Hj.
    destruct (str_child _ _ _ Hi) as (_ & Hai & _).
    destruct (str_child _ _ _ Hj) as (_ & Haj & _).
    eexists. eexists. split; [exact Hai|]. split; [exact Haj|]. lia.
  - intros self Hi Hj.
    destruct (string_child _ _ _ Hi) as (_ & Hai & _).
    destruct (string_child _ _ _ Hj) as (_ & Haj & _).
    eexists. eexists. split; [exact Hai|]. split; [exact Haj|]. lia.
Qed.


End Layout.

Lemma children_are_contiguous_witness :
  exists ai aj,
    val_address (@CreateValueFromAddress Examples.host "[0]" 4096 Examples.u8)
    = Some ai
    /\ val_address (@CreateValueFromAddress Examples.host "[2]" 4098 Examples.u8)
       = Some aj
    /\ aj - ai = (2 - 0) * 1 /\ (0 < 2 -> ai + 1 <= aj).
Proof.
  exact (proj1 (@children_are_contiguous Examples.host 0 2
                  (@CreateValueFromAddress Examples.host "[0]" 4096 Examples.u8)
                  (@CreateValueFromAddress Examples.host "[2]" 4098 Examples.u8))
           (@MSVCStdVecSyntheticProvider.init Examples.host Examples.vec_u8)
           eq_refl eq_refl).
Defined.


(** ** Slices and arrays *)

Section SlicesAndArrays.

Context `{Host}.

Lemma num_type_map_total (tag : N) :
  (tag < 34)%N -> exists entry, num_type_map_at tag = Ok entry.
Proof.
  intros Htag. unfold num_type_map_at.
  destruct (nth_error NUM_TYPE_MAP (N.to_nat tag)) as [entry|] eqn:E;
    [eexists; reflexivity|].
  apply nth_error_None in E. simpl in E. lia.
Qed.

Lemma num_type_map_outside (tag : N) :
  (34 <= tag)%N -> num_type_map_at tag = Raise IndexError.
Proof.
  intros Htag. unfold num_type_map_at.
  destruct (nth_error NUM_TYPE_MAP (N.to_nat tag)) as [entry|] eqn:E;
    [|reflexivity].
  assert (Hsome : nth_error NUM_TYPE_MAP (N.to_nat tag) <> None)
    by (rewrite E; discriminate).
  apply nth_error_Some in Hsome. simpl in Hsome. lia.
Qed.

(** The resolved name of a type is an error exactly beyond the table,
    and then an [IndexError]. *)
Lemma type_name_from_type_fails (type : SBType) :
  ((34 <= GetBasicType type)%N ->
   type_name_from_type type = Raise IndexError)
  /\ ((GetBasicType type < 34)%N ->
      exists name, type_name_from_type type = Ok name).
Proof.
  unfold type_name_from_type. split.
  - intros Htag. rewrite (num_type_map_outside _ Htag). reflexivity.
  - intros Htag. destruct (num_type_map_total _ Htag) as [[numeric signed] ->].
    cbn [bind]. destruct numeric; cbn [negb]; [|eexists; reflexivity].
    destruct (_ && _); eexists; reflexivity.
Qed.

(** X11.  A slice provider is built unless the basic-type tag of the
    pointee of [data_ptr] lies beyond the table, in which case building
    it raises [IndexError]; once built it holds the length read from
    [length], the element type found under the resolved name of the
    pointee, and its child at an index inside the length is the value
    built at the data pointer plus index times element size, with no
    child outside. *)
Theorem slice_provider (valobj : SBValue) (index : Z) :
  let data_ptr := GetChildMemberWithName valobj "data_ptr" in
  let pointee := GetPointeeType (GetType data_ptr) in
  ((34 <= GetBasicType pointee)%N ->
   StdSliceSyntheticProvider.init valobj = Raise IndexError)
  /\ ((GetBasicType pointee < 34)%N ->
      exists self name,
        StdSliceSyntheticProvider.init valobj = Ok self
        /\ type_name_from_type pointee = Ok name
        /\ StdSliceSyntheticProvider.length self
           = GetValueAsUnsigned (GetChildMemberWithName valobj "length")
        /\ StdSliceSyntheticProvider.element_type self = FindFirstType name
        /\ StdSliceSyntheticProvider.get_child_at_index self index
           = (if (0 <=? index)
                 && (index <? Z.of_N (StdSliceSyntheticProvider.length self))
              then Some (CreateValueFromAddress (display_name index)
                           (Z.of_N (GetValueAsUnsigned data_ptr)
                            + index * Z.of_N (GetByteSize (FindFirstType name)))
                           (FindFirstType name))
              else None)).
Proof.
  cbv zeta. unfold StdSliceSyntheticProvider.init, StdSliceSyntheticProvider.update.
  split.
  - intros Htag.
    rewrite (proj1 (type_name_from_type_fails _) Htag). reflexivity.
  - intros Htag.
    destruct (proj2 (type_name_from_type_fails _) Htag) as [name Hname].
    rewrite Hname. cbn [bind]. eexists. exists name.
    split; [reflexivity|]. split; [reflexivity|].
    split; [reflexivity|]. split; [reflexivity|].
    unfold StdSliceSyntheticProvider.get_child_at_index.
    cbn [StdSliceSyntheticProvider.length StdSliceSyntheticProvider.data_ptr
         StdSliceSyntheticProvider.element_size
         StdSliceSyntheticProvider.element_type].
    destruct ((0 <=? index) && _); reflexivity.
Qed.

(** X12.  An array provider is built unless the basic-type tag of the
    element type lies beyond the table; once built its length is the
    number of children the debugger shows, its child at an index inside
    the length is the debugger's child at that index, with no child
    outside, and its type name is the resolved element name and the
    length in brackets. *)
Theorem array_provider (valobj : SBValue) (index : Z) :
  let element := GetArrayElementType (GetType valobj) in
  ((34 <= GetBasicType element)%N ->
   ArraySyntheticProvider.init valobj = Raise IndexError)
  /\ ((GetBasicType element < 34)%N ->
      exists self name,
        ArraySyntheticProvider.init valobj = Ok self
        /\ type_name_from_type element = Ok name
        /\ ArraySyntheticProvider.length self
           = Z.of_nat (ArraySyntheticProvider.num_children self)
        /\ ArraySyntheticProvider.num_children self = GetNumChildren valobj
        /\ ArraySyntheticProvider.get_child_at_index self index
           = (if (0 <=? index) && (index <? Z.of_nat (GetNumChildren valobj))
              then Some (GetChildAtIndex valobj (Z.to_nat index))
              else None)
        /\ ArraySyntheticProvider.get_type_name self
           = "[" ++ name ++ "; "
             ++ Py.str_of_int (Z.of_nat (GetNumChildren valobj)) ++ "]").
Proof.
  cbv zeta. unfold ArraySyntheticProvider.init, ArraySyntheticProvider.update.
  split.
  - intros Htag.
    rewrite (proj1 (type_name_from_type_fails _) Htag). reflexivity.
  - intros Htag.
    destruct (proj2 (type_name_from_type_fails _) Htag) as [name Hname].
    rewrite Hname. cbn [bind]. eexists. exists name.
    split; [reflexivity|]. split; [reflexivity|].
    split; [reflexivity|]. split; [reflexivity|].
    split; [|reflexivity].
    unfold ArraySyntheticProvider.get_child_at_index.
    cbn [ArraySyntheticProvider.length ArraySyntheticProvider.children].
    fold (GetNumChildren valobj).
    destruct ((0 <=? index) && (index <? Z.of_nat (GetNumChildren valobj)))
      eqn:E; cbn [negb]; [|reflexivity].
    apply andb_true_iff in E as [E1 E2].
    apply Z.leb_le in E1. apply Z.ltb_lt in E2.
    unfold GetChildAtIndex. apply nth_error_nth'.
    unfold GetNumChildren in E2. lia.
Qed.

End SlicesAndArrays.

Lemma slice_provider_witness :
  exists self,
    @StdSliceSyntheticProvider.init Examples.host Examples.slice_value = Ok self
    /\ StdSliceSyntheticProvider.length self = 2%N
    /\ StdSliceSyntheticProvider.element_type self = Examples.u8
    /\ val_address
         (match @StdSliceSyntheticProvider.get_child_at_index Examples.host
                  self 1 with
          | Some child => child
          | None => SBValue_invalid
          end) = Some 8193.
Proof.
  destruct (@slice_provider Examples.host Examples.slice_value 1) as [_ Hbuilt].
  destruct (Hbuilt ltac:(vm_compute; reflexivity))
    as (self & name & Hinit & Hname & Hlength & Htype & Hchild).
  exists self. injection Hname as <-.
  cbv zeta in Hinit. injection Hinit as <-.
  repeat split.
Defined.

Lemma array_provider_witness :
  exists self,
    @ArraySyntheticProvider.init Examples.host Examples.four_bytes = Ok self
    /\ ArraySyntheticProvider.get_child_at_index self 4 = None
    /\ ArraySyntheticProvider.get_child_at_index self 3
       = Some (GetChildAtIndex Examples.four_bytes 3).
Proof.
  destruct (@array_provider Examples.host Examples.four_bytes 3) as [_ Hbuilt].
  destruct (Hbuilt ltac:(vm_compute; reflexivity))
    as (self & name & Hinit & _ & _ & _ & Hchild & _).
  exists self. split; [exact Hinit|].
  cbv zeta in Hinit. injection Hinit as <-.
  split; [reflexivity | exact Hchild].
Defined.

(** ** More on sum types *)

Section MoreSumTypes.

Variable valobj : SBValue.

Let self : MSVCEnumSyntheticProvider.t := MSVCEnumSyntheticProvider.init valobj.

Lemma init_niche_fields :
  MSVCEnumSyntheticProvider.is_niche self = true ->
  MSVCEnumSyntheticProvider.variant self = Some valobj
  /\ MSVCEnumSyntheticProvider.tag self = None
  /\ MSVCEnumSyntheticProvider.variant_type self = None
  /\ MSVCEnumSyntheticProvider.variant_name self = None.
Proof.
  unfold self. rewrite init_is_niche. intros Hniche.
  unfold MSVCEnumSyntheticProvider.init, MSVCEnumSyntheticProvider.update.
  cbn [MSVCEnumSyntheticProvider.is_niche MSVCEnumSyntheticProvider.valobj].
  unfold GetNonSyntheticValue in *. rewrite Hniche. repeat split.
Qed.

(** X13.  However a provider for a sum type is built, its variant is
    assigned, so counting its children and fetching one never raises;
    the tag, the kind of the payload and the name of the variant are
    assigned exactly when the layout is not a niche. *)
Theorem enum_provider_attributes :
  (exists variant, MSVCEnumSyntheticProvider.variant self = Some variant
     /\ MSVCEnumSyntheticProvider.num_children self
        = Ok (GetNumChildren variant)
     /\ forall index,
          MSVCEnumSyntheticProvider.get_child_at_index self index
          = Ok (GetChildAtIndex variant index))
  /\ (MSVCEnumSyntheticProvider.is_niche self = false <->
      MSVCEnumSyntheticProvider.tag self <> None)
  /\ (MSVCEnumSyntheticProvider.is_niche self = false <->
      MSVCEnumSyntheticProvider.variant_type self <> None)
  /\ (MSVCEnumSyntheticProvider.is_niche self = false <->
      MSVCEnumSyntheticProvider.variant_name self <> None).
Proof.
  destruct (MSVCEnumSyntheticProvider.is_niche self) eqn:Hniche.
  - destruct (init_niche_fields Hniche) as (Hvariant & Htag & Htype & Hname).
    unfold self in *. split.
    + exists valobj. split; [exact Hvariant|].
      unfold MSVCEnumSyntheticProvider.num_children,
        MSVCEnumSyntheticProvider.get_child_at_index.
      rewrite Hvariant. split; reflexivity.
    + rewrite Htag, Htype, Hname.
      repeat split; intros H; try discriminate H; contradiction.
  - destruct (init_tagged valobj Hniche) as (Htag & Hvariant & Htype & Hname).
    unfold self in *. split.
    + exists (enum_payload valobj). split; [exact Hvariant|].
      unfold MSVCEnumSyntheticProvider.num_children,
        MSVCEnumSyntheticProvider.get_child_at_index.
      rewrite Hvariant. split; reflexivity.
    + rewrite Htag, Htype, Hname.
      repeat split; intros H; try reflexivity; discriminate.
Qed.

(** X14.  The search for a niche marker stops before the last child:
    a niche layout has a child that is not the last one, whose type name
    ends with [Variant] and its index and whose type has no exact
    discriminant; so a value with at most one child is never taken for a
    niche. *)
Theorem enum_niche_detection :
  (MSVCEnumSyntheticProvider.is_niche self = true <->
   exists i, (S i < GetNumChildren valobj)%nat
     /\ Py.endswith (GetName (GetType (GetChildAtIndex valobj i)))
          ("Variant" ++ Py.str_of_int (Z.of_nat i)) = true
     /\ GetStaticFieldWithName (GetType (GetChildAtIndex valobj i))
          "DISCR_EXACT" = None)
  /\ ((GetNumChildren valobj <= 1)%nat ->
      MSVCEnumSyntheticProvider.is_niche self = false).
Proof.
  unfold self. rewrite init_is_niche. split.
  - rewrite existsb_exists. split.
    + intros (i & Hin & Hat). apply in_seq in Hin.
      unfold MSVCEnumSyntheticProvider.niche_at in Hat.
      apply andb_true_iff in Hat as [Hname Hexact].
      exists i. split; [lia|]. split; [exact Hname|].
      destruct (GetStaticFieldWithName _ _); [discriminate Hexact | reflexivity].
    + intros (i & Hi & Hname & Hexact). exists i. split.
      * apply in_seq. lia.
      * unfold MSVCEnumSyntheticProvider.niche_at.
        rewrite Hname, Hexact. reflexivity.
  - intros Hfew.
    replace (GetNumChildren valobj - 1)%nat with 0%nat by lia. reflexivity.
Qed.

(** X15.  When the member a tag selects has no static field [NAME], or
    the tag is beyond the names that field lists, the variant name of a
    tagged value is empty and the summary goes on with it: a
    discriminant-only payload is summarised as the empty text. *)
Theorem enum_unnamed_variant
  (Htagged : MSVCEnumSyntheticProvider.is_niche self = false)
  (Hmissing :
     GetStaticFieldWithName (GetType (enum_variant_member valobj)) "NAME" = None
     \/ exists members,
          GetStaticFieldWithName (GetType (enum_variant_member valobj)) "NAME"
          = Some members
          /\ (N.of_nat (List.length members) <= enum_tag valobj)%N) :
  MSVCEnumSyntheticProvider.variant_name self = Some ""
  /\ (val_children (enum_payload valobj) = [] ->
      MSVCEnumSummaryProvider valobj = Ok "").
Proof.
  assert (Hname : MSVCEnumSyntheticProvider.resolve_variant_name
                    (enum_variant_member valobj) (enum_tag valobj) = "").
  { unfold MSVCEnumSyntheticProvider.resolve_variant_name.
    destruct Hmissing as [-> | (members & -> & Hfar)]; [reflexivity|].
    destruct (nth_error members (N.to_nat (enum_tag valobj))) eqn:E;
      [|reflexivity].
    assert (Hsome : nth_error members (N.to_nat (enum_tag valobj)) <> None)
      by (rewrite E; discriminate).
    apply nth_error_Some in Hsome. lia. }
  destruct (init_tagged valobj Htagged) as (_ & _ & _ & Hvariant_name).
  unfold self in *.
  split; [rewrite Hvariant_name, Hname; reflexivity|].
  intros Hnone. rewrite (summary_tagged valobj Htagged).
  unfold classify_payload. rewrite Hnone, Hname. reflexivity.
Qed.

(** X16.  The summary of a named payload raises [IndexError] when the
    description of the payload has no equals sign followed by a
    space. *)
Theorem enum_struct_without_equals
  (Htagged : MSVCEnumSyntheticProvider.is_niche self = false)
  (Hnamed : classify_payload (enum_payload valobj) = STRUCT)
  (Hplain : Py.find_sep "= " (val_description (enum_payload valobj)) = None) :
  MSVCEnumSummaryProvider valobj = Raise IndexError.
Proof.
  rewrite (summary_tagged valobj Htagged), Hnamed.
  unfold struct_vars, Py.split1. rewrite Hplain. reflexivity.
Qed.

End MoreSumTypes.

Lemma enum_provider_attributes_witness :
  MSVCEnumSyntheticProvider.num_children
    (MSVCEnumSyntheticProvider.init Examples.niche_enum) = Ok 3%nat
  /\ MSVCEnumSyntheticProvider.tag
       (MSVCEnumSyntheticProvider.init
          (Examples.tagged_enum Examples.payload_none)) <> None.
Proof.
  split.
  - destruct (enum_provider_attributes Examples.niche_enum)
      as ((variant & Hvariant & Hcount & _) & _).
    injection Hvariant as <-. exact Hcount.
  - destruct (enum_provider_attributes
                (Examples.tagged_enum Examples.payload_none))
      as (_ & Htag & _).
    exact (proj1 Htag eq_refl).
Defined.

Lemma enum_niche_detection_witness :
  MSVCEnumSyntheticProvider.is_niche
    (MSVCEnumSyntheticProvider.init Examples.niche_enum) = true
  /\ MSVCEnumSyntheticProvider.is_niche
       (MSVCEnumSyntheticProvider.init Examples.empty_value) = false.
Proof.
  split.
  - apply (proj1 (enum_niche_detection Examples.niche_enum)).
    exists 0%nat. split; [unfold GetNumChildren; simpl; lia|].
    split; reflexivity.
  - apply (proj2 (enum_niche_detection Examples.empty_value)).
    unfold GetNumChildren. simpl. lia.
Defined.

Lemma enum_unnamed_variant_witness :
  MSVCEnumSummaryProvider MoreExamples.unnamed_enum = Ok "".
Proof.
  refine (proj2 (enum_unnamed_variant MoreExamples.unnamed_enum eq_refl _)
            eq_refl).
  left. reflexivity.
Defined.

Lemma enum_struct_without_equals_witness :
  MSVCEnumSummaryProvider
    (Examples.tagged_enum MoreExamples.payload_undescribed)
  = Raise IndexError.
Proof.
  exact (enum_struct_without_equals
           (Examples.tagged_enum MoreExamples.payload_undescribed)
           eq_refl eq_refl eq_refl).
Defined.

(** ** References *)

(** X17.  When the outermost layer of a pointer chain has no name left
    once its trailing [const] is stripped, asking for its last character
    raises [IndexError] and no type name is produced. *)
Theorem pointer_chain_nameless_layer `{Host} (valobj : SBValue)
  (Hlayer : chain_depth (GetType valobj) <> 0%nat)
  (Hname : layer_name (GetType valobj) = "") :
  RefSyntheticProvider.get_type_name valobj = Raise IndexError.
Proof.
  unfold RefSyntheticProvider.get_type_name.
  destruct (GetType valobj) as [|i|i p|i p|i e] eqn:E;
    try (simpl in Hlayer; contradiction);
    cbn [RefSyntheticProvider.layers];
    unfold layer_name in Hname; rewrite Hname; reflexivity.
Qed.

Lemma pointer_chain_nameless_layer_witness :
  @RefSyntheticProvider.get_type_name Examples.host
    (Examples.scalar "p" MoreExamples.nameless_pointer "0x10" 16)
  = Raise IndexError.
Proof.
  apply (@pointer_chain_nameless_layer Examples.host).
  - simpl. discriminate.
  - reflexivity.
Defined.

Section Dereferences.

Context `{Dereferencing}.

(** The debugger types what it dereferences by the pointee. *)
Hypothesis Dereference_type :
  forall v, GetType (Dereference v) = GetPointeeType (GetType v).

Lemma dereferenced_type (k : nat) : forall v,
  (k <= chain_depth (GetType v))%nat ->
  chain_target (GetType (dereferenced k v)) = chain_target (GetType v)
  /\ chain_depth (GetType (dereferenced k v))
     = (chain_depth (GetType v) - k)%nat.
Proof.
  induction k as [|k IH]; intros v Hk; [simpl; split; [reflexivity | lia]|].
  cbn [dereferenced].
  assert (Hstep : chain_target (GetType (Dereference v))
                  = chain_target (GetType v)
                  /\ S (chain_depth (GetType (Dereference v)))
                     = chain_depth (GetType v)).
  { rewrite Dereference_type.
    destruct (GetType v); simpl in Hk |- *; try lia; split; reflexivity. }
  destruct Hstep as [Htarget Hdepth].
  destruct (IH (Dereference v)) as [IHt IHd]; [lia|].
  rewrite IHt, IHd, Htarget. split; [reflexivity | lia].
Qed.

(** X18.  With more turns than the type of the value has layers, the
    reference summary ends: it dereferences once per layer and returns
    the text of the value it reaches, whose type is the target of the
    chain; with no more turns than layers it has not ended. *)
Theorem ref_summary_reaches_target (fuel : nat) : forall valobj : SBValue,
  let depth := chain_depth (GetType valobj) in
  ((depth < fuel)%nat ->
   RefSummaryProvider fuel valobj
   = Some (val_value (dereferenced depth valobj))
   /\ GetType (dereferenced depth valobj) = chain_target (GetType valobj))
  /\ ((fuel <= depth)%nat -> RefSummaryProvider fuel valobj = None).
Proof.
  cbv zeta. induction fuel as [|fuel IH]; intros valobj.
  - split; [lia | reflexivity].
  - cbn [RefSummaryProvider].
    destruct (IH (Dereference valobj)) as [IHdone IHnot].
    rewrite Dereference_type in IHdone, IHnot.
    destruct (GetType valobj) as [|i|i p|i p|i e] eqn:E;
      cbn [is_pointer is_reference orb chain_depth chain_target
           GetPointeeType dereferenced] in *;
      try (split; [intros _; split; [reflexivity | exact E] | lia]).
    + split; [intros Hfuel; apply IHdone; lia | intros Hfuel; apply IHnot; lia].
    + split; [intros Hfuel; apply IHdone; lia | intros Hfuel; apply IHnot; lia].
Qed.

End Dereferences.

Lemma ref_summary_reaches_target_witness :
  @RefSummaryProvider MoreExamples.dereferencing 3
    (Examples.scalar "r" Examples.u8_ref_ref "7" 7)
  = Some (Some "7").
Proof.
  exact (proj1 (proj1 (@ref_summary_reaches_target MoreExamples.dereferencing
                         (fun v => eq_refl) 3
                         (Examples.scalar "r" Examples.u8_ref_ref "7" 7))
                  ltac:(simpl; lia))).
Defined.

(** ** The pointer inside a unique pointer *)

Lemma first_member_by_name (v first : SBValue) (rest : list SBValue)
  (name : string) :
  val_children v = first :: rest ->
  val_name first = name ->
  GetChildMemberWithName v name = first /\ GetChildAtIndex v 0 = first.
Proof.
  intros Hchildren Hname.
  unfold GetChildMemberWithName, GetChildAtIndex. rewrite Hchildren.
  cbn [nth find]. rewrite Hname, String.eqb_refl. split; reflexivity.
Qed.

(** X19.  For a vec laid out as now, where the [pointer] member of [ptr]
    is a wrapper whose first member is again named [pointer],
    [unwrap_unique_or_non_null] applied to [ptr] returns the data
    pointer the vec provider reads; where that member is itself of a
    pointer type it is returned as it is. *)
Theorem unwrap_matches_vec `{Host} (valobj : SBValue) :
  let unique := descend valobj ["buf"; "inner"; "ptr"] in
  let nonnull := GetChildMemberWithName unique "pointer" in
  (is_pointer (GetType nonnull) = true ->
   unwrap_unique_or_non_null unique = nonnull)
  /\ (forall first rest,
        is_pointer (GetType nonnull) = false ->
        val_children nonnull = first :: rest ->
        val_name first = "pointer" ->
        unwrap_unique_or_non_null unique
        = MSVCStdVecSyntheticProvider.data_ptr
            (MSVCStdVecSyntheticProvider.init valobj)).
Proof.
  cbv zeta. unfold unwrap_unique_or_non_null. split.
  - intros ->. reflexivity.
  - intros first rest Hwrapper Hchildren Hfirst. rewrite Hwrapper.
    assert (Hdata :
      MSVCStdVecSyntheticProvider.data_ptr
        (MSVCStdVecSyntheticProvider.init valobj)
      = descend valobj vec_pointer_path).
    { rewrite descend_vec_pointer.
      unfold MSVCStdVecSyntheticProvider.init, MSVCStdVecSyntheticProvider.update.
      destruct (Py.partition (GetTypeName valobj) "<") as [[? ?] end_].
      destruct (Py.partition end_ ",") as [[element_name ?] ?].
      reflexivity. }
    rewrite Hdata.
    change (descend valobj vec_pointer_path)
      with (GetChildMemberWithName
              (GetChildMemberWithName
                 (descend valobj ["buf"; "inner"; "ptr"]) "pointer")
              "pointer").
    destruct (first_member_by_name _ _ _ _ Hchildren Hfirst) as [-> ->].
    reflexivity.
Qed.

Lemma unwrap_matches_vec_witness :
  unwrap_unique_or_non_null
    (descend Examples.vec_u8 ["buf"; "inner"; "ptr"])
  = MSVCStdVecSyntheticProvider.data_ptr
      (@MSVCStdVecSyntheticProvider.init Examples.host Examples.vec_u8).
Proof.
  exact (proj2 (@unwrap_matches_vec Examples.host Examples.vec_u8)
           _ _ eq_refl eq_refl eq_refl).
Defined.

(** ** Descriptions of named payloads *)

Section Descriptions.












End Descriptions.




(** ** Pointer chains, layer by layer *)

Section ChainLayers.




















End ChainLayers.





(** ** Decoding UTF-8 *)

Section Decoding.

#[local] Open Scope N_scope.

Lemma to_N_byte_of (n : N) : n < 256 -> Byte.to_N (byte_of n) = n.
Proof.
  intros Hn. unfold byte_of. destruct (Byte.of_N n) as [b|] eqn:E.
  - apply Byte.to_of_N. exact E.
  - pose proof (Byte.to_of_N_option_map n) as Hmap. rewrite E in Hmap.
    simpl in Hmap. destruct (N.leb_spec n 255); [discriminate Hmap | lia].
Qed.

Lemma lor_shiftl (hi lo k : N) :
  lo < 2 ^ k -> N.lor (N.shiftl hi k) lo = hi * 2 ^ k + lo.
Proof.
  intros Hlo.
  assert (Hdisjoint : N.land (N.shiftl hi k) lo = 0).
  { apply N.bits_inj_0. intros n. rewrite N.land_spec.
    destruct (N.lt_ge_cases n k) as [Hn | Hn].
    - rewrite N.shiftl_spec_low by exact Hn. reflexivity.
    - replace (N.testbit lo n) with false; [apply andb_false_r|].
      symmetry. destruct (N.eq_dec lo 0) as [-> | Hpos];
        [apply N.bits_0|].
      apply N.bits_above_log2.
      apply N.lt_le_trans with k; [|exact Hn].
      apply N.log2_lt_pow2; [lia | exact Hlo]. }
  rewrite <- N.lxor_lor by exact Hdisjoint.
  rewrite <- N.add_nocarry_lxor by exact Hdisjoint.
  rewrite N.shiftl_mul_pow2. reflexivity.
Qed.

Lemma land_low (x k : N) : N.land x (N.ones k) = x mod 2 ^ k.
Proof. apply N.land_ones. Qed.

Lemma low6_value (b : N) : Utf8.low6 b = b mod 64.
Proof. unfold Utf8.low6. apply (land_low b 6). Qed.

Lemma cp2_value (c c2 : N) : Utf8.cp2 c c2 = (c mod 32) * 64 + c2 mod 64.
Proof.
  unfold Utf8.cp2. rewrite low6_value.
  change 31 with (N.ones 5). rewrite land_low.
  rewrite lor_shiftl; [reflexivity|].
  apply (N.mod_upper_bound c2 64). discriminate.
Qed.

Lemma cp3_value (c c2 c3 : N) :
  Utf8.cp3 c c2 c3 = (c mod 16) * 4096 + ((c2 mod 64) * 64 + c3 mod 64).
Proof.
  unfold Utf8.cp3. rewrite !low6_value.
  change 15 with (N.ones 4). rewrite land_low.
  pose proof (N.mod_upper_bound c2 64) as H2.
  pose proof (N.mod_upper_bound c3 64) as H3.
  rewrite (lor_shiftl (c2 mod 64) (c3 mod 64) 6) by (apply H3; discriminate).
  rewrite lor_shiftl; [reflexivity|].
  change (2 ^ 12) with 4096. change (2 ^ 6) with 64.
  assert (c2 mod 64 < 64) by (apply H2; discriminate).
  assert (c3 mod 64 < 64) by (apply H3; discriminate). lia.
Qed.

Lemma cp4_value (c c2 c3 c4 : N) :
  Utf8.cp4 c c2 c3 c4
  = (c mod 8) * 262144
    + ((c2 mod 64) * 4096 + ((c3 mod 64) * 64 + c4 mod 64)).
Proof.
  unfold Utf8.cp4. rewrite !low6_value.
  change 7 with (N.ones 3). rewrite land_low.
  assert (H2 : c2 mod 64 < 64) by (apply N.mod_upper_bound; discriminate).
  assert (H3 : c3 mod 64 < 64) by (apply N.mod_upper_bound; discriminate).
  assert (H4 : c4 mod 64 < 64) by (apply N.mod_upper_bound; discriminate).
  rewrite (lor_shiftl (c3 mod 64) (c4 mod 64) 6) by exact H4.
  rewrite (lor_shiftl (c2 mod 64) _ 12)
    by (change (2 ^ 12) with 4096; change (2 ^ 6) with 64; lia).
  rewrite lor_shiftl; [reflexivity|].
  change (2 ^ 18) with 262144. change (2 ^ 12) with 4096.
  change (2 ^ 6) with 64. lia.
Qed.

Ltac decide_tests :=
  repeat match goal with
  | |- context [(?a <? ?b)%N] => destruct (N.ltb_spec a b); try lia
  | |- context [(?a <=? ?b)%N] => destruct (N.leb_spec a b); try lia
  | |- context [(?a =? ?b)%N] => destruct (N.eqb_spec a b); try lia
  end.

Lemma second_allowed_two (c c2 : N) :
  194 <= c < 224 -> second_allowed c c2 = Utf8.is_continuation c2.
Proof.
  intros Hc. unfold second_allowed, Utf8.is_continuation.
  decide_tests; reflexivity.
Qed.

Lemma second_allowed_three (c c2 : N) :
  224 <= c < 240 -> second_allowed c c2 = negb (Utf8.bad_second3 c c2).
Proof.
  intros Hc. unfold second_allowed, Utf8.bad_second3, Utf8.is_continuation.
  decide_tests; reflexivity.
Qed.

Lemma second_allowed_four (c c2 : N) :
  240 <= c < 245 -> second_allowed c c2 = negb (Utf8.bad_second4 c c2).
Proof.
  intros Hc. unfold second_allowed, Utf8.bad_second4, Utf8.is_continuation.
  decide_tests; reflexivity.
Qed.

Lemma is_continuation_true (b : N) :
  128 <= b <= 191 -> Utf8.is_continuation b = true.
Proof. intros Hb. unfold Utf8.is_continuation. decide_tests; reflexivity. Qed.

Lemma is_continuation_false (b : N) :
  b < 128 \/ 191 < b -> Utf8.is_continuation b = false.
Proof. intros Hb. unfold Utf8.is_continuation. decide_tests; reflexivity. Qed.

(** One turn of the decoder: the lead byte picks the branch. *)
Ltac decode_turn b0 tail :=
  let r0 := fresh "r0" in
  let Er := fresh "Er" in
  remember tail as r0 eqn:Er; cbn [Utf8.decode_replace];
  repeat match goal with
  | |- context [(Byte.to_N b0 <? ?n)%N] =>
      destruct (N.ltb_spec (Byte.to_N b0) n); try lia
  end;
  subst r0; cbv beta iota zeta.

Lemma decode_two (b0 b1 : byte) (rest : list byte) :
  194 <= Byte.to_N b0 < 224 ->
  second_allowed (Byte.to_N b0) (Byte.to_N b1) = true ->
  Utf8.decode_replace (b0 :: b1 :: rest)
  = Utf8.cp2 (Byte.to_N b0) (Byte.to_N b1) :: Utf8.decode_replace rest.
Proof.
  intros Hc H2. rewrite second_allowed_two in H2 by exact Hc.
  decode_turn b0 (b1 :: rest). rewrite H2. reflexivity.
Qed.

Lemma decode_three (b0 b1 b2 : byte) (rest : list byte) :
  224 <= Byte.to_N b0 < 240 ->
  second_allowed (Byte.to_N b0) (Byte.to_N b1) = true ->
  128 <= Byte.to_N b2 <= 191 ->
  Utf8.decode_replace (b0 :: b1 :: b2 :: rest)
  = Utf8.cp3 (Byte.to_N b0) (Byte.to_N b1) (Byte.to_N b2)
    :: Utf8.decode_replace rest.
Proof.
  intros Hc H2 H3. rewrite second_allowed_three in H2 by exact Hc.
  apply negb_true_iff in H2. apply is_continuation_true in H3.
  decode_turn b0 (b1 :: b2 :: rest). rewrite H2, H3. reflexivity.
Qed.

Lemma decode_four (b0 b1 b2 b3 : byte) (rest : list byte) :
  240 <= Byte.to_N b0 < 245 ->
  second_allowed (Byte.to_N b0) (Byte.to_N b1) = true ->
  128 <= Byte.to_N b2 <= 191 ->
  128 <= Byte.to_N b3 <= 191 ->
  Utf8.decode_replace (b0 :: b1 :: b2 :: b3 :: rest)
  = Utf8.cp4 (Byte.to_N b0) (Byte.to_N b1) (Byte.to_N b2) (Byte.to_N b3)
    :: Utf8.decode_replace rest.
Proof.
  intros Hc H2 H3 H4. rewrite second_allowed_four in H2 by exact Hc.
  apply negb_true_iff in H2. apply is_continuation_true in H3, H4.
  decode_turn b0 (b1 :: b2 :: b3 :: rest). rewrite H2, H3, H4. reflexivity.
Qed.

(** A second byte that may not follow the lead: the lead is replaced
    and decoding resumes at that byte. *)
Lemma decode_bad_second (b0 b1 : byte) (rest : list byte) :
  194 <= Byte.to_N b0 < 245 ->
  second_allowed (Byte.to_N b0) (Byte.to_N b1) = false ->
  Utf8.decode_replace (b0 :: b1 :: rest)
  = Utf8.REPLACEMENT :: Utf8.decode_replace (b1 :: rest).
Proof.
  intros Hc H2.
  destruct (N.lt_ge_cases (Byte.to_N b0) 224) as [Hlt | Hge];
    [|destruct (N.lt_ge_cases (Byte.to_N b0) 240) as [Hlt | Hge']].
  - rewrite second_allowed_two in H2 by lia.
    decode_turn b0 (b1 :: rest). rewrite H2. reflexivity.
  - rewrite second_allowed_three in H2 by lia. apply negb_false_iff in H2.
    decode_turn b0 (b1 :: rest). rewrite H2. reflexivity.
  - rewrite second_allowed_four in H2 by lia. apply negb_false_iff in H2.
    decode_turn b0 (b1 :: rest). rewrite H2. reflexivity.
Qed.

Lemma decode_bad_third (b0 b1 b2 : byte) (rest : list byte) :
  224 <= Byte.to_N b0 < 245 ->
  second_allowed (Byte.to_N b0) (Byte.to_N b1) = true ->
  Byte.to_N b2 < 128 \/ 191 < Byte.to_N b2 ->
  Utf8.decode_replace (b0 :: b1 :: b2 :: rest)
  = Utf8.REPLACEMENT :: Utf8.decode_replace (b2 :: rest).
Proof.
  intros Hc H2 H3. apply is_continuation_false in H3.
  destruct (N.lt_ge_cases (Byte.to_N b0) 240) as [Hlt | Hge].
  - rewrite second_allowed_three in H2 by lia. apply negb_true_iff in H2.
    decode_turn b0 (b1 :: b2 :: rest). rewrite H2, H3. reflexivity.
  - rewrite second_allowed_four in H2 by lia. apply negb_true_iff in H2.
    decode_turn b0 (b1 :: b2 :: rest). rewrite H2, H3. reflexivity.
Qed.

Lemma decode_bad_fourth (b0 b1 b2 b3 : byte) (rest : list byte) :
  240 <= Byte.to_N b0 < 245 ->
  second_allowed (Byte.to_N b0) (Byte.to_N b1) = true ->
  128 <= Byte.to_N b2 <= 191 ->
  Byte.to_N b3 < 128 \/ 191 < Byte.to_N b3 ->
  Utf8.decode_replace (b0 :: b1 :: b2 :: b3 :: rest)
  = Utf8.REPLACEMENT :: Utf8.decode_replace (b3 :: rest).
Proof.
  intros Hc H2 H3 H4. rewrite second_allowed_four in H2 by exact Hc.
  apply negb_true_iff in H2. apply is_continuation_true in H3.
  apply is_continuation_false in H4.
  decode_turn b0 (b1 :: b2 :: b3 :: rest). rewrite H2, H3, H4. reflexivity.
Qed.

(** Input that ends inside a sequence: one replacement for what is
    there. *)
Lemma decode_cut_short (b0 b1 b2 : byte) :
  (194 <= Byte.to_N b0 < 245 ->
   Utf8.decode_replace [b0] = [Utf8.REPLACEMENT])
  /\ (224 <= Byte.to_N b0 < 245 ->
      second_allowed (Byte.to_N b0) (Byte.to_N b1) = true ->
      Utf8.decode_replace [b0; b1] = [Utf8.REPLACEMENT])
  /\ (240 <= Byte.to_N b0 < 245 ->
      second_allowed (Byte.to_N b0) (Byte.to_N b1) = true ->
      128 <= Byte.to_N b2 <= 191 ->
      Utf8.decode_replace [b0; b1; b2] = [Utf8.REPLACEMENT]).
Proof.
  split; [|split].
  - intros Hc. decode_turn b0 (@nil byte); reflexivity.
  - intros Hc H2.
    destruct (N.lt_ge_cases (Byte.to_N b0) 240) as [Hlt | Hge].
    + rewrite second_allowed_three in H2 by lia. apply negb_true_iff in H2.
      decode_turn b0 [b1]. rewrite H2. reflexivity.
    + rewrite second_allowed_four in H2 by lia. apply negb_true_iff in H2.
      decode_turn b0 [b1]. rewrite H2. reflexivity.
  - intros Hc H2 H3. rewrite second_allowed_four in H2 by exact Hc.
    apply negb_true_iff in H2. apply is_continuation_true in H3.
    decode_turn b0 [b1; b2]. rewrite H2, H3. reflexivity.
Qed.

Lemma decode_one (b0 : byte) (rest : list byte) :
  Byte.to_N b0 < 128 ->
  Utf8.decode_replace (b0 :: rest) = Byte.to_N b0 :: Utf8.decode_replace rest.
Proof. intros Hc. decode_turn b0 rest. reflexivity. Qed.

Ltac euclid :=
  zify; Z.to_euclidean_division_equations; lia.

(** What is encoded is decoded, whatever follows. *)
Lemma decode_encode (cp : N) (rest : list byte) :
  is_scalar cp = true ->
  Utf8.decode_replace (utf8_encode cp ++ rest)
  = cp :: Utf8.decode_replace rest.
Proof.
  unfold is_scalar, utf8_encode. intros Hs.
  assert (Hcp : cp < 55296 \/ 57343 < cp < 1114112).
  { revert Hs. decide_tests; simpl; intros Hs;
      first [discriminate Hs | lia]. }
  clear Hs.
  destruct (N.ltb_spec cp 128) as [H1 | H1];
    [|destruct (N.ltb_spec cp 2048) as [H2 | H2];
      [|destruct (N.ltb_spec cp 65536) as [H3 | H3]]];
    cbn [List.app].
  - rewrite decode_one; rewrite to_N_byte_of by lia; [reflexivity | lia].
  - assert (Ha : 192 + cp / 64 < 256) by euclid.
    assert (Hb : 128 + cp mod 64 < 256) by euclid.
    rewrite decode_two; rewrite ?to_N_byte_of by assumption.
    + rewrite cp2_value. f_equal. euclid.
    + euclid.
    + unfold second_allowed. decide_tests; try reflexivity; euclid.
  - assert (Ha : 224 + cp / 4096 < 256) by euclid.
    assert (Hb : 128 + (cp / 64) mod 64 < 256) by euclid.
    assert (Hc : 128 + cp mod 64 < 256) by euclid.
    rewrite decode_three; rewrite ?to_N_byte_of by assumption.
    + rewrite cp3_value. f_equal. euclid.
    + euclid.
    + unfold second_allowed. decide_tests; try reflexivity; euclid.
    + euclid.
  - assert (Ha : 240 + cp / 262144 < 256) by euclid.
    assert (Hb : 128 + (cp / 4096) mod 64 < 256) by euclid.
    assert (Hc : 128 + (cp / 64) mod 64 < 256) by euclid.
    assert (Hd : 128 + cp mod 64 < 256) by euclid.
    rewrite decode_four; rewrite ?to_N_byte_of by assumption.
    + rewrite cp4_value. f_equal. euclid.
    + euclid.
    + unfold second_allowed. decide_tests; try reflexivity; euclid.
    + euclid.
    + euclid.
Qed.

End Decoding.

(** C7.  Each string summary is empty for length zero; otherwise it
    reads the whole range once and returns the bytes decoded with
    replacement when the read succeeds, and raises with the text of the
    error when it fails.  Decoding never fails.  The UTF-8 encoding of a
    code point decodes to that code point, whatever follows it, and
    bytes below 128 decode to themselves.  What is ill-formed becomes
    the replacement character: a byte that can start no sequence; the
    lead byte of a sequence whose second byte may not follow it; the
    first two bytes of a sequence whose third byte is no continuation
    byte; the first three bytes of a sequence whose fourth byte is no
    continuation byte; in each case decoding resumes at the byte that
    broke the sequence.  A sequence cut short by the end of the input
    becomes one replacement character. *)
Theorem string_summary_cases `{Host} (valobj : SBValue) :
  let str_ptr := GetValueAsUnsigned (GetChildMemberWithName valobj "data_ptr") in
  let str_len := GetValueAsUnsigned (GetChildMemberWithName valobj "length") in
  let inner_vec := GetChildMemberWithName valobj "vec" in
  let string_ptr := GetValueAsUnsigned (descend inner_vec vec_pointer_path) in
  let string_len := GetValueAsUnsigned (GetChildMemberWithName inner_vec "len") in
  (str_len = 0%N -> MSVCstrSummaryProvider valobj = Ok [])
  /\ (forall data,
        str_len <> 0%N -> ReadMemory str_ptr str_len = inl data ->
        MSVCstrSummaryProvider valobj = Ok (Utf8.decode_replace data))
  /\ (forall error,
        str_len <> 0%N -> ReadMemory str_ptr str_len = inr error ->
        MSVCstrSummaryProvider valobj
        = Raise (Exception "ReadMemory error: %s" error))
  /\ (string_len = 0%N -> StdStringSummaryProvider valobj = Ok [])
  /\ (forall data,
        string_len <> 0%N -> ReadMemory string_ptr string_len = inl data ->
        StdStringSummaryProvider valobj = Ok (Utf8.decode_replace data))
  /\ (forall error,
        string_len <> 0%N -> ReadMemory string_ptr string_len = inr error ->
        StdStringSummaryProvider valobj
        = Raise (Exception "ReadMemory error: %s" error))
  /\ (forall cp rest,
        is_scalar cp = true ->
        Utf8.decode_replace (utf8_encode cp ++ rest)
        = cp :: Utf8.decode_replace rest)
  /\ (forall bs,
        (forall b, In b bs -> (Byte.to_N b < 128)%N) ->
        Utf8.decode_replace bs = map Byte.to_N bs)
  /\ (forall b rest,
        (128 <= Byte.to_N b < 194)%N \/ (245 <= Byte.to_N b)%N ->
        Utf8.decode_replace (b :: rest)
        = Utf8.REPLACEMENT :: Utf8.decode_replace rest)
  /\ (forall b0 b1 rest,
        (194 <= Byte.to_N b0 < 245)%N ->
        second_allowed (Byte.to_N b0) (Byte.to_N b1) = false ->
        Utf8.decode_replace (b0 :: b1 :: rest)
        = Utf8.REPLACEMENT :: Utf8.decode_replace (b1 :: rest))
  /\ (forall b0 b1 b2 rest,
        (224 <= Byte.to_N b0 < 245)%N ->
        second_allowed (Byte.to_N b0) (Byte.to_N b1) = true ->
        (Byte.to_N b2 < 128)%N \/ (191 < Byte.to_N b2)%N ->
        Utf8.decode_replace (b0 :: b1 :: b2 :: rest)
        = Utf8.REPLACEMENT :: Utf8.decode_replace (b2 :: rest))
  /\ (forall b0 b1 b2 b3 rest,
        (240 <= Byte.to_N b0 < 245)%N ->
        second_allowed (Byte.to_N b0) (Byte.to_N b1) = true ->
        (128 <= Byte.to_N b2 <= 191)%N ->
        (Byte.to_N b3 < 128)%N \/ (191 < Byte.to_N b3)%N ->
        Utf8.decode_replace (b0 :: b1 :: b2 :: b3 :: rest)
        = Utf8.REPLACEMENT :: Utf8.decode_replace (b3 :: rest))
  /\ (forall b0 b1 b2,
        ((194 <= Byte.to_N b0 < 245)%N ->
         Utf8.decode_replace [b0] = [Utf8.REPLACEMENT])
        /\ ((224 <= Byte.to_N b0 < 245)%N ->
            second_allowed (Byte.to_N b0) (Byte.to_N b1) = true ->
            Utf8.decode_replace [b0; b1] = [Utf8.REPLACEMENT])
        /\ ((240 <= Byte.to_N b0 < 245)%N ->
            second_allowed (Byte.to_N b0) (Byte.to_N b1) = true ->
            (128 <= Byte.to_N b2 <= 191)%N ->
            Utf8.decode_replace [b0; b1; b2] = [Utf8.REPLACEMENT])).
Proof.
  cbv zeta. rewrite descend_vec_pointer.
  unfold MSVCstrSummaryProvider, StdStringSummaryProvider, GetNonSyntheticValue.
  split; [intros ->; reflexivity|].
  split.
  { intros data Hlen Hread. rewrite Hread.
    destruct (GetValueAsUnsigned (GetChildMemberWithName valobj "length"));
      [contradiction | reflexivity]. }
  split.
  { intros error Hlen Hread. rewrite Hread.
    destruct (GetValueAsUnsigned (GetChildMemberWithName valobj "length"));
      [contradiction | reflexivity]. }
  split; [intros ->; reflexivity|].
  split.
  { intros data Hlen Hread. rewrite Hread.
    destruct (GetValueAsUnsigned
                (GetChildMemberWithName (GetChildMemberWithName valobj "vec")
                   "len")); [contradiction | reflexivity]. }
  split.
  { intros error Hlen Hread. rewrite Hread.
    destruct (GetValueAsUnsigned
                (GetChildMemberWithName (GetChildMemberWithName valobj "vec")
                   "len")); [contradiction | reflexivity]. }
  split; [exact decode_encode|].
  split; [exact decode_replace_ascii|].
  split; [exact decode_replace_invalid_start|].
  split; [exact decode_bad_second|].
  split; [exact decode_bad_third|].
  split; [exact decode_bad_fourth|].
  exact decode_cut_short.
Qed.

Lemma string_summary_cases_witness :
  @MSVCstrSummaryProvider Examples.host (Examples.str_value 0) = Ok []
  /\ @MSVCstrSummaryProvider MoreExamples.mixed_host (Examples.str_value 13)
     = Ok [104%N; 233%N; 65533%N; 8364%N; 128512%N; 65533%N]
  /\ @MSVCstrSummaryProvider Examples.host (Examples.str_value 2)
     = Raise (Exception "ReadMemory error: %s" "memory read failed")
  /\ @StdStringSummaryProvider MoreExamples.mixed_host
       (Examples.string_value 13)
     = Ok [104%N; 233%N; 65533%N; 8364%N; 128512%N; 65533%N]
  /\ @StdStringSummaryProvider Examples.host (Examples.string_value 2)
     = Raise (Exception "ReadMemory error: %s" "memory read failed")
  /\ Utf8.decode_replace [xe2; x82; xac; x21] = [8364%N; 33%N]
  /\ Utf8.decode_replace [xed; xa0; x80]
     = [65533%N; 65533%N; 65533%N]
  /\ Utf8.decode_replace [xe2; x82; x21] = [65533%N; 33%N]
  /\ Utf8.decode_replace [xf0; x9f; x98; x21] = [65533%N; 33%N]
  /\ Utf8.decode_replace [xf0; x9f; x98] = [65533%N].
Proof.
  refine (conj _ (conj _ (conj _ (conj _ (conj _ (conj _ (conj _
            (conj _ (conj _ _))))))))).
  - destruct (@string_summary_cases Examples.host (Examples.str_value 0))
      as (Hempty & _).
    exact (Hempty eq_refl).
  - destruct (@string_summary_cases MoreExamples.mixed_host
                (Examples.str_value 13)) as (_ & Hread & _).
    apply (Hread
             [x68; xc3; xa9; xff; xe2; x82; xac; xf0; x9f; x98; x80; xe2; x82]);
      [discriminate | reflexivity].
  - destruct (@string_summary_cases Examples.host (Examples.str_value 2))
      as (_ & _ & Hfail & _).
    apply (Hfail "memory read failed"); [discriminate | reflexivity].
  - destruct (@string_summary_cases MoreExamples.mixed_host
                (Examples.string_value 13)) as (_ & _ & _ & _ & Hread & _).
    apply (Hread
             [x68; xc3; xa9; xff; xe2; x82; xac; xf0; x9f; x98; x80; xe2; x82]);
      [discriminate | reflexivity].
  - destruct (@string_summary_cases Examples.host (Examples.string_value 2))
      as (_ & _ & _ & _ & _ & Hfail & _).
    apply (Hfail "memory read failed"); [discriminate | reflexivity].
  - destruct (@string_summary_cases Examples.host (Examples.str_value 0))
      as (_ & _ & _ & _ & _ & _ & Hround & _).
    exact (Hround 8364%N [x21] eq_refl).
  - destruct (@string_summary_cases Examples.host (Examples.str_value 0))
      as (_ & _ & _ & _ & _ & _ & _ & _ & _ & Hsecond & _).
    exact (Hsecond xed xa0 [x80] ltac:(simpl; lia) eq_refl).
  - destruct (@string_summary_cases Examples.host (Examples.str_value 0))
      as (_ & _ & _ & _ & _ & _ & _ & _ & _ & _ & Hthird & _).
    exact (Hthird xe2 x82 x21 [] ltac:(simpl; lia) eq_refl
             ltac:(left; simpl; lia)).
  - destruct (@string_summary_cases Examples.host (Examples.str_value 0))
      as (_ & _ & _ & _ & _ & _ & _ & _ & _ & _ & _ & Hfourth & _).
    exact (Hfourth xf0 x9f x98 x21 [] ltac:(simpl; lia) eq_refl
             ltac:(simpl; lia) ltac:(left; simpl; lia)).
  - destruct (@string_summary_cases Examples.host (Examples.str_value 0))
      as (_ & _ & _ & _ & _ & _ & _ & _ & _ & _ & _ & _ & Hcut).
    destruct (Hcut xf0 x9f x98) as (_ & _ & Hthree).
    exact (Hthree ltac:(simpl; lia) eq_refl ltac:(simpl; lia)).
Defined.
